(** * Provisioning and billing orchestration of the reseller panel

    A shallow embedding of the billing core of the repository:

    - [reseller_pricing_service.get_active_pricing_for_reseller]
    - [marzban_user_service.create_marzban_user_for_reseller]
    - [marzban_user_service.modify_marzban_user_for_reseller]
    - [marzban_user_service.sync_marzban_users_for_reseller_panel]
    - the parts of [marzban_api_client] these three call.

    Database tables are lists of rows (a query's [.first()] is the first row
    that passes the filter), the remote panel and the database driver are
    oracles of an environment record, exceptions are values of a result type,
    and every operation threads a world (database, reseller row, log of remote
    calls) explicitly. *)

From Stdlib Require Import ZArith List Bool String Ascii Lia DecimalString.
Import ListNotations.
Open Scope string_scope.
Open Scope Z_scope.

(** ** Numbers *)

(** Columns declared [DECIMAL(10, 2)] ([wallet_balance], [price],
    [custom_price_per_gb], [amount]) and every [Decimal] quantized with
    [Decimal('0.01')] carry exactly two fractional digits: they are counted in
    hundredths. *)
Definition Money := Z.

(** A finite Python [Decimal]: [coeff * 10 ^ exponent].  The request field
    [data_limit_gb] is a Python float that the service reads in two ways only:
    compared with zero, and through [Decimal(str(data_limit_gb))].  The field
    is therefore modelled, for a finite float, by the decimal that [str]
    prints for it (its shortest round-trip representation, at most 17
    significant digits, of the same sign as the float). *)
Record PyDecimal := mkDec { coeff : Z; exponent : Z }.

(** [len(self._int)]: the number of decimal digits of the coefficient
    (one digit for zero). *)
Fixpoint ndigits_fuel (fuel : nat) (n : Z) : Z :=
  match fuel with
  | O => 1
  | S f => if n <? 10 then 1 else 1 + ndigits_fuel f (n / 10)
  end.

Definition ndigits (n : Z) : Z :=
  ndigits_fuel (Z.to_nat (Z.log2 (Z.abs n) + 1)) (Z.abs n).

(** [Decimal.adjusted()]. *)
Definition adjusted (d : PyDecimal) : Z := exponent d + ndigits (coeff d) - 1.

(** The decimal context's precision ([getcontext().prec], 28 by default). *)
Definition prec : Z := 28.

(** [Decimal.__mul__] against a two-place amount: coefficients multiply and
    exponents add.  The context rounds a product only when its coefficient has
    more than [prec] digits; a float's [str] has at most 17 significant digits
    and a [DECIMAL(10, 2)] value at most 10, so the product is exact. *)
Definition dec_mul_money (d : PyDecimal) (rate : Money) : PyDecimal :=
  mkDec (coeff d * rate) (exponent d - 2).

(** [Decimal._rescale(-2, ROUND_HALF_UP)] on the coefficient: when digits are
    dropped, [_round_half_up] looks at the first dropped digit and bumps the
    kept magnitude when that digit is one of 5..9; the sign is kept. *)
Definition rescale_half_up (d : PyDecimal) : Money :=
  if -2 <=? exponent d then coeff d * 10 ^ (exponent d + 2)
  else
    let k := -2 - exponent d in
    let m := Z.abs (coeff d) in
    let q := m / 10 ^ k in
    let first_dropped := (m / 10 ^ (k - 1)) mod 10 in
    Z.sgn (coeff d) * (if 5 <=? first_dropped then q + 1 else q).

(** [d.quantize(Decimal('0.01'), rounding=ROUND_HALF_UP)]: a zero is
    returned as [0.00] at once; otherwise [None] stands for the
    [InvalidOperation] that [quantize] raises when the result would need more
    than [prec] digits, tested before and after the rescaling. *)
Definition quantize_cents (d : PyDecimal) : option Money :=
  if coeff d =? 0 then Some 0
  else if prec <? adjusted d + 2 + 1 then None
  else
    let c := rescale_half_up d in
    if prec <? ndigits c then None else Some c.

(** [(Decimal(str(gb)) * rate).quantize(Decimal('0.01'), rounding=ROUND_HALF_UP)]. *)
Definition unit_rate_cost (gb : PyDecimal) (rate : Money) : option Money :=
  quantize_cents (dec_mul_money gb rate).

(** ** Text *)

(** [str(n)] of a Python int. *)
Definition str_int (z : Z) : string := NilZero.string_of_int (Z.to_int z).

(** [str(d)] of a two-place [Decimal]: sign, integer part, a point and two
    digits ([Decimal('15.00')] prints [15.00], [Decimal('-0.05')] prints
    [-0.05]). *)
Definition str_money (m : Money) : string :=
  let a := Z.abs m in
  (if m <? 0 then "-" else "") ++
  str_int (a / 100) ++ "." ++ str_int ((a mod 100) / 10) ++ str_int (a mod 10).

(** [needle in hay] on Python strings. *)
Fixpoint contains (needle hay : string) : bool :=
  if prefix needle hay then true
  else match hay with
       | EmptyString => false
       | String _ rest => contains needle rest
       end.

(** ** Time *)

(** A naive [datetime] holding UTC wall-clock time, as [datetime.utcnow()] and
    [datetime.utcfromtimestamp] build it: microseconds since
    1970-01-01T00:00:00. *)
Definition datetime := Z.

(** [datetime.min] and [datetime.max] (years 1 to 9999). *)
Definition datetime_min : datetime := -62135596800000000.
Definition datetime_max : datetime := 253402300799999999.

Definition in_datetime_range (dt : Z) : bool :=
  (datetime_min <=? dt) && (dt <=? datetime_max).

(** [datetime.utcfromtimestamp(ts)] of an integer [ts]; [None] is the
    exception raised for a year outside 1..9999. *)
Definition utcfromtimestamp (ts : Z) : option datetime :=
  if in_datetime_range (ts * 1000000) then Some (ts * 1000000) else None.

(** [dt + timedelta(days=days)]; [None] is the [OverflowError] raised when the
    [timedelta] or the sum leaves the representable range. *)
Definition add_days (dt : datetime) (days : Z) : option datetime :=
  if Z.abs days <=? 999999999 then
    let r := dt + days * 86400 * 1000000 in
    if in_datetime_range r then Some r else None
  else None.

(** ** Binary64 arithmetic, as far as [datetime.timestamp()] uses it *)

(** The integer nearest to [n / d], for [0 < d]; a tie goes to the even
    one. *)
Definition div_half_even (n d : Z) : Z :=
  let q := n / d in
  let r := n mod d in
  if 2 * r <? d then q
  else if d <? 2 * r then q + 1
  else if Z.even q then q else q + 1.

(** A finite double: [significand * 2 ^ binary_exponent]. *)
Record Double := mkDouble {
  significand : Z;
  binary_exponent : Z
}.

(** [a / (d * 2 ^ e)] as a ratio of integers. *)
Definition scaled (a d e : Z) : Z * Z :=
  if 0 <=? e then (a, d * 2 ^ e) else (a * 2 ^ (- e), d).

(** [n / d], for [0 < d], rounded to the nearest double with 53 significant
    bits, a tie going to the even significand.  The values that
    [timestamp()] handles are far from the subnormal range and from
    overflow, which are left out. *)
Definition round_to_double (n d : Z) : Double :=
  if n =? 0 then mkDouble 0 0
  else
    let a := Z.abs n in
    (* 2^52 < a / (d * 2^e0) < 2^54 *)
    let e0 := Z.log2 a - Z.log2 d - 53 in
    let '(n0, d0) := scaled a d e0 in
    let e := if 2 ^ 53 * d0 <=? n0 then e0 + 1 else e0 in
    let '(n1, d1) := scaled a d e in
    mkDouble (Z.sgn n * div_half_even n1 d1) e.

(** The conversion of a C integer to [double], the division and the sum of
    doubles, each rounded once; and [int(x)], which drops the fraction
    towards zero. *)
Definition double_of_int (z : Z) : Double := round_to_double z 1.

Definition double_div (a b : Z) : Double := round_to_double a b.

Definition double_add (x y : Double) : Double :=
  let e := Z.min (binary_exponent x) (binary_exponent y) in
  let n := significand x * 2 ^ (binary_exponent x - e)
           + significand y * 2 ^ (binary_exponent y - e) in
  if 0 <=? e then round_to_double (n * 2 ^ e) 1 else round_to_double n (2 ^ (- e)).

Definition int_of_double (x : Double) : Z :=
  if 0 <=? binary_exponent x then significand x * 2 ^ binary_exponent x
  else Z.quot (significand x) (2 ^ (- binary_exponent x)).

(** ** Rows of the database *)

(** [PricingPlan] (pricing_plan.py). *)
Record PricingPlan := mkPlan {
  plan_id : Z;
  plan_name : string;
  duration_days : Z;
  price : Money
}.

(** [ResellerPricing] (reseller_pricing.py); [rp_marzban_panel_id = None] is
    the generic configuration of the reseller. *)
Record ResellerPricing := mkPricing {
  rp_id : Z;
  rp_reseller_id : Z;
  pricing_plan_id : option Z;
  custom_price_per_gb : option Money;
  rp_marzban_panel_id : option Z
}.

(** [MarzbanPanel] (marzban_panel.py). *)
Record MarzbanPanel := mkPanel {
  panel_id : Z;
  panel_name : string;
  api_url : string;
  admin_username : string;
  encrypted_admin_password : option string
}.

(** A user object of the panel's JSON API, as far as the service reads it:
    the [username], [creator_admin_id] and [expire] keys ([None]: the key is
    missing or null) and the rest of the object, kept opaque. *)
Record ApiUser := mkApiUser {
  au_username : option string;
  au_creator_admin_id : option Z;
  au_expire : option Z;
  au_rest : string
}.

(** [MarzbanUser] (marzban_user.py), the local mirror of a remote user.
    [api_response_data = None] is a NULL or empty JSON column. *)
Record MarzbanUser := mkUser {
  mu_id : Z;
  marzban_username : string;
  marzban_panel_id : Z;
  mu_reseller_id : Z;
  created_by_new_panel : bool;
  notes : option string;
  api_response_data : option ApiUser;
  last_synced_at : datetime
}.

(** [Transaction] (transaction.py), a ledger entry.  The free-text
    [description] column is not modelled. *)
Record Transaction := mkTx {
  tx_reseller_id : Z;
  transaction_type : string;
  amount : Money;
  tx_marzban_user_id : option Z;
  tx_pricing_plan_id : option Z;
  tx_reseller_pricing_id : option Z
}.

(** [Reseller] (reseller.py); [panels] holds the ids of the panels granted
    through [reseller_panel_accesses]. *)
Record Reseller := mkReseller {
  reseller_id : Z;
  marzban_admin_id : Z;
  wallet_balance : Money;
  allow_negative_balance : bool;
  panels : list Z
}.

Record Db := mkDb {
  marzban_panels : list MarzbanPanel;
  pricing_plans : list PricingPlan;
  reseller_pricings : list ResellerPricing;
  marzban_users : list MarzbanUser;
  transactions : list Transaction;
  next_user_id : Z
}.

(** ** Requests *)

(** [int(gb * 1024 * 1024 * 1024)] of [gb_to_bytes]: a float product, kept
    symbolic. *)
Inductive Bytes := gb_to_bytes (gb : PyDecimal).

(** The fields of [ResellerMarzbanUserCreateRequest] that
    [create_marzban_user_for_reseller] reads ([proxies] and [inbounds] are
    opaque JSON). *)
Record ResellerMarzbanUserCreateRequest := mkCreateRequest {
  cr_marzban_panel_id : Z;
  cr_username : string;
  cr_data_limit_gb : option PyDecimal;
  cr_expire_days : option Z;
  cr_proxies : option string;
  cr_inbounds : option string;
  cr_telegram_id : option string;
  cr_note : option string
}.

(** The fields of [ResellerMarzbanUserUpdateRequest] that
    [modify_marzban_user_for_reseller] reads. *)
Record ResellerMarzbanUserUpdateRequest := mkUpdateRequest {
  ur_data_limit_gb : option PyDecimal;
  ur_expire_days_to_add : option Z;
  ur_proxies : option string;
  ur_inbounds : option string;
  ur_note : option string
}.

(** [marzban_api_payload], the partial update sent with PATCH: a key is
    present when its field is [Some]. *)
Record UpdatePayload := mkPayload {
  p_data_limit : option Bytes;
  p_expire : option Z;
  p_proxies : option string;
  p_inbounds : option string
}.

Definition empty_payload : UpdatePayload := mkPayload None None None None.

(** [not marzban_api_payload]: the dict has no key. *)
Definition payload_is_empty (p : UpdatePayload) : bool :=
  match p_data_limit p, p_expire p, p_proxies p, p_inbounds p with
  | None, None, None, None => true
  | _, _, _, _ => false
  end.

(** The keyword arguments of the call at marzban_user_service.py:492. *)
Record CreateKwargs := mkCreateKwargs {
  kw_panel_url : string;
  kw_token : string;
  kw_username : string;
  kw_admin_id : Z;
  kw_proxies : option string;
  kw_inbounds : option string;
  kw_expire_timestamp : option Z;
  kw_data_limit_bytes : option Bytes;
  kw_telegram_id : option string;
  kw_note : option string
}.

(** ** Exceptions *)

(** [MarzbanAPIError(message, status_code)] of marzban_api_client.py. *)
Record MarzbanAPIError := mkAPIError {
  api_message : string;
  status_code : option Z
}.

(** Every [raise MarzbanUserServiceError(...)] of marzban_user_service.py,
    with the values its message interpolates.  The service has this one
    exception class; callers tell the cases apart by the message text, which
    [message] below prints. *)
Inductive ServiceError :=
  (* create_marzban_user_for_reseller *)
  | NoPanelAccess (panel : Z)
  | TargetPanelNotFound (panel : Z)
  | NoActivePricing
  | DataLimitRequired
  | InvalidPricingConfiguration
  | InsufficientBalance (required available : Money)
  | NoCredentials (panel : string)
  | AuthenticationFailed (panel : string)
  | MarzbanApiError (detail : string)
  | CreateUnexpectedResponse
  | DatabaseErrorAfterCreation (e_db : string) (username panel : string)
  (* modify_marzban_user_for_reseller *)
  | UserNotFoundOrForeign
  | PanelDetailsNotFound
  | DataLimitNotPositive
  | NoCustomGbPricing
  | ExpireDaysNotPositive
  | NoSuitablePricingPlan
  | PlanDurationMismatch (requested plan_duration : Z)
  | NothingToUpdate
  | InsufficientBalanceForModification (required available : Money)
  | MarzbanApiErrorDuringUpdate (detail : string)
  | UpdateUnexpectedResponse
  | DatabaseErrorAfterModification (e_db : string) (username panel : string)
  (* sync_marzban_users_for_reseller_panel *)
  | MissingCredentials (panel : Z)
  | SyncAuthenticationFailed (panel : Z).

(** [str(e)] of a [MarzbanUserServiceError]. *)
Definition message (e : ServiceError) : string :=
  match e with
  | NoPanelAccess p =>
      "Reseller does not have access to Marzban panel ID " ++ str_int p ++ "."
  | TargetPanelNotFound p =>
      "Target Marzban panel ID " ++ str_int p ++ " not found."
  | NoActivePricing =>
      "No active pricing configuration found for this reseller and panel. Please contact admin."
  | DataLimitRequired =>
      "Data limit (data_limit_gb) must be provided and positive for custom GB pricing."
  | InvalidPricingConfiguration =>
      "Invalid pricing configuration found. Contact admin."
  | InsufficientBalance c b =>
      "Insufficient wallet balance. Required: " ++ str_money c
      ++ ", Available: " ++ str_money b ++ "."
  | NoCredentials n => "Could not retrieve credentials for panel " ++ n ++ "."
  | AuthenticationFailed n =>
      "Failed to authenticate with Marzban panel " ++ n ++ "."
  | MarzbanApiError d => "Marzban API error: " ++ d
  | CreateUnexpectedResponse =>
      "Failed to create user on Marzban panel or received unexpected response."
  | DatabaseErrorAfterCreation e u n =>
      "Database error after Marzban user creation: " ++ e
      ++ ". Manual reconciliation may be needed for user '" ++ u
      ++ "' on panel '" ++ n ++ "'."
  | UserNotFoundOrForeign =>
      "Marzban user not found or does not belong to this reseller."
  | PanelDetailsNotFound => "Marzban panel details not found for this user."
  | DataLimitNotPositive => "data_limit_gb must be positive if provided."
  | NoCustomGbPricing =>
      "Cannot modify data_limit_gb: No custom GB pricing found for this reseller on this panel."
  | ExpireDaysNotPositive => "expire_days_to_add must be positive if provided."
  | NoSuitablePricingPlan =>
      "Cannot extend expiry: No suitable pricing plan found for renewal for this reseller on this panel."
  | PlanDurationMismatch d pd =>
      "Cannot extend expiry: Requested duration " ++ str_int d
      ++ " days does not match assigned plan duration " ++ str_int pd ++ " days."
  | NothingToUpdate =>
      "Nothing to update. Provide data for data_limit, expiry, proxies, inbounds, or note."
  | InsufficientBalanceForModification c b =>
      "Insufficient wallet balance for modification. Required: " ++ str_money c
      ++ ", Available: " ++ str_money b ++ "."
  | MarzbanApiErrorDuringUpdate d => "Marzban API error during update: " ++ d
  | UpdateUnexpectedResponse =>
      "Failed to update user on Marzban panel or received unexpected response."
  | DatabaseErrorAfterModification e u n =>
      "Database error after Marzban user modification: " ++ e
      ++ ". Manual reconciliation may be needed for user '" ++ u
      ++ "' on panel '" ++ n ++ "'."
  | MissingCredentials p => "Missing credentials for panel ID " ++ str_int p ++ "."
  | SyncAuthenticationFailed p =>
      "Authentication failed for panel ID " ++ str_int p ++ "."
  end.

(** What a call can raise: the service's own error, a [MarzbanAPIError] no
    handler turned into one, or any other Python exception (its class and
    text). *)
Inductive exn :=
  | MarzbanUserServiceError (e : ServiceError)
  | APIError (e : MarzbanAPIError)
  | PyError (cls msg : string).

Inductive result (A : Type) :=
  | Ok (a : A)
  | Raise (e : exn).
Arguments Ok {A} a.
Arguments Raise {A} e.

(** ** The world and its oracles *)

(** The calls an operation makes to its collaborators, newest first: the
    client functions of marzban_api_client.py, and the call of line 492
    ([CreateUserCall], with its keyword arguments). *)
Inductive RemoteCall :=
  | TokenCall (url username password : string)
  | CreateUserCall (kw : CreateKwargs)
  | UpdateUserCall (url token username : string) (payload : UpdatePayload)
  | ListUsersCall (url token : string).

(** The state an operation runs in: the database as committed, the reseller
    row behind the [reseller] argument, and the calls issued so far. *)
Record World := mkWorld {
  db : Db;
  reseller : Reseller;
  remote_log : list RemoteCall
}.

(** What a call into marzban_api_client.py (or into whatever a name is bound
    to) comes back with: a value, a [MarzbanAPIError], or another exception. *)
Inductive call_result (A : Type) :=
  | Returned (a : A)
  | RaisedAPIError (e : MarzbanAPIError)
  | RaisedOther (cls msg : string).
Arguments Returned {A} a.
Arguments RaisedAPIError {A} e.
Arguments RaisedOther {A} cls msg.

(** The host's reading of a naive local time, as [timestamp()] asks for it:
    the seconds since the epoch that the zone rules of the host give to a
    wall-clock second, or the exception raised for a time outside the
    platform's range. *)
Inductive LocalTime :=
  | EpochSeconds (seconds : Z)
  | LocalTimeError (cls msg : string).

(** What the collaborators answer.  [commit_fault] and [item_fault] are
    exceptions the database driver raises inside a unit of work (connection
    loss, a rejected row), the second indexed by the position of the listed
    user being handled; [utcnow] is indexed by the line of
    marzban_user_service.py that reads the clock and [db_now] is the server's
    [now()].  [local_to_seconds] reads the wall-clock second [s], counted
    from 1970-01-01T00:00:00, in the zone of the host; on a host whose zone
    is UTC it answers [s]. *)
Record Env := mkEnv {
  decrypt_data : string -> option string;
  get_marzban_access_token : string -> string -> string -> call_result (option string);
  update_marzban_user_on_panel :
    string -> string -> string -> UpdatePayload -> call_result (option ApiUser);
  panel_users : string -> string -> call_result (list ApiUser);
  commit_fault : option string;
  item_fault : nat -> option string;
  utcnow : Z -> datetime;
  db_now : datetime;
  local_to_seconds : Z -> LocalTime
}.

(** [int(dt.timestamp())] of a naive datetime (lines 246 and 422).
    [timestamp()] reads a naive value as a local time of the host and
    answers the float [seconds + microsecond / 1e6]; [int] drops the
    fraction. *)
Definition timestamp (env : Env) (dt : datetime) : result Z :=
  match local_to_seconds env (dt / 1000000) with
  | LocalTimeError cls msg => Raise (PyError cls msg)
  | EpochSeconds seconds =>
      Ok (int_of_double
            (double_add (double_of_int seconds)
                        (double_div (dt mod 1000000) 1000000)))
  end.

(** The year of the civil calendar that holds day [days] after
    1970-01-01. *)
Definition civil_year (days : Z) : Z :=
  let z := days + 719468 in
  let era := z / 146097 in
  let doe := z - era * 146097 in
  let yoe := (doe - doe / 1460 + doe / 36524 - doe / 146096) / 365 in
  let doy := doe - (365 * yoe + yoe / 4 - yoe / 100) in
  yoe + era * 400 + (if 306 <=? doy then 1 else 0).

(** What [datetime.utcfromtimestamp(ts)] raises when [ts] names no
    [datetime]: the integer does not fit the platform's [time_t], its year
    does not fit the [int] of C's [struct tm], or the year is outside
    1..9999. *)
Definition utcfromtimestamp_error (ts : Z) : exn :=
  if (ts <? - 2 ^ 63) || (2 ^ 63 <=? ts)
  then PyError "OverflowError" "timestamp out of range for platform time_t"
  else
    let year := civil_year (ts / 86400) in
    if (year - 1900 <? - 2 ^ 31) || (2 ^ 31 <=? year - 1900)
    then PyError "OSError" "[Errno 75] Value too large for defined data type"
    else PyError "ValueError" ("year " ++ str_int year ++ " is out of range").

(** Operations thread the world and may raise. *)
Definition M (A : Type) : Type := World -> result A * World.

Definition ret {A} (a : A) : M A := fun w => (Ok a, w).
Definition raise {A} (e : exn) : M A := fun w => (Raise e, w).
Definition service_error {A} (e : ServiceError) : M A :=
  raise (MarzbanUserServiceError e).
Definition bind {A B} (m : M A) (k : A -> M B) : M B :=
  fun w => match m w with
           | (Ok a, w') => k a w'
           | (Raise e, w') => (Raise e, w')
           end.

Notation "x <- m ;; k" := (bind m (fun x => k))
  (at level 61, m at next level, right associativity).
Notation "' pat <- m ;; k" := (bind m (fun x => match x with pat => k end))
  (at level 61, pat pattern, m at next level, right associativity).
Notation "m ;;; k" := (bind m (fun _ => k))
  (at level 61, right associativity).

Definition get_world : M World := fun w => (Ok w, w).
Definition issue (c : RemoteCall) : M unit :=
  fun w => (Ok tt, mkWorld (db w) (reseller w) (c :: remote_log w)).
Definition of_result {A} (r : result A) : M A := fun w => (r, w).
Definition guard (b : bool) (e : ServiceError) : M unit :=
  if b then ret tt else service_error e.
Definition of_option {A} (o : option A) (e : exn) : M A :=
  match o with Some a => ret a | None => raise e end.

(** A call outside any [try]: what it raises goes up unchanged. *)
Definition uncaught {A} (c : call_result A) : M A :=
  match c with
  | Returned a => ret a
  | RaisedAPIError e => raise (APIError e)
  | RaisedOther cls msg => raise (PyError cls msg)
  end.

(** A call under [except MarzbanAPIError as e: raise
    MarzbanUserServiceError(f"...{str(e)}")]. *)
Definition translated {A} (c : call_result A) (wrap : string -> ServiceError) : M A :=
  match c with
  | Returned a => ret a
  | RaisedAPIError e => service_error (wrap (api_message e))
  | RaisedOther cls msg => raise (PyError cls msg)
  end.

(** [if not s] on an optional string: [None] and the empty string are falsy. *)
Definition truthy (s : option string) : option string :=
  match s with
  | Some "" => None
  | other => other
  end.

(** ** Queries *)

(** [marzban_panel_service.get_panel]. *)
Definition get_panel (d : Db) (pid : Z) : option MarzbanPanel :=
  find (fun p => panel_id p =? pid) (marzban_panels d).

(** [marzban_panel_service.get_panel_decrypted_password]: [decrypt_data]
    answers [None] where the source catches its [ValueError]. *)
Definition get_panel_decrypted_password (env : Env) (d : Db) (pid : Z)
  : option string :=
  match get_panel d pid with
  | Some p =>
      match truthy (encrypted_admin_password p) with
      | Some c => decrypt_data env c
      | None => None
      end
  | None => None
  end.

Definition panel_is (pid : option Z) (rp : ResellerPricing) : bool :=
  match rp_marzban_panel_id rp, pid with
  | Some a, Some b => a =? b
  | None, None => true
  | _, _ => false
  end.

(** [reseller_pricing_service.get_active_pricing_for_reseller]. *)
Definition get_active_pricing_for_reseller
  (d : Db) (rid : Z) (marzban_panel_id : option Z) : option ResellerPricing :=
  let pricing :=
    match marzban_panel_id with
    | Some p =>
        find (fun rp => (rp_reseller_id rp =? rid) && panel_is (Some p) rp)
             (reseller_pricings d)
    | None => None
    end in
  match pricing with
  | Some rp => Some rp
  | None =>
      find (fun rp => (rp_reseller_id rp =? rid) && panel_is None rp)
           (reseller_pricings d)
  end.

(** The [pricing_plan] relationship of a [ResellerPricing] row. *)
Definition pricing_plan (d : Db) (rp : ResellerPricing) : option PricingPlan :=
  match pricing_plan_id rp with
  | Some i => find (fun pl => plan_id pl =? i) (pricing_plans d)
  | None => None
  end.

(** [get_marzban_user_by_username_and_panel]. *)
Definition get_marzban_user_by_username_and_panel
  (d : Db) (username : string) (pid : Z) : option MarzbanUser :=
  find (fun u => String.eqb (marzban_username u) username
                 && (marzban_panel_id u =? pid))
       (marzban_users d).

(** [get_marzban_user_for_reseller]. *)
Definition get_marzban_user_for_reseller
  (d : Db) (marzban_user_id rid : Z) : option MarzbanUser :=
  find (fun u => (mu_id u =? marzban_user_id) && (mu_reseller_id u =? rid))
       (marzban_users d).

(** ** Writes *)

(** The row with primary key [mu_id u] is overwritten by [u]. *)
Definition save_user (u : MarzbanUser) (us : list MarzbanUser) : list MarzbanUser :=
  map (fun v => if mu_id v =? mu_id u then u else v) us.

Definition set_users (d : Db) (us : list MarzbanUser) : Db :=
  mkDb (marzban_panels d) (pricing_plans d) (reseller_pricings d) us
       (transactions d) (next_user_id d).

(** A new mirror row takes the next autoincrement id. *)
Definition insert_user (d : Db) (u : Z -> MarzbanUser) : Db :=
  mkDb (marzban_panels d) (pricing_plans d) (reseller_pricings d)
       (marzban_users d ++ [u (next_user_id d)])%list
       (transactions d) (next_user_id d + 1).

Definition insert_transaction (d : Db) (t : Transaction) : Db :=
  mkDb (marzban_panels d) (pricing_plans d) (reseller_pricings d)
       (marzban_users d) (t :: transactions d) (next_user_id d).

(** [reseller.wallet_balance -= cost]. *)
Definition debit (r : Reseller) (cost : Money) : Reseller :=
  mkReseller (reseller_id r) (marzban_admin_id r) (wallet_balance r - cost)
             (allow_negative_balance r) (panels r).

Definition is_none {A} (o : option A) : bool :=
  match o with None => true | Some _ => false end.

(** ** Creating a user: [create_marzban_user_for_reseller] *)

(** [days_to_timestamp]. *)
Definition days_to_timestamp (env : Env) (days : option Z) : result (option Z) :=
  match days with
  | None => Ok None
  | Some d =>
      match add_days (utcnow env 422) d with
      | Some dt =>
          match timestamp env dt with
          | Ok ts => Ok (Some ts)
          | Raise e => Raise e
          end
      | None => Raise (PyError "OverflowError" "date value out of range")
      end
  end.

(** The [decimal.InvalidOperation] of [quantize], with the text that the C
    implementation of [decimal] gives it. *)
Definition InvalidOperation : exn :=
  PyError "decimal.InvalidOperation" "[<class 'decimal.InvalidOperation'>]".

(** Step 2 (lines 455-470): the cost and the plan id kept for the ledger. *)
Definition creation_cost
  (d : Db) (active_pricing : ResellerPricing)
  (req : ResellerMarzbanUserCreateRequest) : result (Money * option Z) :=
  match custom_price_per_gb active_pricing with
  | Some rate =>
      match cr_data_limit_gb req with
      | None => Raise (MarzbanUserServiceError DataLimitRequired)
      | Some gb =>
          if coeff gb <=? 0 then Raise (MarzbanUserServiceError DataLimitRequired)
          else match unit_rate_cost gb rate with
               | Some cost => Ok (cost, None)
               | None => Raise InvalidOperation
               end
      end
  | None =>
      match pricing_plan_id active_pricing, pricing_plan d active_pricing with
      | Some pid, Some plan => Ok (price plan, Some pid)
      | _, _ => Raise (MarzbanUserServiceError InvalidPricingConfiguration)
      end
  end.

(** Steps 1 and 2 (lines 428-470): the panel, the pricing row, the cost and
    the plan id, or the error raised on the way. *)
Definition creation_quote
  (w : World) (req : ResellerMarzbanUserCreateRequest)
  : result (MarzbanPanel * ResellerPricing * Money * option Z) :=
  if negb (existsb (fun p => p =? cr_marzban_panel_id req) (panels (reseller w)))
  then Raise (MarzbanUserServiceError (NoPanelAccess (cr_marzban_panel_id req)))
  else
    match get_panel (db w) (cr_marzban_panel_id req) with
    | None =>
        Raise (MarzbanUserServiceError (TargetPanelNotFound (cr_marzban_panel_id req)))
    | Some target_panel =>
        match get_active_pricing_for_reseller
                (db w) (reseller_id (reseller w)) (Some (panel_id target_panel)) with
        | None => Raise (MarzbanUserServiceError NoActivePricing)
        | Some active_pricing =>
            match creation_cost (db w) active_pricing req with
            | Raise e => Raise e
            | Ok (cost, plan) => Ok (target_panel, active_pricing, cost, plan)
            end
        end
    end.

(** Step 5 (lines 513-575): one unit of work.  The flush rejects a second
    mirror row for the same (username, panel) (the unique constraint
    [uq_marzban_user_panel_username]); the commit may fail for a reason of the
    driver's.  Either way the handler rolls back, so the database and the
    wallet stay as they were, and raises the reconciliation error. *)
Definition commit_creation
  (env : Env) (target_panel : MarzbanPanel) (active_pricing : ResellerPricing)
  (req : ResellerMarzbanUserCreateRequest) (cost : Money) (plan : option Z)
  (response : ApiUser) (username : string) : M MarzbanUser :=
  fun w =>
    let d := db w in
    let r := reseller w in
    let rolled_back e :=
      (Raise (MarzbanUserServiceError
                (DatabaseErrorAfterCreation e username (panel_name target_panel))),
       w) in
    match get_marzban_user_by_username_and_panel d username (panel_id target_panel),
          commit_fault env with
    | Some _, _ => rolled_back "uq_marzban_user_panel_username"
    | None, Some e => rolled_back e
    | None, None =>
        let row id :=
          mkUser id username (panel_id target_panel) (reseller_id r) true
                 (cr_note req) (Some response) (db_now env) in
        let tx :=
          mkTx (reseller_id r) "user_creation_cost" (- cost)
               (Some (next_user_id d)) plan (Some (rp_id active_pricing)) in
        (Ok (row (next_user_id d)),
         mkWorld (insert_transaction (insert_user d row) tx)
                 (debit r cost) (remote_log w))
    end.

Section Create.

(** The function the module-level name [create_marzban_user] stands for at
    the call of line 492, as a function of the keyword arguments. *)
Variable create_marzban_user : CreateKwargs -> call_result (option ApiUser).

(** Steps 1 to 4 (lines 428-510): everything up to and including the call
    that creates the user on the panel and the check of its answer. *)
Definition create_remote_phase
  (env : Env) (req : ResellerMarzbanUserCreateRequest)
  : M (MarzbanPanel * ResellerPricing * Money * option Z * ApiUser * string) :=
  w <- get_world ;;
  (* Steps 1 and 2 *)
  '(target_panel, active_pricing, cost, plan) <- of_result (creation_quote w req) ;;
  (* Step 3: wallet check *)
  guard (negb ((wallet_balance (reseller w) <? cost)
               && negb (allow_negative_balance (reseller w))))
        (InsufficientBalance cost (wallet_balance (reseller w))) ;;;
  (* Step 4: Marzban API call *)
  decrypted_password <-
    of_option (truthy (get_panel_decrypted_password env (db w) (panel_id target_panel)))
              (MarzbanUserServiceError (NoCredentials (panel_name target_panel))) ;;
  issue (TokenCall (api_url target_panel) (admin_username target_panel)
                   decrypted_password) ;;;
  token <- uncaught (get_marzban_access_token env (api_url target_panel)
                       (admin_username target_panel) decrypted_password) ;;
  marzban_token <-
    of_option (truthy token)
              (MarzbanUserServiceError (AuthenticationFailed (panel_name target_panel))) ;;
  let data_limit_in_bytes := option_map gb_to_bytes (cr_data_limit_gb req) in
  expire_ts <- of_result (days_to_timestamp env (cr_expire_days req)) ;;
  let kw :=
    mkCreateKwargs (api_url target_panel) marzban_token (cr_username req)
                   (marzban_admin_id (reseller w)) (cr_proxies req)
                   (cr_inbounds req) expire_ts data_limit_in_bytes
                   (cr_telegram_id req) (cr_note req) in
  issue (CreateUserCall kw) ;;;
  marzban_user_api_response <- translated (create_marzban_user kw) MarzbanApiError ;;
  match marzban_user_api_response with
  | None => service_error CreateUnexpectedResponse
  | Some response =>
      match truthy (au_username response) with
      | None => service_error CreateUnexpectedResponse
      | Some username =>
          ret (target_panel, active_pricing, cost, plan, response, username)
      end
  end.

Definition create_marzban_user_for_reseller
  (env : Env) (req : ResellerMarzbanUserCreateRequest) : M MarzbanUser :=
  '(target_panel, active_pricing, cost, plan, response, username) <-
    create_remote_phase env req ;;
  (* Step 5: database updates *)
  commit_creation env target_panel active_pricing req cost plan response username.

End Create.

(** marzban_user_service.py defines [create_marzban_user(db, user_in, commit)]
    at line 15 and imports from marzban_api_client only
    [get_marzban_access_token], [get_marzban_users], [MarzbanAPIError],
    [update_marzban_user] and [get_marzban_user_usage].  At line 492 the name
    therefore stands for the local row constructor, and a call that passes
    [panel_url], [token], ... by keyword cannot bind its parameters. *)
Definition create_marzban_user_local (kw : CreateKwargs)
  : call_result (option ApiUser) :=
  RaisedOther "TypeError"
    "create_marzban_user() got an unexpected keyword argument 'panel_url'".

(** [create_marzban_user_for_reseller] as the module is written. *)
Definition create_marzban_user_for_reseller_as_written :=
  create_marzban_user_for_reseller create_marzban_user_local.

(** ** The API client's [create_marzban_user] (marzban_api_client.py:104-177) *)

(** The [detail] of an error body: a string, a dict with a ["username"] key
    (its value, or the first element of its list), or anything else (its
    [str]). *)
Inductive HttpDetail :=
  | DetailText (s : string)
  | DetailUsername (detail_message : string)
  | DetailOther (repr : string).

Inductive HttpOutcome :=
  | HttpOK (body : option ApiUser)
  | HttpError (status : Z) (detail : HttpDetail)
  | RequestFailed (e : string).

Definition api_client_create_marzban_user
  (post : CreateKwargs -> HttpOutcome) (kw : CreateKwargs)
  : call_result (option ApiUser) :=
  match post kw with
  | HttpOK body => Returned body
  | HttpError status detail =>
      let head := "Failed to create Marzban user (HTTP " ++ str_int status ++ "): " in
      let error_message :=
        match detail with
        | DetailUsername detail_message => head ++ "Username - " ++ detail_message
        | DetailText s => head ++ s
        | DetailOther repr => head ++ repr
        end in
      RaisedAPIError (mkAPIError error_message (Some status))
  | RequestFailed e =>
      RaisedAPIError (mkAPIError
                        ("Request failed while creating Marzban user: " ++ e) None)
  end.

(** ** Modifying a user: [modify_marzban_user_for_reseller] *)

(** What lines 184-258 accumulate: the cost, the PATCH payload, the ids kept
    for the ledger, and which description parts were appended ([b_added]
    holds the plan's name). *)
Record Billing := mkBilling {
  b_cost : Money;
  b_payload : UpdatePayload;
  b_pricing_plan_id_for_tx : option Z;
  b_reseller_pricing_id_for_tx : option Z;
  b_set_data : bool;
  b_added : option string
}.

Definition no_billing : Billing :=
  mkBilling 0 empty_payload None None false None.

(** Lines 194-213: the data-limit branch. *)
Definition data_limit_step
  (active_pricing : option ResellerPricing)
  (req : ResellerMarzbanUserUpdateRequest) (b : Billing) : result Billing :=
  match ur_data_limit_gb req with
  | None => Ok b
  | Some gb =>
      if coeff gb <=? 0 then Raise (MarzbanUserServiceError DataLimitNotPositive)
      else
        match active_pricing with
        | None => Raise (MarzbanUserServiceError NoCustomGbPricing)
        | Some rp =>
            match custom_price_per_gb rp with
            | None => Raise (MarzbanUserServiceError NoCustomGbPricing)
            | Some rate =>
                match unit_rate_cost gb rate with
                | None => Raise InvalidOperation
                | Some cost_data =>
                    let p := b_payload b in
                    Ok (mkBilling (b_cost b + cost_data)
                          (mkPayload (Some (gb_to_bytes gb)) (p_expire p)
                                     (p_proxies p) (p_inbounds p))
                          (b_pricing_plan_id_for_tx b) (Some (rp_id rp))
                          true (b_added b))
                end
            end
        end
  end.

(** Lines 234-246: the expiry sent to the panel. *)
Definition new_expire (env : Env) (local_db_user : MarzbanUser) (days : Z)
  : result Z :=
  let current_expire_ts :=
    match api_response_data local_db_user with
    | Some data => au_expire data
    | None => None
    end in
  let current_expire_dt :=
    match current_expire_ts with
    | None => Ok (utcnow env 239)
    | Some ts =>
        if 0 <? ts then
          match utcfromtimestamp ts with
          | None => Raise (utcfromtimestamp_error ts)
          | Some dt => Ok (if utcnow env 242 <? dt then dt else utcnow env 239)
          end
        else Ok (utcnow env 239)
    end in
  match current_expire_dt with
  | Raise e => Raise e
  | Ok dt =>
      match add_days dt days with
      | None => Raise (PyError "OverflowError" "date value out of range")
      | Some new_expire_dt => timestamp env new_expire_dt
      end
  end.

(** Lines 215-250: the expiry branch. *)
Definition expire_step
  (env : Env) (d : Db) (local_db_user : MarzbanUser)
  (active_pricing : option ResellerPricing)
  (req : ResellerMarzbanUserUpdateRequest) (b : Billing) : result Billing :=
  match ur_expire_days_to_add req with
  | None => Ok b
  | Some days =>
      if days <=? 0 then Raise (MarzbanUserServiceError ExpireDaysNotPositive)
      else
        match active_pricing with
        | None => Raise (MarzbanUserServiceError NoSuitablePricingPlan)
        | Some rp =>
            match pricing_plan_id rp, pricing_plan d rp with
            | Some pid, Some plan =>
                if duration_days plan =? days then
                  match new_expire env local_db_user days with
                  | Raise e => Raise e
                  | Ok ts =>
                      let p := b_payload b in
                      Ok (mkBilling (b_cost b + price plan)
                            (mkPayload (p_data_limit p) (Some ts)
                                       (p_proxies p) (p_inbounds p))
                            (Some pid) (Some (rp_id rp))
                            (b_set_data b) (Some (plan_name plan)))
                  end
                else
                  Raise (MarzbanUserServiceError
                           (PlanDurationMismatch days (duration_days plan)))
            | _, _ => Raise (MarzbanUserServiceError NoSuitablePricingPlan)
            end
        end
  end.

(** Lines 252-258: fields without a cost. *)
Definition config_step (req : ResellerMarzbanUserUpdateRequest) (b : Billing)
  : Billing :=
  let p := b_payload b in
  mkBilling (b_cost b)
    (mkPayload (p_data_limit p) (p_expire p)
       (match ur_proxies req with Some x => Some x | None => p_proxies p end)
       (match ur_inbounds req with Some x => Some x | None => p_inbounds p end))
    (b_pricing_plan_id_for_tx b) (b_reseller_pricing_id_for_tx b)
    (b_set_data b) (b_added b).

(** Lines 184-258 together. *)
Definition billing
  (env : Env) (d : Db) (local_db_user : MarzbanUser)
  (active_pricing : option ResellerPricing)
  (req : ResellerMarzbanUserUpdateRequest) : result Billing :=
  match data_limit_step active_pricing req no_billing with
  | Raise e => Raise e
  | Ok b1 =>
      match expire_step env d local_db_user active_pricing req b1 with
      | Raise e => Raise e
      | Ok b2 => Ok (config_step req b2)
      end
  end.

(** Lines 301-307.  The tests are ["Set data to" in joined] and
    ["Added" in joined] on the joined description parts.  The data part starts
    with [Set data to], the renewal part starts with [Added] and quotes the
    plan's name; the numbers printed in either part hold neither text. *)
Definition modification_transaction_type (b : Billing) : string :=
  let has_set :=
    b_set_data b
    || match b_added b with
       | Some name => contains "Set data to" name
       | None => false
       end in
  let has_added := negb (is_none (b_added b)) in
  if has_set && has_added then "user_data_renew_cost"
  else if has_set then "user_data_topup_cost"
  else if has_added then "user_renewal_cost"
  else "user_config_change_cost".

(** Lines 271-292: the PATCH, issued when the payload has a key. *)
Definition remote_update
  (env : Env) (target_panel : MarzbanPanel) (local_db_user : MarzbanUser)
  (payload : UpdatePayload) : M (option ApiUser) :=
  if payload_is_empty payload then ret None
  else
    w <- get_world ;;
    decrypted_password <-
      of_option (truthy (get_panel_decrypted_password env (db w) (panel_id target_panel)))
                (MarzbanUserServiceError (NoCredentials (panel_name target_panel))) ;;
    issue (TokenCall (api_url target_panel) (admin_username target_panel)
                     decrypted_password) ;;;
    token <- uncaught (get_marzban_access_token env (api_url target_panel)
                         (admin_username target_panel) decrypted_password) ;;
    marzban_token <-
      of_option (truthy token)
                (MarzbanUserServiceError (AuthenticationFailed (panel_name target_panel))) ;;
    issue (UpdateUserCall (api_url target_panel) marzban_token
                          (marzban_username local_db_user) payload) ;;;
    updated_marzban_api_response <-
      translated (update_marzban_user_on_panel env (api_url target_panel)
                    marzban_token (marzban_username local_db_user) payload)
                 MarzbanApiErrorDuringUpdate ;;
    match updated_marzban_api_response with
    | None => service_error UpdateUnexpectedResponse
    | Some response => ret (Some response)
    end.

(** Lines 295-346: one unit of work; a failure rolls back and raises the
    reconciliation error. *)
Definition commit_modification
  (env : Env) (target_panel : MarzbanPanel) (local_db_user : MarzbanUser)
  (req : ResellerMarzbanUserUpdateRequest) (b : Billing)
  (updated_marzban_api_response : option ApiUser) : M MarzbanUser :=
  fun w =>
    match commit_fault env with
    | Some e =>
        (Raise (MarzbanUserServiceError
                  (DatabaseErrorAfterModification
                     e (marzban_username local_db_user) (panel_name target_panel))),
         w)
    | None =>
        let r := reseller w in
        let charged := 0 <? b_cost b in
        let tx :=
          mkTx (reseller_id r) (modification_transaction_type b) (- b_cost b)
               (Some (mu_id local_db_user))
               (b_pricing_plan_id_for_tx b) (b_reseller_pricing_id_for_tx b) in
        let d1 := if charged then insert_transaction (db w) tx else db w in
        let row :=
          mkUser (mu_id local_db_user) (marzban_username local_db_user)
                 (marzban_panel_id local_db_user) (mu_reseller_id local_db_user)
                 (created_by_new_panel local_db_user)
                 (match ur_note req with
                  | Some n => Some n
                  | None => notes local_db_user
                  end)
                 (match updated_marzban_api_response with
                  | Some resp => Some resp
                  | None => api_response_data local_db_user
                  end)
                 (utcnow env 327) in
        (Ok row,
         mkWorld (set_users d1 (save_user row (marzban_users d1)))
                 (if charged then debit r (b_cost b) else r)
                 (remote_log w))
    end.

(** Lines 176-258: the mirror row, its panel and the billing, or the error
    raised on the way. *)
Definition modification_quote
  (env : Env) (w : World) (local_marzban_user_id : Z)
  (req : ResellerMarzbanUserUpdateRequest)
  : result (MarzbanUser * MarzbanPanel * Billing) :=
  match get_marzban_user_for_reseller (db w) local_marzban_user_id
          (reseller_id (reseller w)) with
  | None => Raise (MarzbanUserServiceError UserNotFoundOrForeign)
  | Some local_db_user =>
      match get_panel (db w) (marzban_panel_id local_db_user) with
      | None => Raise (MarzbanUserServiceError PanelDetailsNotFound)
      | Some target_panel =>
          let active_pricing :=
            get_active_pricing_for_reseller (db w) (reseller_id (reseller w))
              (Some (panel_id target_panel)) in
          match billing env (db w) local_db_user active_pricing req with
          | Raise e => Raise e
          | Ok b => Ok (local_db_user, target_panel, b)
          end
      end
  end.

(** Lines 176-292: everything up to and including the PATCH. *)
Definition modify_remote_phase
  (env : Env) (local_marzban_user_id : Z)
  (req : ResellerMarzbanUserUpdateRequest)
  : M (MarzbanUser * MarzbanPanel * Billing * option ApiUser) :=
  w <- get_world ;;
  '(local_db_user, target_panel, b) <-
    of_result (modification_quote env w local_marzban_user_id req) ;;
  guard (negb (payload_is_empty (b_payload b) && is_none (ur_note req)))
        NothingToUpdate ;;;
  (* Wallet check (if cost was incurred) *)
  guard (negb ((0 <? b_cost b)
               && ((wallet_balance (reseller w) <? b_cost b)
                   && negb (allow_negative_balance (reseller w)))))
        (InsufficientBalanceForModification (b_cost b) (wallet_balance (reseller w))) ;;;
  updated_marzban_api_response <-
    remote_update env target_panel local_db_user (b_payload b) ;;
  ret (local_db_user, target_panel, b, updated_marzban_api_response).

Definition modify_marzban_user_for_reseller
  (env : Env) (local_marzban_user_id : Z)
  (req : ResellerMarzbanUserUpdateRequest) : M MarzbanUser :=
  '(local_db_user, target_panel, b, updated_marzban_api_response) <-
    modify_remote_phase env local_marzban_user_id req ;;
  (* Database updates *)
  commit_modification env target_panel local_db_user req b
                      updated_marzban_api_response.

(** ** Synchronising a panel: [sync_marzban_users_for_reseller_panel] *)

(** The entries appended to [summary["errors"]]. *)
Inductive SyncError :=
  | CouldNotRetrievePassword (panel : Z)
  | FailedToGetAccessToken (panel : Z)
  | MissingUsername (user_data : ApiUser)
  | MarzbanAPIErrorEntry (e : string)
  | UnexpectedErrorEntry (e : string).

Record Summary := mkSummary {
  synced_panel_id : Z;
  summary_reseller_id : Z;
  reseller_marzban_admin_id : Z;
  total_users_from_api : Z;
  newly_added_count : Z;
  updated_count : Z;
  errors : list SyncError
}.

Definition add_error (s : Summary) (e : SyncError) : Summary :=
  mkSummary (synced_panel_id s) (summary_reseller_id s)
            (reseller_marzban_admin_id s) (total_users_from_api s)
            (newly_added_count s) (updated_count s) (errors s ++ [e])%list.

Definition set_total (s : Summary) (n : Z) : Summary :=
  mkSummary (synced_panel_id s) (summary_reseller_id s)
            (reseller_marzban_admin_id s) n
            (newly_added_count s) (updated_count s) (errors s).

Definition count_added (s : Summary) : Summary :=
  mkSummary (synced_panel_id s) (summary_reseller_id s)
            (reseller_marzban_admin_id s) (total_users_from_api s)
            (newly_added_count s + 1) (updated_count s) (errors s).

Definition count_updated (s : Summary) : Summary :=
  mkSummary (synced_panel_id s) (summary_reseller_id s)
            (reseller_marzban_admin_id s) (total_users_from_api s)
            (newly_added_count s) (updated_count s + 1) (errors s).

(** [marzban_api_client.get_marzban_users]: the panel lists every user and the
    client keeps those whose [creator_admin_id] is [admin_id]. *)
Definition get_marzban_users
  (env : Env) (url token : string) (admin_id : option Z)
  : call_result (list ApiUser) :=
  match panel_users env url token with
  | Returned users =>
      match admin_id with
      | Some a =>
          Returned (filter (fun u => match au_creator_admin_id u with
                                     | Some c => c =? a
                                     | None => false
                                     end) users)
      | None => Returned users
      end
  | RaisedAPIError e => RaisedAPIError e
  | RaisedOther cls msg => RaisedOther cls msg
  end.

(** [update_marzban_user_from_api_data]. *)
Definition update_marzban_user_from_api_data
  (env : Env) (d : Db) (db_user : MarzbanUser) (user_data : ApiUser) : Db :=
  let row :=
    mkUser (mu_id db_user) (marzban_username db_user) (marzban_panel_id db_user)
           (mu_reseller_id db_user) (created_by_new_panel db_user)
           (notes db_user) (Some user_data) (utcnow env 47) in
  set_users d (save_user row (marzban_users d)).

(** The row that the sync creates for a user it did not know. *)
Definition synced_row
  (env : Env) (r : Reseller) (panel : MarzbanPanel)
  (username : string) (user_data : ApiUser) (id : Z) : MarzbanUser :=
  mkUser id username (panel_id panel) (reseller_id r) false
         (Some ("Synced from Marzban panel. Original creator admin ID: "
                ++ str_int (marzban_admin_id r)))
         (Some user_data) (db_now env).

(** The handlers of lines 119-124. *)
Definition caught_api_error (s : Summary) (e : MarzbanAPIError) : Summary :=
  add_error s (MarzbanAPIErrorEntry ("Marzban API Error: " ++ api_message e)).

Definition caught_exception (s : Summary) (msg : string) : Summary :=
  add_error s (UnexpectedErrorEntry ("An unexpected error during sync: " ++ msg)).

(** The loop of lines 87-112 from the [i]-th listed user on.  An exception of
    the database is caught by the handler around the loop (lines 123-124),
    which ends the loop and keeps what was counted and committed so far. *)
Fixpoint sync_loop
  (env : Env) (r : Reseller) (panel : MarzbanPanel)
  (i : nat) (api_users : list ApiUser) (d : Db) (s : Summary) : Db * Summary :=
  match api_users with
  | [] => (d, s)
  | user_data :: rest =>
      match truthy (au_username user_data) with
      | None =>
          sync_loop env r panel (S i) rest d (add_error s (MissingUsername user_data))
      | Some username =>
          match item_fault env i with
          | Some e =>
              (d, caught_exception s e)
          | None =>
              match get_marzban_user_by_username_and_panel d username (panel_id panel) with
              | Some db_marzban_user =>
                  sync_loop env r panel (S i) rest
                    (update_marzban_user_from_api_data env d db_marzban_user user_data)
                    (count_updated s)
              | None =>
                  sync_loop env r panel (S i) rest
                    (insert_user d (synced_row env r panel username user_data))
                    (count_added s)
              end
          end
      end
  end.

Definition sync_marzban_users_for_reseller_panel
  (env : Env) (panel : MarzbanPanel) : M Summary :=
  fun w =>
    let r := reseller w in
    let summary :=
      mkSummary (panel_id panel) (reseller_id r) (marzban_admin_id r) 0 0 0 [] in
    match truthy (get_panel_decrypted_password env (db w) (panel_id panel)) with
    | None => (Raise (MarzbanUserServiceError (MissingCredentials (panel_id panel))), w)
    | Some decrypted_password =>
        let w1 :=
          mkWorld (db w) r
                  (TokenCall (api_url panel) (admin_username panel) decrypted_password
                   :: remote_log w) in
        match get_marzban_access_token env (api_url panel) (admin_username panel)
                decrypted_password with
        | RaisedAPIError e => (Ok (caught_api_error summary e), w1)
        | RaisedOther _ msg => (Ok (caught_exception summary msg), w1)
        | Returned tok =>
            match truthy tok with
            | None =>
                (Ok (caught_exception
                       (add_error summary (FailedToGetAccessToken (panel_id panel)))
                       (message (SyncAuthenticationFailed (panel_id panel)))),
                 w1)
            | Some token =>
                let log2 := ListUsersCall (api_url panel) token :: remote_log w1 in
                match get_marzban_users env (api_url panel) token
                        (Some (marzban_admin_id r)) with
                | RaisedAPIError e =>
                    (Ok (caught_api_error summary e), mkWorld (db w) r log2)
                | RaisedOther _ msg =>
                    (Ok (caught_exception summary msg), mkWorld (db w) r log2)
                | Returned api_users =>
                    let '(d', s') :=
                      sync_loop env r panel 0 api_users (db w)
                        (set_total summary (Z.of_nat (List.length api_users))) in
                    (Ok s', mkWorld d' r log2)
                end
            end
        end
    end.

(** ** The data limit in bytes: [gb_to_bytes] (lines 413-416) *)

(** [int(gb * 1024 * 1024 * 1024)] raises [OverflowError] when the product
    of the floats is infinite, which it is when the float [gb] is [2^994] or
    more in magnitude.  Of the decimals that [str] prints for a float, those
    are the ones from [2^994 - 2^940] on, the least decimal that reads as
    the float [2^994]. *)
Definition bytes_overflow (gb : PyDecimal) : bool :=
  let bound := 2 ^ 994 - 2 ^ 940 in
  if 0 <=? exponent gb
  then bound <=? Z.abs (coeff gb) * 10 ^ exponent gb
  else bound * 10 ^ (- exponent gb) <=? Z.abs (coeff gb).

(** ** Usage of a user: marzban_api_client.py and marzban_user_service.py *)

(** The JSON object of [/api/user/{username}/usage], kept opaque. *)
Definition Usage := string.

(** The body of an HTTP error as the client reads it: the text that the
    f-string prints for [e.response.json().get("detail", e.response.text)]
    (or for [e.response.text] when the body is not JSON), or the
    [AttributeError] raised when the decoded body has no [get]. *)
Inductive ErrorBody :=
  | Detail (printed : string)
  | NotAnObject (msg : string).

(** What [requests.get], [raise_for_status] and [response.json()] come to. *)
Inductive UsageResponse :=
  | UsageOK (body : option Usage)
  | UsageHTTPError (status_code : Z) (body : ErrorBody)
  | UsageRequestException (e : string)
  | UsageOtherException (e : string).

(** [panel_url.endswith('/')]. *)
Fixpoint endswith_slash (s : string) : bool :=
  match s with
  | EmptyString => false
  | String c EmptyString => Ascii.eqb c "/"
  | String _ rest => endswith_slash rest
  end.

(** [if not panel_url.endswith('/'): panel_url += '/']. *)
Definition with_slash (panel_url : string) : string :=
  if endswith_slash panel_url then panel_url else panel_url ++ "/".

(** [marzban_api_client.get_marzban_user_usage]; [http_get] answers a GET of
    a URL with a bearer token.  An exception raised inside the handler of
    [HTTPError] is not caught by the handlers after it. *)
Definition get_marzban_user_usage
  (http_get : string -> string -> UsageResponse)
  (panel_url token username : string) : call_result (option Usage) :=
  let usage_url := with_slash panel_url ++ "api/user/" ++ username ++ "/usage" in
  match http_get usage_url token with
  | UsageOK body => Returned body
  | UsageHTTPError status_code (NotAnObject msg) => RaisedOther "AttributeError" msg
  | UsageHTTPError status_code (Detail detail) =>
      let error_message :=
        if status_code =? 404
        then "User '" ++ username ++ "' not found on Marzban panel (HTTP "
             ++ str_int status_code ++ "): " ++ detail
        else "Failed to get usage for Marzban user '" ++ username ++ "' (HTTP "
             ++ str_int status_code ++ "): " ++ detail in
      RaisedAPIError (mkAPIError error_message (Some status_code))
  | UsageRequestException e =>
      RaisedAPIError
        (mkAPIError ("Request failed while getting usage for Marzban user '"
                     ++ username ++ "': " ++ e) None)
  | UsageOtherException e =>
      RaisedAPIError
        (mkAPIError ("An unexpected error occurred while getting usage for Marzban user '"
                     ++ username ++ "': " ++ e) None)
  end.

(** What a caller sees of an exception: a [MarzbanUserServiceError] by its
    text, anything else by its class and text. *)
Inductive Raised :=
  | ServiceFailure (error_detail : string)
  | OtherFailure (cls msg : string).

Definition seen (e : exn) : Raised :=
  match e with
  | MarzbanUserServiceError e => ServiceFailure (message e)
  | APIError e => OtherFailure "MarzbanAPIError" (api_message e)
  | PyError cls msg => OtherFailure cls msg
  end.

Inductive Outcome (A : Type) :=
  | Returns (a : A)
  | Raises (r : Raised).
Arguments Returns {A} a.
Arguments Raises {A} r.

Definition outcome_of {A} (r : result A) : Outcome A :=
  match r with
  | Ok a => Returns a
  | Raise e => Raises (seen e)
  end.

(** [get_marzban_user_usage_for_reseller].  The token is requested outside
    the [try]; inside it, a [MarzbanAPIError] of the client is rewrapped by
    the first handler, and every other exception, the service's own
    "Failed to retrieve usage data" included, by the second. *)
Definition get_marzban_user_usage_for_reseller
  (env : Env)
  (get_usage_from_marzban_panel : string -> string -> string -> call_result (option Usage))
  (local_marzban_user_id : Z) (w : World) : Outcome Usage * World :=
  match get_marzban_user_for_reseller (db w) local_marzban_user_id
          (reseller_id (reseller w)) with
  | None => (Raises (ServiceFailure (message UserNotFoundOrForeign)), w)
  | Some local_db_user =>
      match get_panel (db w) (marzban_panel_id local_db_user) with
      | None => (Raises (ServiceFailure (message PanelDetailsNotFound)), w)
      | Some target_panel =>
          match truthy (get_panel_decrypted_password env (db w)
                          (panel_id target_panel)) with
          | None =>
              (Raises (ServiceFailure (message (NoCredentials (panel_name target_panel)))),
               w)
          | Some decrypted_password =>
              let w1 :=
                mkWorld (db w) (reseller w)
                        (TokenCall (api_url target_panel) (admin_username target_panel)
                                   decrypted_password :: remote_log w) in
              match get_marzban_access_token env (api_url target_panel)
                      (admin_username target_panel) decrypted_password with
              | RaisedAPIError e => (Raises (seen (APIError e)), w1)
              | RaisedOther cls msg => (Raises (OtherFailure cls msg), w1)
              | Returned token =>
                  match truthy token with
                  | None =>
                      (Raises (ServiceFailure
                                 (message (AuthenticationFailed
                                             (panel_name target_panel)))), w1)
                  | Some marzban_token =>
                      (match get_usage_from_marzban_panel (api_url target_panel)
                               marzban_token (marzban_username local_db_user) with
                       | Returned (Some usage_data) => Returns usage_data
                       | Returned None =>
                           Raises (ServiceFailure
                                     ("An unexpected error occurred when fetching usage: "
                                      ++ "Failed to retrieve usage data from Marzban panel or user not found on panel."))
                       | RaisedAPIError e =>
                           Raises (ServiceFailure
                                     ("Marzban API error when fetching usage: "
                                      ++ api_message e))
                       | RaisedOther _ msg =>
                           Raises (ServiceFailure
                                     ("An unexpected error occurred when fetching usage: "
                                      ++ msg))
                       end, w1)
                  end
              end
          end
      end
  end.


(** ** Administration of pricing: reseller_pricing_service.py *)

(** Exceptions these services raise and do not catch.  [IntegrityError]
    carries the statement text it was built with; [DatabaseError] stands for
    whatever the driver raises when a flush or commit is refused. *)
Definition ValueError (msg : string) : exn := PyError "ValueError" msg.
Definition IntegrityError (statement : string) : exn :=
  PyError "sqlalchemy.exc.IntegrityError" statement.
Definition DatabaseError (e : string) : exn :=
  PyError "sqlalchemy.exc.SQLAlchemyError" e.

(** [ResellerPricingCreate], as far as the service reads it. *)
Record ResellerPricingCreate := mkPricingCreate {
  pc_reseller_id : Z;
  pc_pricing_plan_id : option Z;
  pc_custom_price_per_gb : option Money;
  pc_marzban_panel_id : option Z
}.

(** [ResellerPricingUpdate], as far as the service reads it.  A field is
    either absent from [dict(exclude_unset=True)] ([None]) or set, possibly
    to null ([Some None]). *)
Record ResellerPricingUpdate := mkPricingUpdate {
  pu_pricing_plan_id : option (option Z);
  pu_custom_price_per_gb : option (option Money);
  pu_marzban_panel_id : option (option Z)
}.

(** [update_data.get(key, default)]. *)
Definition get_or {A} (field : option A) (default : A) : A :=
  match field with
  | Some v => v
  | None => default
  end.

(** The two checks that end [_validate_pricing_input] and that
    [update_reseller_pricing] repeats (lines 27-32 and 108-112). *)
Definition check_one_mechanism (plan_id : option Z) (custom_gb_price : option Money)
  : result unit :=
  match plan_id, custom_gb_price with
  | Some _, Some _ =>
      Raise (ValueError
               "Cannot set both pricing_plan_id and custom_price_per_gb. Choose one.")
  | None, None =>
      Raise (ValueError "Either pricing_plan_id or custom_price_per_gb must be set.")
  | _, _ => Ok tt
  end.

(** [_validate_pricing_input]: for an update, a field that the payload
    leaves unset is read from [db_pricing]. *)
Definition _validate_pricing_input
  (pricing_in : ResellerPricingCreate + ResellerPricingUpdate)
  (db_pricing : option ResellerPricing) : result unit :=
  match pricing_in with
  | inl c => check_one_mechanism (pc_pricing_plan_id c) (pc_custom_price_per_gb c)
  | inr u =>
      let plan_id :=
        match pu_pricing_plan_id u with
        | Some v => v
        | None => match db_pricing with
                  | Some row => pricing_plan_id row
                  | None => None
                  end
        end in
      let custom_gb_price :=
        match pu_custom_price_per_gb u with
        | Some v => v
        | None => match db_pricing with
                  | Some row => custom_price_per_gb row
                  | None => None
                  end
        end in
      check_one_mechanism plan_id custom_gb_price
  end.

(** The filter [reseller_id == rid, marzban_panel_id == pid], where a null
    [pid] is compared with [IS NULL]. *)
Definition same_scope (rid : Z) (pid : option Z) (rp : ResellerPricing) : bool :=
  (rp_reseller_id rp =? rid) && panel_is pid rp.

(** [f"for panel ID {panel}" if panel else "generically"]: a null id and the
    id 0 are falsy. *)
Definition panel_msg (pid : option Z) : string :=
  match pid with
  | Some p => if p =? 0 then "generically" else "for panel ID " ++ str_int p
  | None => "generically"
  end.

Definition already_configured (pid : option Z) : exn :=
  IntegrityError ("Reseller already has a pricing configuration " ++ panel_msg pid ++ ".").

(** The foreign keys of a pricing row that point into tables of [Db]. *)
Definition references_exist (d : Db) (rp : ResellerPricing) : bool :=
  match pricing_plan_id rp with
  | Some i => existsb (fun pl => plan_id pl =? i) (pricing_plans d)
  | None => true
  end
  && match rp_marzban_panel_id rp with
     | Some p => existsb (fun pn => panel_id pn =? p) (marzban_panels d)
     | None => true
     end.

Definition set_pricings (d : Db) (rps : list ResellerPricing) : Db :=
  mkDb (marzban_panels d) (pricing_plans d) rps (marzban_users d)
       (transactions d) (next_user_id d).

(** [db.commit()] of a unit of work that wrote the pricing row [rp] and
    would leave the database as [d']: the database refuses a row whose
    plan or panel does not exist, and the driver may fail for a reason of its
    own ([commit_fault], which also stands for the foreign key to
    [resellers], a table [Db] does not hold). *)
Definition commit_pricing {A} (env : Env) (d d' : Db) (rp : ResellerPricing) (a : A)
  : result A * Db :=
  if negb (references_exist d rp)
  then (Raise (DatabaseError "a foreign key constraint fails"), d)
  else match commit_fault env with
       | Some e => (Raise (DatabaseError e), d)
       | None => (Ok a, d')
       end.

(** [create_reseller_pricing]; [assigned_id] is the id the database gives
    the new row. *)
Definition create_reseller_pricing
  (env : Env) (assigned_id : Z) (d : Db) (pricing_in : ResellerPricingCreate)
  : result ResellerPricing * Db :=
  match _validate_pricing_input (inl pricing_in) None with
  | Raise e => (Raise e, d)
  | Ok _ =>
      match find (same_scope (pc_reseller_id pricing_in)
                             (pc_marzban_panel_id pricing_in))
                 (reseller_pricings d) with
      | Some _ => (Raise (already_configured (pc_marzban_panel_id pricing_in)), d)
      | None =>
          let db_pricing :=
            mkPricing assigned_id (pc_reseller_id pricing_in)
                      (pc_pricing_plan_id pricing_in)
                      (pc_custom_price_per_gb pricing_in)
                      (pc_marzban_panel_id pricing_in) in
          commit_pricing env d
            (set_pricings d (reseller_pricings d ++ [db_pricing])%list)
            db_pricing db_pricing
      end
  end.

(** [get_reseller_pricing]. *)
Definition get_reseller_pricing (d : Db) (pricing_id : Z) : option ResellerPricing :=
  find (fun rp => rp_id rp =? pricing_id) (reseller_pricings d).

(** [get_reseller_pricings_for_reseller]; the caller passes [-1] for "every
    scope" and a null panel for the generic configuration. *)
Definition get_reseller_pricings_for_reseller
  (d : Db) (rid : Z) (marzban_panel_id : option Z) : list ResellerPricing :=
  let of_reseller := filter (fun rp => rp_reseller_id rp =? rid) (reseller_pricings d) in
  match marzban_panel_id with
  | Some (-1) => of_reseller
  | other => filter (panel_is other) of_reseller
  end.

(** Python's [a != b] on two optional ids. *)
Definition differs (a b : option Z) : bool :=
  match a, b with
  | Some x, Some y => negb (x =? y)
  | None, None => false
  | _, _ => true
  end.

(** [update_reseller_pricing]. *)
Definition update_reseller_pricing
  (env : Env) (d : Db) (pricing_id : Z) (pricing_in : ResellerPricingUpdate)
  : result (option ResellerPricing) * Db :=
  match get_reseller_pricing d pricing_id with
  | None => (Ok None, d)
  | Some db_pricing =>
      let final_plan_id :=
        get_or (pu_pricing_plan_id pricing_in) (pricing_plan_id db_pricing) in
      let final_custom_price :=
        get_or (pu_custom_price_per_gb pricing_in) (custom_price_per_gb db_pricing) in
      (* lines 99-106: setting one mechanism nullifies the other *)
      let '(final_plan_id, final_custom_price, plan_update, custom_update) :=
        match pu_pricing_plan_id pricing_in, pu_custom_price_per_gb pricing_in with
        | Some (Some p), custom_update =>
            (final_plan_id, None, Some (Some p),
             match custom_update with
             | None => Some None
             | Some v => Some v
             end)
        | plan_update, Some (Some c) =>
            (None, final_custom_price,
             match plan_update with
             | None => Some None
             | Some v => Some v
             end,
             Some (Some c))
        | plan_update, custom_update =>
            (final_plan_id, final_custom_price, plan_update, custom_update)
        end in
      match check_one_mechanism final_plan_id final_custom_price with
      | Raise e => (Raise e, d)
      | Ok _ =>
          let taken :=
            match pu_marzban_panel_id pricing_in with
            | Some new_panel =>
                if differs new_panel (rp_marzban_panel_id db_pricing)
                then match find (fun rp => same_scope (rp_reseller_id db_pricing)
                                                      new_panel rp
                                           && negb (rp_id rp =? pricing_id))
                                (reseller_pricings d) with
                     | Some _ => Some new_panel
                     | None => None
                     end
                else None
            | None => None
            end in
          match taken with
          | Some new_panel => (Raise (already_configured new_panel), d)
          | None =>
              let row :=
                mkPricing (rp_id db_pricing) (rp_reseller_id db_pricing)
                          (get_or plan_update (pricing_plan_id db_pricing))
                          (get_or custom_update (custom_price_per_gb db_pricing))
                          (get_or (pu_marzban_panel_id pricing_in)
                                  (rp_marzban_panel_id db_pricing)) in
              commit_pricing env d
                (set_pricings d
                   (map (fun rp => if rp_id rp =? pricing_id then row else rp)
                        (reseller_pricings d)))
                row (Some row)
          end
      end
  end.

(** [ON DELETE SET NULL] on a nullable foreign key. *)
Definition set_null (deleted : Z) (fk : option Z) : option Z :=
  match fk with
  | Some i => if i =? deleted then None else Some i
  | None => None
  end.

Definition commit_delete {A} (env : Env) (d d' : Db) (a : A) : result A * Db :=
  match commit_fault env with
  | Some e => (Raise (DatabaseError e), d)
  | None => (Ok a, d')
  end.

(** [delete_reseller_pricing]: the row goes, and the ledger entries that
    pointed at it lose the link ([transactions.reseller_pricing_id] is
    [ON DELETE SET NULL]). *)
Definition delete_reseller_pricing (env : Env) (d : Db) (pricing_id : Z)
  : result (option ResellerPricing) * Db :=
  match get_reseller_pricing d pricing_id with
  | None => (Ok None, d)
  | Some db_pricing =>
      commit_delete env d
        (mkDb (marzban_panels d) (pricing_plans d)
              (filter (fun rp => negb (rp_id rp =? pricing_id)) (reseller_pricings d))
              (marzban_users d)
              (map (fun t => mkTx (tx_reseller_id t) (transaction_type t) (amount t)
                                  (tx_marzban_user_id t) (tx_pricing_plan_id t)
                                  (set_null pricing_id (tx_reseller_pricing_id t)))
                   (transactions d))
              (next_user_id d))
        (Some db_pricing)
  end.

(** ** Plans: pricing_plan_service.py *)

(** [get_plan]. *)
Definition get_plan (d : Db) (id : Z) : option PricingPlan :=
  find (fun pl => plan_id pl =? id) (pricing_plans d).

(** [delete_plan], a hard delete.  [reseller_pricings.pricing_plan_id] and
    [transactions.pricing_plan_id] are declared [ON DELETE SET NULL]: the
    rows that pointed at the plan stay, without the link. *)
Definition delete_plan (env : Env) (d : Db) (id : Z)
  : result (option PricingPlan) * Db :=
  match get_plan d id with
  | None => (Ok None, d)
  | Some db_plan =>
      commit_delete env d
        (mkDb (marzban_panels d)
              (filter (fun pl => negb (plan_id pl =? id)) (pricing_plans d))
              (map (fun rp => mkPricing (rp_id rp) (rp_reseller_id rp)
                                        (set_null id (pricing_plan_id rp))
                                        (custom_price_per_gb rp)
                                        (rp_marzban_panel_id rp))
                   (reseller_pricings d))
              (marzban_users d)
              (map (fun t => mkTx (tx_reseller_id t) (transaction_type t) (amount t)
                                  (tx_marzban_user_id t)
                                  (set_null id (tx_pricing_plan_id t))
                                  (tx_reseller_pricing_id t))
                   (transactions d))
              (next_user_id d))
        (Some db_plan)
  end.

(** ** Panel access: reseller_service.py *)

(** [get_reseller] on the [resellers] table. *)
Definition get_reseller (resellers : list Reseller) (rid : Z) : option Reseller :=
  find (fun r => reseller_id r =? rid) resellers.

Fixpoint has_duplicates (l : list Z) : bool :=
  match l with
  | [] => false
  | x :: rest => existsb (Z.eqb x) rest || has_duplicates rest
  end.

(** [update_reseller_panel_access]: the reseller's access rows are deleted
    and one row is added for every requested id that names a panel.  Two rows
    for the same panel break [uq_reseller_panel_access] when they are
    flushed, and nothing is committed.  The [panels] relationship of the
    reloaded reseller is rendered in the order of the request; the services
    only test membership in it. *)
Definition update_reseller_panel_access
  (env : Env) (d : Db) (resellers : list Reseller) (rid : Z) (panel_ids : list Z)
  : result (option Reseller) * list Reseller :=
  match get_reseller resellers rid with
  | None => (Ok None, resellers)
  | Some db_reseller =>
      let granted := filter (fun pid => negb (is_none (get_panel d pid))) panel_ids in
      if has_duplicates granted
      then (Raise (PyError "sqlalchemy.exc.IntegrityError" "uq_reseller_panel_access"),
            resellers)
      else
        match commit_fault env with
        | Some e => (Raise (PyError "sqlalchemy.exc.SQLAlchemyError" e), resellers)
        | None =>
            let reloaded :=
              mkReseller (reseller_id db_reseller) (marzban_admin_id db_reseller)
                         (wallet_balance db_reseller)
                         (allow_negative_balance db_reseller) granted in
            (Ok (Some reloaded),
             map (fun r => if reseller_id r =? rid then reloaded else r) resellers)
        end
  end.

(** [get_reseller_panel_access]. *)
Definition get_reseller_panel_access (resellers : list Reseller) (rid : Z) : list Z :=
  match get_reseller resellers rid with
  | None => []
  | Some db_reseller => panels db_reseller
  end.

(** ** Panel credentials: encryption.py and marzban_panel_service.py *)

Module encryption.

(** What [Fernet.decrypt] and the decoding of its result come to: the
    plaintext, [InvalidToken], or another exception. *)
Inductive Decrypted :=
  | Plaintext (s : string)
  | InvalidToken
  | Unexpected (e : string).

(** The module's [cipher_suite].  A token depends on the plaintext and on
    the time and the random bytes drawn when it is made ([nonce]). *)
Record Fernet := mkFernet {
  encrypt : Z -> string -> string;
  decrypt : string -> Decrypted
}.

(** [encrypt_data]; [cipher_suite] is [None] when the key could not be
    loaded. *)
Definition encrypt_data (cipher_suite : option Fernet) (nonce : Z) (data : string)
  : result string :=
  match cipher_suite with
  | None =>
      Raise (PyError "ValueError"
               "Encryption service is not initialized. Check MARZBAN_PANEL_FERNET_KEY.")
  | Some f =>
      match data with
      | "" => Ok ""
      | _ => Ok (encrypt f nonce data)
      end
  end.

(** [decrypt_data]. *)
Definition decrypt_data (cipher_suite : option Fernet) (encrypted_data : string)
  : result string :=
  match cipher_suite with
  | None =>
      Raise (PyError "ValueError"
               "Decryption service is not initialized. Check MARZBAN_PANEL_FERNET_KEY.")
  | Some f =>
      match encrypted_data with
      | "" => Ok ""
      | _ =>
          match decrypt f encrypted_data with
          | Plaintext s => Ok s
          | InvalidToken =>
              Raise (PyError "ValueError" "Decryption failed: Invalid token or key.")
          | Unexpected e =>
              Raise (PyError "ValueError"
                       ("Decryption failed due to an unexpected error: " ++ e))
          end
      end
  end.

End encryption.

(** The environment in which [decrypt_data] is the function of
    encryption.py running with [cipher_suite]:
    [get_panel_decrypted_password] answers [None] where it catches the
    [ValueError]. *)
Definition with_cipher (cipher_suite : option encryption.Fernet) (env : Env) : Env :=
  mkEnv (fun c => match encryption.decrypt_data cipher_suite c with
                  | Ok s => Some s
                  | Raise _ => None
                  end)
        (get_marzban_access_token env) (update_marzban_user_on_panel env)
        (panel_users env) (commit_fault env) (item_fault env) (utcnow env)
        (db_now env) (local_to_seconds env).

(** [MarzbanPanelCreate]. *)
Record MarzbanPanelCreate := mkPanelCreate {
  mpc_name : string;
  mpc_api_url : string;
  mpc_admin_username : string;
  mpc_admin_password : string
}.

(** [MarzbanPanelUpdate]: a field is absent from
    [dict(exclude_unset=True)], or set, possibly to null. *)
Record MarzbanPanelUpdate := mkPanelUpdate {
  mpu_name : option (option string);
  mpu_api_url : option (option string);
  mpu_admin_username : option (option string);
  mpu_admin_password : option (option string)
}.

Definition set_panels (d : Db) (ps : list MarzbanPanel) : Db :=
  mkDb ps (pricing_plans d) (reseller_pricings d) (marzban_users d)
       (transactions d) (next_user_id d).

(** [create_panel]; [assigned_id] is the id the database gives the row. *)
Definition create_panel
  (cipher_suite : option encryption.Fernet) (env : Env) (nonce assigned_id : Z)
  (d : Db) (panel_in : MarzbanPanelCreate) : result MarzbanPanel * Db :=
  match encryption.encrypt_data cipher_suite nonce (mpc_admin_password panel_in) with
  | Raise e => (Raise e, d)
  | Ok encrypted_password =>
      let db_panel :=
        mkPanel assigned_id (mpc_name panel_in) (mpc_api_url panel_in)
                (mpc_admin_username panel_in) (Some encrypted_password) in
      match commit_fault env with
      | Some e => (Raise (PyError "sqlalchemy.exc.SQLAlchemyError" e), d)
      | None => (Ok db_panel, set_panels d (marzban_panels d ++ [db_panel])%list)
      end
  end.

(** A value for a [NOT NULL] text column after [setattr]: an explicit null
    is refused when the row is flushed. *)
Definition not_null (field : option (option string)) (current : string)
  : option string :=
  match field with
  | None => Some current
  | Some (Some v) => Some v
  | Some None => None
  end.

(** [update_panel]. *)
Definition update_panel
  (cipher_suite : option encryption.Fernet) (env : Env) (nonce : Z)
  (d : Db) (pid : Z) (panel_in : MarzbanPanelUpdate)
  : result (option MarzbanPanel) * Db :=
  match get_panel d pid with
  | None => (Ok None, d)
  | Some db_panel =>
      let encrypted :=
        match mpu_admin_password panel_in with
        | Some (Some admin_password) =>
            match encryption.encrypt_data cipher_suite nonce admin_password with
            | Ok c => Ok (Some c)
            | Raise e => Raise e
            end
        | _ => Ok (encrypted_admin_password db_panel)
        end in
      match encrypted with
      | Raise e => (Raise e, d)
      | Ok encrypted_password =>
          match not_null (mpu_name panel_in) (panel_name db_panel),
                not_null (mpu_api_url panel_in) (api_url db_panel),
                not_null (mpu_admin_username panel_in) (admin_username db_panel),
                commit_fault env with
          | Some name, Some url, Some username, None =>
              let row := mkPanel (panel_id db_panel) name url username
                                 encrypted_password in
              (Ok (Some row),
               set_panels d (map (fun p => if panel_id p =? pid then row else p)
                                 (marzban_panels d)))
          | Some _, Some _, Some _, Some e =>
              (Raise (PyError "sqlalchemy.exc.SQLAlchemyError" e), d)
          | _, _, _, _ =>
              (Raise (PyError "sqlalchemy.exc.IntegrityError" "Column cannot be null"), d)
          end
      end
  end.

(** ** Sales reports: transaction_service.py *)

(** A row of [transactions] together with its [created_at] column, which
    the billing operations leave to the server. *)
Record LedgerRow := mkLedgerRow {
  entry : Transaction;
  created_at : datetime
}.

(** A [datetime.date]: days since 1970-01-01, between 0001-01-01 and
    9999-12-31. *)
Definition date := Z.
Definition date_min : date := -719162.
Definition date_max : date := 2932896.

Definition microseconds_per_day : Z := 86400000000.

(** A date compared with a timestamp column is the start of its day. *)
Definition midnight (d : date) : datetime := d * microseconds_per_day.

(** [func.date(created_at)]. *)
Definition date_of (dt : datetime) : date := dt / microseconds_per_day.

(** [d + timedelta(days=1)]. *)
Definition next_day (d : date) : result date :=
  if d + 1 <=? date_max then Ok (d + 1)
  else Raise (PyError "OverflowError" "date value out of range").

(** [date(year, month, day)] for a day that the month has: the day number
    of the proleptic Gregorian calendar.  The constructor first converts
    [year] to a C [int] and raises [OverflowError] when it does not fit
    (the texts are those of a platform whose C [long] has 64 bits), then
    raises [ValueError] for a year outside 1..9999. *)
Definition days_from_civil (y m d : Z) : Z :=
  let y' := if m <=? 2 then y - 1 else y in
  let era := y' / 400 in
  let yoe := y' - era * 400 in
  let doy := (153 * (if 2 <? m then m - 3 else m + 9) + 2) / 5 + d - 1 in
  let doe := yoe * 365 + yoe / 4 - yoe / 100 + doy in
  era * 146097 + doe - 719468.

Definition c_int_error (n : Z) : option exn :=
  if (n <? - 2 ^ 63) || (2 ^ 63 <=? n)
  then Some (PyError "OverflowError" "Python int too large to convert to C long")
  else if 2 ^ 31 <=? n
  then Some (PyError "OverflowError" "signed integer is greater than maximum")
  else if n <? - 2 ^ 31
  then Some (PyError "OverflowError" "signed integer is less than minimum")
  else None.

Definition date_ymd (y m d : Z) : result date :=
  match c_int_error y with
  | Some e => Raise e
  | None =>
      if (1 <=? y) && (y <=? 9999) then Ok (days_from_civil y m d)
      else Raise (PyError "ValueError" ("year " ++ str_int y ++ " is out of range"))
  end.

(** [func.year(created_at)] and [func.month(created_at)]. *)
Definition year_month_of (dt : datetime) : Z * Z :=
  let z := date_of dt + 719468 in
  let era := z / 146097 in
  let doe := z - era * 146097 in
  let yoe := (doe - doe / 1460 + doe / 36524 - doe / 146096) / 365 in
  let doy := doe - (365 * yoe + yoe / 4 - yoe / 100) in
  let mp := (5 * doy + 2) / 153 in
  let m := if mp <? 10 then mp + 3 else mp - 9 in
  (yoe + era * 400 + (if m <=? 2 then 1 else 0), m).

Definition SALES_TRANSACTION_TYPES : list string :=
  ["user_creation_cost"; "user_renewal_cost"].

(** [transaction_type.in_(SALES_TRANSACTION_TYPES)]. *)
Definition is_sale (t : Transaction) : bool :=
  existsb (String.eqb (transaction_type t)) SALES_TRANSACTION_TYPES.

(** The [filter] of the three report queries: a sales type, a creation time
    from the start of [start] up to, and not including, the start of
    [query_end], and the reseller when one is given. *)
Definition reported
  (start query_end : date) (reseller_id : option Z) (r : LedgerRow) : bool :=
  is_sale (entry r)
  && ((midnight start <=? created_at r) && (created_at r <? midnight query_end))
  && match reseller_id with
     | Some rid => tx_reseller_id (entry r) =? rid
     | None => true
     end.

(** [func.sum(Transaction.amount * -1)], with [or Decimal('0.00')] for the
    NULL of an empty sum, and [func.count(Transaction.id)]. *)
Definition sum_sales (rows : list LedgerRow) : Money :=
  fold_right (fun r acc => amount (entry r) * -1 + acc) 0 rows.

Record SalesSummary := mkSalesSummary {
  total_sales_amount : Money;
  transaction_count : Z
}.

(** [get_sales_summary_by_period]. *)
Definition get_sales_summary_by_period
  (rows : list LedgerRow) (start_date end_date : date) (reseller_id : option Z)
  : result SalesSummary :=
  match next_day end_date with
  | Raise e => Raise e
  | Ok query_end_date =>
      let matching := filter (reported start_date query_end_date reseller_id) rows in
      Ok (mkSalesSummary (sum_sales matching) (Z.of_nat (List.length matching)))
  end.

(** One group of a [GROUP BY], under its key. *)
Record SalesGroup := mkSalesGroup {
  group_key : Z;
  total_sales : Money;
  group_count : Z
}.

(** A row joins the group of its key in a list ordered by key. *)
Fixpoint add_to_group (key : Z) (sale : Money) (groups : list SalesGroup)
  : list SalesGroup :=
  match groups with
  | [] => [mkSalesGroup key sale 1]
  | g :: rest =>
      if key <? group_key g then mkSalesGroup key sale 1 :: g :: rest
      else if key =? group_key g
           then mkSalesGroup key (total_sales g + sale) (group_count g + 1) :: rest
           else g :: add_to_group key sale rest
  end.

(** [GROUP BY key ORDER BY key] with the sum and the count of each group. *)
Definition group_sales (key : LedgerRow -> Z) (rows : list LedgerRow)
  : list SalesGroup :=
  fold_right (fun r groups => add_to_group (key r) (amount (entry r) * -1) groups)
             [] rows.

(** [get_daily_sales_trend]: a group per day that has a sale ([group_key] is
    the day that [date_str] prints). *)
Definition get_daily_sales_trend
  (rows : list LedgerRow) (start_date end_date : date) (reseller_id : option Z)
  : result (list SalesGroup) :=
  match next_day end_date with
  | Raise e => Raise e
  | Ok query_end_date =>
      Ok (group_sales (fun r => date_of (created_at r))
            (filter (reported start_date query_end_date reseller_id) rows))
  end.

(** A year and a month as one key: months since year 0. *)
Definition month_key (ym : Z * Z) : Z := fst ym * 12 + (snd ym - 1).

(** [get_monthly_sales_trend]: a group per month that has a sale
    ([group_key] is the month that [month_str] prints, as months since
    year 0). *)
Definition get_monthly_sales_trend
  (rows : list LedgerRow) (start_year end_year : Z) (reseller_id : option Z)
  : result (list SalesGroup) :=
  match date_ymd start_year 1 1 with
  | Raise e => Raise e
  | Ok start_date_filter =>
      match date_ymd (end_year + 1) 1 1 with
      | Raise e => Raise e
      | Ok end_date_filter =>
          Ok (group_sales (fun r => month_key (year_month_of (created_at r)))
                (filter (reported start_date_filter end_date_filter reseller_id) rows))
      end
  end.

(** ** The synchronisation endpoint: admin_sync.py *)

(** What an endpoint function comes to: the body it returns, with the status
    of the response, or the [HTTPException] it raises. *)
Inductive Answer (A : Type) :=
  | Response (status : Z) (body : A)
  | HTTPException (status_code : Z) (detail : string).
Arguments Response {A} status body.
Arguments HTTPException {A} status_code detail.

(** [str(e)] of an exception of the service layer. *)
Definition str_exn (e : exn) : string :=
  match e with
  | MarzbanUserServiceError e => message e
  | APIError e => api_message e
  | PyError _ msg => msg
  end.

Section SyncEndpoint.

(** Texts that Python and the web framework print: [str(e)] of an
    [HTTPException] with its status and detail, the [repr] of a list of
    strings (line 47), and the [repr] of a user object of the panel
    (line 90 of marzban_user_service.py). *)
Variable str_http_exception : Z -> string -> string.
Variable repr_errors : list string -> string.
Variable repr_user : ApiUser -> string.

(** An entry of [summary["errors"]] as the string the service appended. *)
Definition error_text (e : SyncError) : string :=
  match e with
  | CouldNotRetrievePassword p =>
      "Could not retrieve/decrypt password for panel ID " ++ str_int p ++ "."
  | FailedToGetAccessToken p =>
      "Failed to get access token for panel ID " ++ str_int p ++ "."
  | MissingUsername user_data =>
      "User data from API missing username: " ++ repr_user user_data
  | MarzbanAPIErrorEntry e => e
  | UnexpectedErrorEntry e => e
  end.

(** The test of lines 40-46 on the errors of a summary. *)
Definition is_critical (errors : list string) : bool :=
  match errors with
  | [] => false
  | _ =>
      existsb (contains "Authentication failed") errors
      || existsb (contains "Could not retrieve/decrypt password") errors
  end.

(** [sync_marzban_users_for_panel_and_reseller], from its parameters on: the
    session and the admin that the framework resolves are taken as given.
    [Reseller.marzban_admin_id] is not nullable, so the test of line 30
    never fires.  The [HTTPException] of line 47 is raised inside the [try]
    and is not a [MarzbanUserServiceError]: the handler of line 52 catches
    it. *)
Definition sync_marzban_users_for_panel_and_reseller
  (env : Env) (resellers : list Reseller) (d : Db) (log : list RemoteCall)
  (reseller_id panel_id : Z) : Answer Summary * (Db * list RemoteCall) :=
  match get_reseller resellers reseller_id with
  | None => (HTTPException 404 "Reseller not found.", (d, log))
  | Some db_reseller =>
      match get_panel d panel_id with
      | None => (HTTPException 404 "Marzban Panel not found.", (d, log))
      | Some db_panel =>
          match sync_marzban_users_for_reseller_panel env db_panel
                  (mkWorld d db_reseller log) with
          | (Ok sync_summary, w') =>
              let summary_errors := map error_text (errors sync_summary) in
              (if is_critical summary_errors
               then HTTPException 500
                      ("An unexpected server error occurred during sync: "
                       ++ str_http_exception 400
                            ("Critical error during sync: " ++ repr_errors summary_errors))
               else Response 200 sync_summary,
               (db w', remote_log w'))
          | (Raise (MarzbanUserServiceError e), w') =>
              (HTTPException 400 (message e), (db w', remote_log w'))
          | (Raise e, w') =>
              (HTTPException 500
                 ("An unexpected server error occurred during sync: " ++ str_exn e),
               (db w', remote_log w'))
          end
      end
  end.

End SyncEndpoint.

(** ** Vocabulary of the properties *)

(** A pricing row of reseller [rid] scoped to panel [pid], and a generic one. *)
Definition panel_specific (rid pid : Z) (rp : ResellerPricing) : Prop :=
  rp_reseller_id rp = rid /\ rp_marzban_panel_id rp = Some pid.

Definition generic_for (rid : Z) (rp : ResellerPricing) : Prop :=
  rp_reseller_id rp = rid /\ rp_marzban_panel_id rp = None.



(** The error is the insufficient-funds error of a modification. *)
Definition is_insufficient (e : exn) : Prop :=
  exists a b, e = MarzbanUserServiceError (InsufficientBalanceForModification a b).

(** The wallet check of lines 264-269, as a test. *)
Definition modification_unfunded (r : Reseller) (cost : Money) : bool :=
  (0 <? cost)
  && ((wallet_balance r <? cost) && negb (allow_negative_balance r)).

(** The wallet and the ledger after an operation: untouched, or one debit of
    [cost] that the balance covered. *)
Definition untouched_or_covered_debit (w w' : World) : Prop :=
  (wallet_balance (reseller w') = wallet_balance (reseller w)
   /\ transactions (db w') = transactions (db w))
  \/ (exists cost tx,
         0 <= wallet_balance (reseller w) - cost
         /\ wallet_balance (reseller w') = wallet_balance (reseller w) - cost
         /\ transactions (db w') = tx :: transactions (db w)
         /\ amount tx = - cost).

(** ** Sample data *)

Definition panel1 : MarzbanPanel :=
  mkPanel 1 "main" "https://panel.example/" "root" (Some "gAAAAB").

Definition plan30 : PricingPlan := mkPlan 7 "30-day-50GB" 30 2000.

(** 5.00 per GB on panel 1, the plan on panel 1, and a generic 0.50 per GB. *)
Definition unit_pricing : ResellerPricing := mkPricing 1 1 None (Some 500) (Some 1).
Definition plan_pricing : ResellerPricing := mkPricing 2 1 (Some 7) None (Some 1).
Definition generic_pricing : ResellerPricing := mkPricing 3 1 None (Some 50) None.

Definition alice_on_panel (expire : option Z) : ApiUser :=
  mkApiUser (Some "alice") (Some 10) expire "".

Definition alice (expire : option Z) : MarzbanUser :=
  mkUser 5 "alice" 1 1 true None (Some (alice_on_panel expire)) 0.

Definition sample_db (pricings : list ResellerPricing) (expire : option Z) : Db :=
  mkDb [panel1] [plan30] pricings [alice expire] [] 6.

Definition sample_world
  (pricings : list ResellerPricing) (expire : option Z)
  (balance : Money) (allow_negative : bool) : World :=
  mkWorld (sample_db pricings expire) (mkReseller 1 10 balance allow_negative [1]) [].

(** 2023-11-14T22:13:20.250000 UTC. *)
Definition sample_now : datetime := 1700000000250000.

(** A panel that answers every call, a database that fails with
    [commit_fault], and a clock that stands still. *)
Definition sample_env (commit_fault : option string) (listed : list ApiUser) : Env :=
  mkEnv (fun _ => Some "secret")
        (fun _ _ _ => Returned (Some "token"))
        (fun _ _ username payload =>
           Returned (Some (mkApiUser (Some username) (Some 10) (p_expire payload) "")))
        (fun _ _ => Returned listed)
        commit_fault
        (fun _ => None)
        (fun _ => sample_now)
        sample_now
        EpochSeconds.

Definition create_request
  (data_limit_gb : option PyDecimal) (expire_days : option Z)
  : ResellerMarzbanUserCreateRequest :=
  mkCreateRequest 1 "bob" data_limit_gb expire_days None None None None.

(** A panel on which [bob] is free: the POST answers with the new user. *)
Definition panel_creates (kw : CreateKwargs) : call_result (option ApiUser) :=
  Returned (Some (mkApiUser (Some (kw_username kw)) (Some (kw_admin_id kw))
                      (kw_expire_timestamp kw) "")).

(** The spec's renewal scenario: balance 100.00, plan of 30 days at 20.00,
    a mirror whose stored expiry is a day old, and a request for 30 days. *)
Definition extend30 : ResellerMarzbanUserUpdateRequest :=
  mkUpdateRequest None (Some 30) None None None.

Definition renewal_world : World :=
  sample_world [plan_pricing] (Some 1699913600) 10000 false.

(** The spec's insufficient-funds scenario: balance 10.00, 5.00 per GB, and a
    request for 3 GB. *)
Definition three_gb : ResellerMarzbanUserCreateRequest :=
  create_request (Some (mkDec 30 (-1))) None.

Definition short_world : World := sample_world [unit_pricing] None 1000 false.

(** A reseller whose balance is -5.00 with the flag off, and a request that
    only sets the note. *)
Definition overdrawn_world : World := sample_world [plan_pricing] None (-500) false.

Definition note_only : ResellerMarzbanUserUpdateRequest :=
  mkUpdateRequest None None None None (Some "vip").

(** A reseller on the 30-day plan with 100.00, and a request to create a
    user for 7 days. *)
Definition plan_world : World := sample_world [plan_pricing] None 10000 false.

Definition week_request : ResellerMarzbanUserCreateRequest :=
  create_request None (Some 7).

Definition extend7 : ResellerMarzbanUserUpdateRequest :=
  mkUpdateRequest None (Some 7) None None None.

(** The spec's rounding example: 2.333 GB at the generic 0.50 per GB. *)
Definition funded_world : World := sample_world [generic_pricing] None 10000 false.

Definition gb_2333 : ResellerMarzbanUserCreateRequest :=
  create_request (Some (mkDec 2333 (-3))) None.

(** The expiry the mirror last stored for its user, if any, and the same with
    a missing value read as the epoch. *)
Definition stored_expire (u : MarzbanUser) : option Z :=
  match api_response_data u with
  | Some data => au_expire data
  | None => None
  end.

Definition last_known_expire (u : MarzbanUser) : Z :=
  match stored_expire u with
  | Some e => e
  | None => 0
  end.

(** The stored expiry is absent, zero (or negative), or not after [now]. *)
Definition stale (u : MarzbanUser) (now : datetime) : Prop :=
  match stored_expire u with
  | None => True
  | Some e => e <= 0 \/ e * 1000000 <= now
  end.

(** The calls a run added to the log. *)
Definition issued (w w' : World) (new : list RemoteCall) : Prop :=
  remote_log w' = (new ++ remote_log w)%list.

(** The calls of one run of [remote_update]: token requests, and PATCHes that
    carry the payload it was given. *)
Definition patch_or_token
  (p : MarzbanPanel) (u : MarzbanUser) (payload : UpdatePayload) (c : RemoteCall)
  : Prop :=
  (exists url name password, c = TokenCall url name password)
  \/ (exists token,
         c = UpdateUserCall (api_url p) token (marzban_username u) payload).



(** A request to create [alice], whom panel 1 accepts although the mirror
    already holds a row for her. *)
Definition alice_again : ResellerMarzbanUserCreateRequest :=
  mkCreateRequest 1 "alice" None (Some 30) None None None None.

(** A reseller with 20.00 at 5.00 per GB, and a panel on which the requested
    username is taken: it answers the POST with HTTP 409 and the detail
    [User already exists]. *)
Definition rich_world : World := sample_world [unit_pricing] None 2000 false.

Definition panel_conflict (kw : CreateKwargs) : HttpOutcome :=
  HttpError 409 (DetailText "User already exists").

Definition type_error : exn :=
  PyError "TypeError"
    "create_marzban_user() got an unexpected keyword argument 'panel_url'".

(** ** Vocabulary of the synchronisation *)

(** The listed record carries a username ([if not marzban_username] fails). *)
Definition has_username (u : ApiUser) : bool :=
  negb (is_none (truthy (au_username u))).

Definition is_missing_username (e : SyncError) : bool :=
  match e with
  | MissingUsername _ => true
  | _ => false
  end.

(** The username-missing entries of a summary's error list. *)
Definition missing_username_errors (s : Summary) : Z :=
  Z.of_nat (List.length (filter is_missing_username (errors s))).

(** The remote listing succeeds for [panel] and yields [api_users]: the
    password decrypts, the panel hands out a token, and the client returns
    the users created by the reseller's admin id. *)
Definition listing_succeeds
  (env : Env) (w : World) (panel : MarzbanPanel) (api_users : list ApiUser) : Prop :=
  exists password token token',
    truthy (get_panel_decrypted_password env (db w) (panel_id panel)) = Some password
    /\ get_marzban_access_token env (api_url panel) (admin_username panel) password
       = Returned token'
    /\ truthy token' = Some token
    /\ get_marzban_users env (api_url panel) token
         (Some (marzban_admin_id (reseller w))) = Returned api_users.

(** No exception of the database leaves the loop body while [n] listed
    users are handled. *)
Definition no_item_fault (env : Env) (n : nat) : Prop :=
  forall i, (i < n)%nat -> item_fault env i = None.

(** Primary keys of the mirror table: ids are unique and below the next
    autoincrement value. *)
Definition primary_keys_ok (d : Db) : Prop :=
  NoDup (map mu_id (marzban_users d))
  /\ Forall (fun u => mu_id u < next_user_id d) (marzban_users d).

(** Two remote users, a record without a username, and the mirror before any
    sync. *)
Definition listed_users : list ApiUser :=
  [alice_on_panel None;
   mkApiUser None (Some 10) None "";
   mkApiUser (Some "carol") (Some 10) (Some 1800000000) ""].

Definition nameless_only : list ApiUser := [mkApiUser None (Some 10) None ""].

(** The mirror table holds a row for [name] on panel [pid]. *)
Definition key_known (d : Db) (pid : Z) (name : string) : bool :=
  existsb (fun u => String.eqb (marzban_username u) name
                    && (marzban_panel_id u =? pid))
          (marzban_users d).

(** Every listed user that carries a username has a mirror row. *)
Definition all_mirrored (d : Db) (pid : Z) (api_users : list ApiUser) : Prop :=
  forall u name,
    In u api_users -> truthy (au_username u) = Some name ->
    key_known d pid name = true.

(** ** Vocabulary of the host's clock *)

(** The environment [env] on a host whose zone rules are [local]. *)
Definition on_host (local : Z -> LocalTime) (env : Env) : Env :=
  mkEnv (decrypt_data env) (get_marzban_access_token env)
        (update_marzban_user_on_panel env) (panel_users env) (commit_fault env)
        (item_fault env) (utcnow env) (db_now env) local.

(** A host whose local time is UTC. *)
Definition utc_host (env : Env) : Prop :=
  forall s, local_to_seconds env s = EpochSeconds s.

(** A host in the zone Asia/Tehran, three and a half hours ahead of UTC
    throughout the year: the wall-clock second [s] is the second
    [s - 12600] of the epoch. *)
Definition tehran (s : Z) : LocalTime := EpochSeconds (s - 12600).

Definition tehran_env : Env := on_host tehran (sample_env None []).

(** The naive datetime that an extension by [days] starts from and ends at
    when the clock reads [now]: the later of [now] and the stored expiry,
    plus the days. *)
Definition extended_expiry (now : datetime) (u : MarzbanUser) (days : Z) : datetime :=
  Z.max now (last_known_expire u * 1000000) + days * 86400 * 1000000.

(** The data limit of a request, when it has one, has a finite number of
    bytes: line 488 does not raise. *)
Definition bytes_fit (data_limit_gb : option PyDecimal) : Prop :=
  match data_limit_gb with
  | Some gb => bytes_overflow gb = false
  | None => True
  end.

(** The double [x] is the whole number [s], and the double [y] is a
    fraction between 0 and [1 - 2^-20]. *)
Definition holds_int (x : Double) (s : Z) : Prop :=
  binary_exponent x <= 0
  /\ significand x = s * 2 ^ (- binary_exponent x).

Definition holds_fraction (y : Double) : Prop :=
  binary_exponent y <= 0
  /\ 0 <= significand y
  /\ significand y * 2 ^ 20 <= (2 ^ 20 - 1) * 2 ^ (- binary_exponent y).

(** The second that [max(now, stored expiry) + days] falls in. *)
Definition extended_second (now : datetime) (u : MarzbanUser) (days : Z) : Z :=
  Z.max (now / 1000000) (last_known_expire u) + days * 86400.

(** ** Vocabulary of the books *)

(** The ledger entries of reseller [rid], added up. *)
Definition ledger_total (rid : Z) (txs : list Transaction) : Money :=
  fold_right (fun t acc => if tx_reseller_id t =? rid then amount t + acc else acc)
             0 txs.

(** What the wallet holds beyond what the ledger accounts for. *)
Definition unaccounted (w : World) : Money :=
  wallet_balance (reseller w)
  - ledger_total (reseller_id (reseller w)) (transactions (db w)).

(** The columns of a mirror row that name the remote user and its owner. *)
Definition row_identity (u : MarzbanUser) : Z * string * Z * Z * bool :=
  (mu_id u, marzban_username u, marzban_panel_id u, mu_reseller_id u,
   created_by_new_panel u).

(** The tables that user operations only read. *)
Definition same_catalogue (d d' : Db) : Prop :=
  marzban_panels d' = marzban_panels d
  /\ pricing_plans d' = pricing_plans d
  /\ reseller_pricings d' = reseller_pricings d.

(** The plan that prices a renewal on panel [p] for the reseller of [w]. *)
Definition renewal_plan (w : World) (p : MarzbanPanel) : option PricingPlan :=
  match get_active_pricing_for_reseller (db w) (reseller_id (reseller w))
          (Some (panel_id p)) with
  | Some rp => pricing_plan (db w) rp
  | None => None
  end.

(** A request that asks for three GB and thirty more days at once, and a
    pricing row that carries both a unit rate and the plan. *)
Definition data_and_days : ResellerMarzbanUserUpdateRequest :=
  mkUpdateRequest (Some (mkDec 3 0)) (Some 30) None None None.

Definition both_pricing : ResellerPricing := mkPricing 4 1 (Some 7) (Some 500) (Some 1).

Definition top_up : ResellerMarzbanUserUpdateRequest :=
  mkUpdateRequest (Some (mkDec 3 0)) None None None None.

Definition new_proxies : ResellerMarzbanUserUpdateRequest :=
  mkUpdateRequest None None (Some "{}") None None.

(** A reseller other than the owner of row 5. *)
Definition stranger_world : World :=
  mkWorld (sample_db [plan_pricing] None) (mkReseller 2 20 10000 false [1]) [].

(** ** Vocabulary of the mirror *)

(** The columns of a mirror row that a synchronisation leaves alone. *)
Definition stable_columns (u : MarzbanUser) : Z * string * Z * Z * bool * option string :=
  (row_identity u, notes u).

(** A row as [sync_marzban_users_for_reseller_panel] creates it for reseller
    [r] on [panel]: owned by [r], not created by this system, and holding a
    record of the panel that carries the row's username and that was
    created by the reseller's Marzban admin. *)
Definition imported_by (r : Reseller) (panel : MarzbanPanel) (u : MarzbanUser) : Prop :=
  mu_reseller_id u = reseller_id r
  /\ marzban_panel_id u = panel_id panel
  /\ created_by_new_panel u = false
  /\ exists data,
      api_response_data u = Some data
      /\ au_creator_admin_id data = Some (marzban_admin_id r)
      /\ truthy (au_username data) = Some (marzban_username u).

(** A panel that lists three users, one of them created by another admin,
    and a database whose second insert fails. *)
Definition mixed_listing : list ApiUser :=
  [mkApiUser (Some "carol") (Some 10) None "";
   mkApiUser (Some "mallory") (Some 99) None "";
   mkApiUser (Some "dave") (Some 10) None ""].


(** ** Vocabulary of the pricing table *)

(** The row prices by exactly one mechanism: a plan or a unit rate. *)
Definition one_mechanism (rp : ResellerPricing) : Prop :=
  (pricing_plan_id rp = None /\ custom_price_per_gb rp <> None)
  \/ (pricing_plan_id rp <> None /\ custom_price_per_gb rp = None).

(** What a pricing row applies to: a reseller, and one panel or (generic)
    all of them. *)
Definition scope (rp : ResellerPricing) : Z * option Z :=
  (rp_reseller_id rp, rp_marzban_panel_id rp).

Definition one_config_per_scope (d : Db) : Prop :=
  NoDup (map scope (reseller_pricings d)).

Definition pricing_keys_ok (d : Db) : Prop :=
  NoDup (map rp_id (reseller_pricings d)).

(** The payload sets both mechanisms to non-null values. *)
Definition sets_both (u : ResellerPricingUpdate) : Prop :=
  exists p c,
    pu_pricing_plan_id u = Some (Some p)
    /\ pu_custom_price_per_gb u = Some (Some c).

(** A catalogue with two panels, the 30-day plan, and reseller 1 priced by
    the plan on panel 1 and by 0.50 per GB everywhere else. *)
Definition panel2 : MarzbanPanel :=
  mkPanel 2 "backup" "https://backup.example" "root" (Some "gAAAAC").

Definition catalogue : Db :=
  mkDb [panel1; panel2] [plan30] [plan_pricing; generic_pricing] []
       [mkTx 1 "user_creation_cost" (-2000) None (Some 7) (Some 2)] 1.

Definition quiet_env : Env := sample_env None [].

(** ** Vocabulary of panels and credentials *)

(** What Fernet guarantees of a cipher: a token it made decrypts to the
    plaintext it was made from. *)
Definition decrypts_its_own_tokens (f : encryption.Fernet) : Prop :=
  forall nonce s,
    encryption.decrypt f (encryption.encrypt f nonce s) = encryption.Plaintext s
    /\ encryption.encrypt f nonce s <> "".

(** A toy cipher for the examples: the token is the plaintext behind a
    marker. *)
Definition toy_cipher : encryption.Fernet :=
  encryption.mkFernet
    (fun _ s => "gAAAAA" ++ s)
    (fun c => if prefix "gAAAAA" c
              then encryption.Plaintext (substring 6 (String.length c - 6) c)
              else encryption.InvalidToken).

Definition new_panel : MarzbanPanelCreate :=
  mkPanelCreate "third" "https://third.example" "root" "hunter2".

(** The reseller of the examples, without access to any panel. *)
Definition reseller1 : Reseller := mkReseller 1 10 10000 false [].

(** ** Vocabulary of the reports *)

(** Keys in strictly increasing order. *)
Fixpoint increasing (l : list Z) : Prop :=
  match l with
  | [] => True
  | x :: rest => Forall (fun y => x < y) rest /\ increasing rest
  end.

Definition sum_of_totals (groups : list SalesGroup) : Money :=
  fold_right (fun g acc => total_sales g + acc) 0 groups.

Definition sum_of_counts (groups : list SalesGroup) : Z :=
  fold_right (fun g acc => group_count g + acc) 0 groups.

(** A ledger of four entries: a creation and a renewal of reseller 1 on
    14 November 2023, a data top-up on the 15th, and a creation of reseller
    2 on 2 December 2023. *)
Definition sample_ledger : list LedgerRow :=
  [mkLedgerRow (mkTx 1 "user_creation_cost" (-2000) (Some 5) (Some 7) (Some 2))
               1699950000000000;
   mkLedgerRow (mkTx 1 "user_renewal_cost" (-2000) (Some 5) (Some 7) (Some 2))
               1699999999000000;
   mkLedgerRow (mkTx 1 "user_data_topup_cost" (-1500) (Some 5) None (Some 1))
               1700040000000000;
   mkLedgerRow (mkTx 2 "user_creation_cost" (-117) (Some 6) None (Some 3))
               1701500000000000].

(** The integer fits the [int] of C, as the constructor of [date] needs
    it. *)
Definition fits_c_int (n : Z) : bool := (- 2 ^ 31 <=? n) && (n <? 2 ^ 31).

(** ** Vocabulary of the usage query *)

(** The URL that the client requests for [username] on a panel. *)
Definition usage_url (panel_url username : string) : string :=
  with_slash panel_url ++ "api/user/" ++ username ++ "/usage".

(** The user with local id [uid] is a row of reseller [rid], on [panel]. *)
Definition owned_on (d : Db) (rid uid : Z) (u : MarzbanUser) (panel : MarzbanPanel) : Prop :=
  In u (marzban_users d)
  /\ mu_id u = uid /\ mu_reseller_id u = rid
  /\ get_panel d (marzban_panel_id u) = Some panel.

(** How the service words the failure of the request for the usage. *)
Definition panel_failure_prefix : string := "Marzban API error when fetching usage: ".
Definition unexpected_prefix : string :=
  "An unexpected error occurred when fetching usage: ".

(** The answers of the HTTP layer that the client turns into a
    [MarzbanAPIError]. *)
Definition reported_by_client (r : UsageResponse) : bool :=
  match r with
  | UsageHTTPError _ (Detail _) => true
  | UsageRequestException _ => true
  | UsageOtherException _ => true
  | _ => false
  end.

(** A panel that reports alice's usage at one URL and answers 404 elsewhere. *)
Definition usage_panel (url token : string) : UsageResponse :=
  if String.eqb url "https://panel.example/api/user/alice/usage"
  then UsageOK (Some "{}")
  else UsageHTTPError 404 (Detail "User not found").

Definition null_panel (url token : string) : UsageResponse := UsageOK None.

(** ** Vocabulary of the synchronisation endpoint *)

(** The login at [panel] with [password] comes back without a token. *)
Definition login_refused (env : Env) (panel : MarzbanPanel) (password : string) : Prop :=
  exists tok,
    get_marzban_access_token env (api_url panel) (admin_username panel) password
    = Returned tok
    /\ truthy tok = None.

(** A panel whose login answers without a token. *)
Definition refusing_env : Env :=
  mkEnv (fun _ => Some "secret")
        (fun _ _ _ => Returned None)
        (fun _ _ _ _ => Returned None)
        (fun _ _ => Returned [])
        None
        (fun _ => None)
        (fun _ => sample_now)
        sample_now
        EpochSeconds.

(** Stand-ins for the texts that Python prints. *)
Definition plain_str_http_exception (status : Z) (detail : string) : string :=
  str_int status ++ ": " ++ detail.
Definition plain_repr_errors (errors : list string) : string :=
  "[" ++ String.concat ", " errors ++ "]".
Definition plain_repr_user (u : ApiUser) : string := au_rest u.

(** * Properties *)

(** ** Stepping through an operation *)

Lemma bind_ok {A B} (m : M A) (k : A -> M B) w a w' :
  m w = (Ok a, w') -> bind m k w = k a w'.
Proof. unfold bind; intros ->; reflexivity. Qed.

Lemma bind_raise {A B} (m : M A) (k : A -> M B) w e w' :
  m w = (Raise e, w') -> bind m k w = (Raise e, w').
Proof. unfold bind; intros ->; reflexivity. Qed.

Ltac unfold_monad :=
  unfold bind, get_world, of_result, of_option, guard, issue, service_error,
    raise, ret in *.

(** ** Pricing resolution *)

Lemma panel_is_some pid rp :
  panel_is (Some pid) rp = true <-> rp_marzban_panel_id rp = Some pid.
Proof.
  unfold panel_is; destruct (rp_marzban_panel_id rp) as [a|]; split;
    try discriminate.
  - intros H; apply Z.eqb_eq in H; now subst.
  - intros [= ->]; apply Z.eqb_refl.
Qed.

Lemma panel_is_none rp :
  panel_is None rp = true <-> rp_marzban_panel_id rp = None.
Proof.
  unfold panel_is; destruct (rp_marzban_panel_id rp); split;
    congruence.
Qed.

Lemma specific_filter rid pid rp :
  (rp_reseller_id rp =? rid) && panel_is (Some pid) rp = true
  <-> panel_specific rid pid rp.
Proof.
  unfold panel_specific.
  rewrite andb_true_iff, Z.eqb_eq, panel_is_some; tauto.
Qed.

Lemma generic_filter rid rp :
  (rp_reseller_id rp =? rid) && panel_is None rp = true
  <-> generic_for rid rp.
Proof.
  unfold generic_for.
  rewrite andb_true_iff, Z.eqb_eq, panel_is_none; tauto.
Qed.

Lemma find_exists {A} (f : A -> bool) l x :
  In x l -> f x = true -> exists y, find f l = Some y.
Proof.
  intros Hin Hf; destruct (find f l) eqn:E; eauto.
  exfalso; pose proof (find_none f l E x Hin); congruence.
Qed.

Lemma pricing_specific_wins d rid pid rp :
  In rp (reseller_pricings d) -> panel_specific rid pid rp ->
  exists rp', get_active_pricing_for_reseller d rid (Some pid) = Some rp'
              /\ In rp' (reseller_pricings d) /\ panel_specific rid pid rp'.
Proof.
  intros Hin Hs. unfold get_active_pricing_for_reseller.
  apply specific_filter in Hs.
  destruct (find_exists
              (fun rp0 => (rp_reseller_id rp0 =? rid) && panel_is (Some pid) rp0)
              _ _ Hin Hs) as [y Hy]; rewrite Hy.
  apply find_some in Hy as [? ?]. exists y; split; [reflexivity|]; split; [assumption|].
  now apply specific_filter.
Qed.

Lemma pricing_falls_back d rid pid rp :
  (forall rp', In rp' (reseller_pricings d) -> ~ panel_specific rid pid rp') ->
  In rp (reseller_pricings d) -> generic_for rid rp ->
  exists rp', get_active_pricing_for_reseller d rid (Some pid) = Some rp'
              /\ In rp' (reseller_pricings d) /\ generic_for rid rp'.
Proof.
  intros Hno Hin Hg. unfold get_active_pricing_for_reseller.
  destruct (find (fun rp0 => (rp_reseller_id rp0 =? rid) && panel_is (Some pid) rp0)
                 (reseller_pricings d)) eqn:E.
  - apply find_some in E as [Hi Hf]. apply specific_filter in Hf.
    exfalso; eapply Hno; eauto.
  - apply generic_filter in Hg.
    destruct (find_exists
                (fun rp0 => (rp_reseller_id rp0 =? rid) && panel_is None rp0)
                _ _ Hin Hg) as [y Hy]; rewrite Hy.
    apply find_some in Hy as [? ?]. exists y; split; [reflexivity|]; split; [assumption|].
    now apply generic_filter.
Qed.

Lemma pricing_not_found d rid pid :
  (forall rp, In rp (reseller_pricings d) ->
              ~ panel_specific rid pid rp /\ ~ generic_for rid rp) ->
  get_active_pricing_for_reseller d rid (Some pid) = None.
Proof.
  intros Hno. unfold get_active_pricing_for_reseller.
  destruct (find (fun rp0 => (rp_reseller_id rp0 =? rid) && panel_is (Some pid) rp0)
                 (reseller_pricings d)) eqn:E.
  - apply find_some in E as [Hi Hf]. apply specific_filter in Hf.
    destruct (Hno _ Hi) as [H1 _]; contradiction.
  - destruct (find (fun rp0 => (rp_reseller_id rp0 =? rid) && panel_is None rp0)
                   (reseller_pricings d)) eqn:E2; auto.
    apply find_some in E2 as [Hi Hf]. apply generic_filter in Hf.
    destruct (Hno _ Hi) as [_ H2]; contradiction.
Qed.

Lemma get_panel_id d pid p : get_panel d pid = Some p -> panel_id p = pid.
Proof.
  unfold get_panel; intros H; apply find_some in H as [_ H].
  now apply Z.eqb_eq.
Qed.

Section CreateFacts.
Variable callee : CreateKwargs -> call_result (option ApiUser).

Lemma create_raises_quote env req w e :
  creation_quote w req = Raise e ->
  create_marzban_user_for_reseller callee env req w = (Raise e, w).
Proof.
  intros H. unfold create_marzban_user_for_reseller, create_remote_phase.
  unfold_monad. rewrite H. reflexivity.
Qed.

Lemma quote_without_pricing w req :
  get_active_pricing_for_reseller (db w) (reseller_id (reseller w))
    (Some (cr_marzban_panel_id req)) = None ->
  exists e, creation_quote w req = Raise (MarzbanUserServiceError e)
            /\ (e = NoPanelAccess (cr_marzban_panel_id req)
                \/ e = TargetPanelNotFound (cr_marzban_panel_id req)
                \/ e = NoActivePricing)
            /\ (existsb (fun p => p =? cr_marzban_panel_id req)
                        (panels (reseller w)) = true ->
                get_panel (db w) (cr_marzban_panel_id req) <> None ->
                e = NoActivePricing).
Proof.
  intros H. unfold creation_quote.
  destruct (existsb _ _) eqn:Ea; cbn [negb].
  2:{ eexists; split; [reflexivity|]; split; auto; discriminate. }
  destruct (get_panel _ _) as [p|] eqn:Ep.
  2:{ eexists; split; [reflexivity|]; split; auto; congruence. }
  rewrite (get_panel_id _ _ _ Ep), H.
  eexists; split; [reflexivity|]; split; auto.
Qed.
End CreateFacts.

(** C5.  For a reseller and a panel, [get_active_pricing_for_reseller]
    answers a row scoped to that panel whenever the reseller has one, and
    otherwise a generic row of the reseller (panel = none) whenever it has one.
    When the reseller has neither, the lookup answers nothing and
    [create_marzban_user_for_reseller] raises and leaves the world untouched
    (no call, no debit, no row); the error is the no-pricing one as soon as
    the panel is granted to the reseller and exists. *)
Theorem pricing_resolution_precedence :
  forall (d : Db) (rid pid : Z),
    (forall rp,
        In rp (reseller_pricings d) -> panel_specific rid pid rp ->
        exists rp',
          get_active_pricing_for_reseller d rid (Some pid) = Some rp'
          /\ In rp' (reseller_pricings d) /\ panel_specific rid pid rp')
    /\ (forall rp,
           (forall rp', In rp' (reseller_pricings d) -> ~ panel_specific rid pid rp') ->
           In rp (reseller_pricings d) -> generic_for rid rp ->
           exists rp',
             get_active_pricing_for_reseller d rid (Some pid) = Some rp'
             /\ In rp' (reseller_pricings d) /\ generic_for rid rp')
    /\ ((forall rp, In rp (reseller_pricings d) ->
                    ~ panel_specific rid pid rp /\ ~ generic_for rid rp) ->
        get_active_pricing_for_reseller d rid (Some pid) = None
        /\ forall callee env req w,
            db w = d -> reseller_id (reseller w) = rid ->
            cr_marzban_panel_id req = pid ->
            exists e,
              create_marzban_user_for_reseller callee env req w
              = (Raise (MarzbanUserServiceError e), w)
              /\ (e = NoPanelAccess pid \/ e = TargetPanelNotFound pid
                  \/ e = NoActivePricing)
              /\ (existsb (fun p => p =? pid) (panels (reseller w)) = true ->
                  get_panel d pid <> None -> e = NoActivePricing)).
Proof.
  intros d rid pid. split; [|split].
  - intros rp; apply pricing_specific_wins.
  - intros rp; apply pricing_falls_back.
  - intros Hno. pose proof (pricing_not_found d rid pid Hno) as Hnone.
    split; [exact Hnone|].
    intros callee env req w <- <- <-.
    destruct (quote_without_pricing w req Hnone) as (e & Hq & Hcases & Hexact).
    exists e. split; [|split]; auto.
    now apply create_raises_quote.
Qed.

Lemma pricing_resolution_precedence_witness :
  (exists rp',
      get_active_pricing_for_reseller
        (sample_db [generic_pricing; unit_pricing] None) 1 (Some 1) = Some rp'
      /\ In rp' [generic_pricing; unit_pricing] /\ panel_specific 1 1 rp')
  /\ (exists rp',
         get_active_pricing_for_reseller
           (sample_db [generic_pricing] None) 1 (Some 1) = Some rp'
         /\ In rp' [generic_pricing] /\ generic_for 1 rp')
  /\ (exists e,
         create_marzban_user_for_reseller panel_creates (sample_env None [])
           (create_request (Some (mkDec 3 0)) None)
           (sample_world [] None 1000 false)
         = (Raise (MarzbanUserServiceError e), sample_world [] None 1000 false)
         /\ (e = NoPanelAccess 1 \/ e = TargetPanelNotFound 1 \/ e = NoActivePricing)
         /\ (existsb (fun p => p =? 1) [1] = true ->
             get_panel (sample_db [] None) 1 <> None -> e = NoActivePricing)).
Proof.
  split; [|split].
  - apply (proj1 (pricing_resolution_precedence
                    (sample_db [generic_pricing; unit_pricing] None) 1 1)
                 unit_pricing).
    + simpl; auto.
    + split; reflexivity.
  - apply (proj1 (proj2 (pricing_resolution_precedence
                           (sample_db [generic_pricing] None) 1 1))
                 generic_pricing).
    + intros rp' [<- | []] [_ H]; discriminate H.
    + simpl; auto.
    + split; reflexivity.
  - apply (proj2 (proj2 (pricing_resolution_precedence (sample_db [] None) 1 1))).
    + intros rp [].
    + reflexivity.
    + reflexivity.
    + reflexivity.
Defined.

(** ** Rounding *)




(** ** Counting digits *)

Lemma ndigits_fuel_pos fuel : forall n, 1 <= ndigits_fuel fuel n.
Proof.
  induction fuel as [|f IH]; intros n; cbn [ndigits_fuel]; [lia|].
  destruct (n <? 10); [lia|]. specialize (IH (n / 10)). lia.
Qed.


Lemma ndigits_fuel_lower fuel : forall n,
  0 < n -> 10 ^ (ndigits_fuel fuel n - 1) <= n.
Proof.
  induction fuel as [|f IH]; intros n Hn; cbn [ndigits_fuel].
  - change (10 ^ (1 - 1)) with 1. lia.
  - destruct (n <? 10) eqn:E.
    + change (10 ^ (1 - 1)) with 1. lia.
    + apply Z.ltb_ge in E.
      assert (H : 0 < n / 10) by (apply Z.div_str_pos; lia).
      specialize (IH (n / 10) H).
      pose proof (ndigits_fuel_pos f (n / 10)).
      replace (1 + ndigits_fuel f (n / 10) - 1)
        with (1 + (ndigits_fuel f (n / 10) - 1)) by lia.
      rewrite Z.pow_add_r by lia. change (10 ^ 1) with 10.
      pose proof (Z.mul_div_le n 10 ltac:(lia)). lia.
Qed.

Lemma ndigits_fuel_upper fuel : forall n,
  0 <= n < 2 ^ Z.of_nat fuel -> n < 10 ^ ndigits_fuel fuel n.
Proof.
  induction fuel as [|f IH]; intros n Hn; cbn [ndigits_fuel].
  - change (2 ^ Z.of_nat 0) with 1 in Hn. change (10 ^ 1) with 10. lia.
  - destruct (n <? 10) eqn:E.
    + apply Z.ltb_lt in E. change (10 ^ 1) with 10. lia.
    + apply Z.ltb_ge in E.
      rewrite Nat2Z.inj_succ, Z.pow_succ_r in Hn by lia.
      assert (0 <= n / 10) by (apply Z.div_pos; lia).
      assert (n / 10 < 2 ^ Z.of_nat f).
      { apply Z.div_lt_upper_bound; lia. }
      specialize (IH (n / 10) ltac:(lia)).
      pose proof (ndigits_fuel_pos f (n / 10)).
      rewrite Z.pow_add_r by lia. change (10 ^ 1) with 10.
      pose proof (Z.div_mod n 10 ltac:(lia)).
      pose proof (Z.mod_pos_bound n 10 ltac:(lia)). lia.
Qed.

(** [ndigits] counts the decimal digits of a non-zero integer. *)
Lemma ndigits_spec n :
  n <> 0 -> 10 ^ (ndigits n - 1) <= Z.abs n < 10 ^ ndigits n.
Proof.
  intros Hn. unfold ndigits. split.
  - apply ndigits_fuel_lower; lia.
  - apply ndigits_fuel_upper. split; [lia|].
    rewrite Z2Nat.id by (pose proof (Z.log2_nonneg (Z.abs n)); lia).
    apply Z.log2_spec; lia.
Qed.



Example rounding_ties_go_up :
  unit_rate_cost (mkDec 233 (-2)) 50 = Some 117
  /\ unit_rate_cost (mkDec 2329 (-3)) 50 = Some 116
  /\ unit_rate_cost (mkDec 1 (-2)) 50 = Some 1
  /\ unit_rate_cost (mkDec 3 0) 50 = Some 150
  /\ unit_rate_cost (mkDec 1 30) 0 = Some 0
  /\ unit_rate_cost (mkDec 1 30) 50 = None.
Proof. repeat split; reflexivity. Qed.

(** ** The phases of [create_marzban_user_for_reseller] *)

(** Case analysis on an innermost scrutinee of [H]. *)
Ltac destruct_match_in H :=
  match type of H with
  | context [match ?x with _ => _ end] =>
      lazymatch x with
      | context [match _ with _ => _ end] => fail
      | _ => destruct x eqn:?
      end
  end.

Ltac run_in H :=
  unfold_monad; cbn beta iota zeta in H;
  repeat (destruct_match_in H; cbn beta iota zeta in H);
  try discriminate H.

Lemma creation_cost_errors d rp req e :
  creation_cost d rp req = Raise e ->
  forall a b, e <> MarzbanUserServiceError (InsufficientBalance a b).
Proof.
  unfold creation_cost, InvalidOperation. intros H a b.
  repeat (destruct_match_in H; try discriminate H);
    injection H as <-; discriminate.
Qed.

Lemma creation_quote_errors w req e :
  creation_quote w req = Raise e ->
  forall a b, e <> MarzbanUserServiceError (InsufficientBalance a b).
Proof.
  unfold creation_quote. intros H a b.
  destruct (negb _); [injection H as <-; discriminate|].
  destruct (get_panel _ _); [|injection H as <-; discriminate].
  destruct (get_active_pricing_for_reseller _ _ _); [|injection H as <-; discriminate].
  destruct (creation_cost _ _ _) as [[c p]|e'] eqn:E; [discriminate|].
  injection H as <-. eapply creation_cost_errors; eauto.
Qed.

Section CreatePhases.
Variable callee : CreateKwargs -> call_result (option ApiUser).

Lemma create_remote_phase_local env req w res w' :
  create_remote_phase callee env req w = (res, w') ->
  db w' = db w /\ reseller w' = reseller w.
Proof.
  unfold create_remote_phase, uncaught, translated. intros H.
  run_in H; injection H as <- <-; cbn; auto.
Qed.

Lemma create_raises_phase_quote env req w e :
  creation_quote w req = Raise e ->
  create_remote_phase callee env req w = (Raise e, w).
Proof.
  intros H. unfold create_remote_phase. unfold_monad. rewrite H. reflexivity.
Qed.

Lemma create_remote_phase_insufficient env req w target_panel active_pricing cost plan :
  creation_quote w req = Ok (target_panel, active_pricing, cost, plan) ->
  (wallet_balance (reseller w) <? cost)
  && negb (allow_negative_balance (reseller w)) = true ->
  create_remote_phase callee env req w
  = (Raise (MarzbanUserServiceError
              (InsufficientBalance cost (wallet_balance (reseller w)))), w).
Proof.
  intros Hq Hb. unfold create_remote_phase. unfold_monad.
  rewrite Hq. cbn. rewrite Hb. reflexivity.
Qed.

Lemma create_remote_phase_funded env req w target_panel active_pricing cost plan res w' :
  creation_quote w req = Ok (target_panel, active_pricing, cost, plan) ->
  (wallet_balance (reseller w) <? cost)
  && negb (allow_negative_balance (reseller w)) = false ->
  create_remote_phase callee env req w = (res, w') ->
  (forall a b, res <> Raise (MarzbanUserServiceError (InsufficientBalance a b)))
  /\ (forall x, res = Ok x ->
        exists response username,
          x = (target_panel, active_pricing, cost, plan, response, username)).
Proof.
  intros Hq Hb.
  unfold create_remote_phase, uncaught, translated, days_to_timestamp, timestamp. unfold_monad.
  rewrite Hq. cbn beta iota zeta. rewrite Hb. cbn beta iota zeta. intros H.
  run_in H; injection H as <- <-;
    (split; [intros ? ?; discriminate | intros x [= <-]; eauto]).
Qed.

End CreatePhases.

Lemma commit_creation_cases env target_panel active_pricing req cost plan response username w res w' :
  commit_creation env target_panel active_pricing req cost plan response username w
  = (res, w') ->
  (get_marzban_user_by_username_and_panel (db w) username (panel_id target_panel) = None
   /\ commit_fault env = None
   /\ res = Ok (mkUser (next_user_id (db w)) username (panel_id target_panel)
                       (reseller_id (reseller w)) true (cr_note req)
                       (Some response) (db_now env))
   /\ reseller w' = debit (reseller w) cost
   /\ transactions (db w')
      = mkTx (reseller_id (reseller w)) "user_creation_cost" (- cost)
             (Some (next_user_id (db w))) plan (Some (rp_id active_pricing))
        :: transactions (db w)
   /\ remote_log w' = remote_log w)
  \/ (exists e,
        (get_marzban_user_by_username_and_panel (db w) username (panel_id target_panel)
         <> None \/ commit_fault env = Some e)
        /\ res = Raise (MarzbanUserServiceError
                          (DatabaseErrorAfterCreation e username (panel_name target_panel)))
        /\ w' = w).
Proof.
  unfold commit_creation. intros H.
  destruct (get_marzban_user_by_username_and_panel _ _ _) eqn:Ed.
  - injection H as <- <-. right. eexists. split; [left; discriminate|]. auto.
  - destruct (commit_fault env) eqn:Ef; injection H as <- <-.
    + right. eexists. split; [right; reflexivity|]. auto.
    + left. cbn. repeat split; auto.
Qed.

Section CreateOutcomes.
Variable callee : CreateKwargs -> call_result (option ApiUser).

(** Every run of [create_marzban_user_for_reseller] either leaves the wallet
    and the ledger as they were, or passed the wallet check and wrote one
    debit. *)
Lemma create_wallet_cases env req w res w' :
  create_marzban_user_for_reseller callee env req w = (res, w') ->
  (reseller w' = reseller w /\ transactions (db w') = transactions (db w)
   /\ exists e, res = Raise e)
  \/ (exists target_panel active_pricing cost plan tx,
         creation_quote w req = Ok (target_panel, active_pricing, cost, plan)
         /\ (wallet_balance (reseller w) <? cost)
            && negb (allow_negative_balance (reseller w)) = false
         /\ reseller w' = debit (reseller w) cost
         /\ transactions (db w') = tx :: transactions (db w)
         /\ amount tx = - cost
         /\ exists u, res = Ok u).
Proof.
  unfold create_marzban_user_for_reseller, bind. intros H.
  destruct (create_remote_phase callee env req w) as [[x|e] w1] eqn:Hp.
  2:{ injection H as <- <-.
      apply create_remote_phase_local in Hp as [-> ->]. eauto. }
  destruct (creation_quote w req) as [[[[p rp] c] pl]|e] eqn:Hq.
  2:{ rewrite (create_raises_phase_quote callee _ _ _ _ Hq) in Hp. discriminate. }
  destruct ((wallet_balance (reseller w) <? c)
            && negb (allow_negative_balance (reseller w))) eqn:Hb.
  { rewrite (create_remote_phase_insufficient callee env req w _ _ _ _ Hq Hb) in Hp.
    discriminate. }
  pose proof (create_remote_phase_local _ _ _ _ _ _ Hp) as [Hd Hr].
  destruct (create_remote_phase_funded callee env req w _ _ _ _ _ _ Hq Hb Hp)
    as [_ Hx].
  destruct (Hx x eq_refl) as (response & username & ->).
  apply commit_creation_cases in H
    as [(_ & _ & -> & Hr' & Ht & _) | (e & _ & -> & ->)].
  - right. rewrite Hd, Hr in *. do 5 eexists. repeat split; eauto.
  - left. rewrite Hd, Hr. eauto.
Qed.

End CreateOutcomes.

(** ** The phases of [modify_marzban_user_for_reseller] *)

Lemma data_limit_step_errors rp req b e :
  data_limit_step rp req b = Raise e -> ~ is_insufficient e.
Proof.
  unfold data_limit_step, InvalidOperation. intros H (x & y & ->).
  repeat (destruct_match_in H; try discriminate H).
Qed.

Lemma new_expire_errors env u days e :
  new_expire env u days = Raise e -> ~ is_insufficient e.
Proof.
  unfold new_expire, timestamp, utcfromtimestamp_error. cbv zeta. intros H (x & y & ->).
  repeat (destruct_match_in H; try discriminate H).
Qed.

Lemma expire_step_errors env d u rp req b e :
  expire_step env d u rp req b = Raise e -> ~ is_insufficient e.
Proof.
  unfold expire_step. intros H.
  repeat (destruct_match_in H; try discriminate H);
    try (injection H as <-; intros (x & y & [=]); fail).
  injection H as <-. eapply new_expire_errors; eauto.
Qed.

Lemma billing_errors env d u rp req e :
  billing env d u rp req = Raise e -> ~ is_insufficient e.
Proof.
  unfold billing. intros H.
  destruct (data_limit_step _ _ _) eqn:E1.
  - destruct (expire_step _ _ _ _ _ _) eqn:E2; [discriminate|].
    injection H as <-. eapply expire_step_errors; eauto.
  - injection H as <-. eapply data_limit_step_errors; eauto.
Qed.

Lemma modification_quote_errors env w id req e :
  modification_quote env w id req = Raise e -> ~ is_insufficient e.
Proof.
  unfold modification_quote. intros H.
  destruct (get_marzban_user_for_reseller _ _ _);
    [|injection H as <-; intros (x & y & [=])].
  destruct (get_panel _ _); [|injection H as <-; intros (x & y & [=])].
  destruct (billing _ _ _ _ _) eqn:E; [discriminate|].
  injection H as <-. eapply billing_errors; eauto.
Qed.

Lemma remote_update_cases env target_panel local_db_user payload w res w' :
  remote_update env target_panel local_db_user payload w = (res, w') ->
  db w' = db w /\ reseller w' = reseller w
  /\ (forall e, res = Raise e -> ~ is_insufficient e)
  /\ (payload_is_empty payload = true -> res = Ok None /\ w' = w).
Proof.
  unfold remote_update, uncaught, translated. intros H.
  destruct (payload_is_empty payload) eqn:Ep.
  - injection H as <- <-. repeat split; auto. intros ? [=].
  - run_in H; injection H as <- <-; cbn;
      (repeat split; auto; try discriminate;
       intros ? [= <-] (? & ? & [=])).
Qed.

Lemma modify_raises_phase_quote env id req w e :
  modification_quote env w id req = Raise e ->
  modify_remote_phase env id req w = (Raise e, w).
Proof.
  intros H. unfold modify_remote_phase. unfold_monad. rewrite H. reflexivity.
Qed.

Lemma modify_remote_phase_quoted env id req w u p b :
  modification_quote env w id req = Ok (u, p, b) ->
  modify_remote_phase env id req w
  = if payload_is_empty (b_payload b) && is_none (ur_note req)
    then (Raise (MarzbanUserServiceError NothingToUpdate), w)
    else if modification_unfunded (reseller w) (b_cost b)
         then (Raise (MarzbanUserServiceError
                        (InsufficientBalanceForModification
                           (b_cost b) (wallet_balance (reseller w)))), w)
         else match remote_update env p u (b_payload b) w with
              | (Ok resp, w1) => (Ok (u, p, b, resp), w1)
              | (Raise e, w1) => (Raise e, w1)
              end.
Proof.
  intros H. unfold modify_remote_phase, modification_unfunded. unfold_monad.
  rewrite H. cbn beta iota zeta.
  destruct (payload_is_empty (b_payload b) && is_none (ur_note req)); cbn; [reflexivity|].
  destruct ((0 <? b_cost b) && _); cbn; [reflexivity|].
  destruct (remote_update env p u (b_payload b) w) as [[resp|e] w1]; reflexivity.
Qed.

Lemma modify_remote_phase_local env id req w res w' :
  modify_remote_phase env id req w = (res, w') ->
  db w' = db w /\ reseller w' = reseller w.
Proof.
  intros H.
  destruct (modification_quote env w id req) as [[[u p] b]|e] eqn:Hq.
  2:{ rewrite (modify_raises_phase_quote _ _ _ _ _ Hq) in H.
      injection H as <- <-; auto. }
  rewrite (modify_remote_phase_quoted _ _ _ _ _ _ _ Hq) in H.
  destruct (_ && is_none _); [injection H as <- <-; auto|].
  destruct (modification_unfunded _ _); [injection H as <- <-; auto|].
  destruct (remote_update env p u (b_payload b) w) as [[resp|e] w1] eqn:Hu;
    injection H as <- <-;
    apply remote_update_cases in Hu as (? & ? & _); auto.
Qed.

Lemma commit_modification_cases env target_panel local_db_user req b resp w res w' :
  commit_modification env target_panel local_db_user req b resp w = (res, w') ->
  (commit_fault env = None
   /\ (exists row, res = Ok row)
   /\ reseller w' = (if 0 <? b_cost b then debit (reseller w) (b_cost b) else reseller w)
   /\ transactions (db w')
      = (if 0 <? b_cost b
         then mkTx (reseller_id (reseller w)) (modification_transaction_type b)
                   (- b_cost b) (Some (mu_id local_db_user))
                   (b_pricing_plan_id_for_tx b) (b_reseller_pricing_id_for_tx b)
              :: transactions (db w)
         else transactions (db w))
   /\ remote_log w' = remote_log w)
  \/ (exists e,
        commit_fault env = Some e
        /\ res = Raise (MarzbanUserServiceError
                          (DatabaseErrorAfterModification
                             e (marzban_username local_db_user)
                             (panel_name target_panel)))
        /\ w' = w).
Proof.
  unfold commit_modification. intros H.
  destruct (commit_fault env) eqn:Ef; injection H as <- <-.
  - right. eauto.
  - left. cbn. repeat split; eauto. destruct (0 <? b_cost b); reflexivity.
Qed.

(** Every run of [modify_marzban_user_for_reseller] either leaves the wallet
    and the ledger as they were, or passed the wallet check with a positive
    cost and wrote one debit. *)
Lemma modify_wallet_cases env id req w res w' :
  modify_marzban_user_for_reseller env id req w = (res, w') ->
  (reseller w' = reseller w /\ transactions (db w') = transactions (db w))
  \/ (exists u p b tx,
         modification_quote env w id req = Ok (u, p, b)
         /\ 0 < b_cost b
         /\ (wallet_balance (reseller w) <? b_cost b)
            && negb (allow_negative_balance (reseller w)) = false
         /\ reseller w' = debit (reseller w) (b_cost b)
         /\ transactions (db w') = tx :: transactions (db w)
         /\ amount tx = - b_cost b
         /\ exists row, res = Ok row).
Proof.
  unfold modify_marzban_user_for_reseller, bind. intros H.
  destruct (modify_remote_phase env id req w) as [[x|e] w1] eqn:Hp.
  2:{ injection H as <- <-.
      apply modify_remote_phase_local in Hp as [-> ->]. auto. }
  pose proof (modify_remote_phase_local _ _ _ _ _ _ Hp) as [Hd Hr].
  destruct (modification_quote env w id req) as [[[u p] b]|e] eqn:Hq.
  2:{ rewrite (modify_raises_phase_quote _ _ _ _ _ Hq) in Hp. discriminate. }
  rewrite (modify_remote_phase_quoted _ _ _ _ _ _ _ Hq) in Hp.
  destruct (_ && is_none _); [discriminate|].
  destruct (modification_unfunded (reseller w) (b_cost b)) eqn:Hb; [discriminate|].
  destruct (remote_update env p u (b_payload b) w) as [[resp|e] w2] eqn:Hu;
    [|discriminate].
  injection Hp as <- <-.
  apply commit_modification_cases in H
    as [(_ & Hres & Hr' & Ht & _) | (e & _ & -> & ->)].
  - rewrite Hd, Hr in *. unfold modification_unfunded in Hb.
    destruct (0 <? b_cost b) eqn:Hc.
    + right. apply Z.ltb_lt in Hc. do 4 eexists. repeat split; eauto.
    + left. auto.
  - left. rewrite Hd, Hr. auto.
Qed.

(** ** The wallet *)

Lemma covered_when_checked r cost :
  allow_negative_balance r = false ->
  (wallet_balance r <? cost) && negb (allow_negative_balance r) = false ->
  0 <= wallet_balance r - cost.
Proof.
  intros -> H. cbn in H. rewrite andb_true_r in H. apply Z.ltb_ge in H. lia.
Qed.

Lemma untouched_or_covered_nonneg w w' :
  untouched_or_covered_debit w w' ->
  (0 <= wallet_balance (reseller w) -> 0 <= wallet_balance (reseller w'))
  /\ (wallet_balance (reseller w') <> wallet_balance (reseller w) ->
      0 <= wallet_balance (reseller w')).
Proof.
  intros [[-> _] | (c & tx & Hc & -> & _)]; split; intros; lia.
Qed.

(** C1.  For a reseller whose [allow_negative_balance] is false, a run of
    [create_marzban_user_for_reseller] or of
    [modify_marzban_user_for_reseller], whatever it returns or raises, leaves
    the flag false and either leaves the wallet and the ledger untouched or
    subtracts one cost that the balance covered ([0 <= balance - cost], the
    wallet check that precedes the debit) and writes the matching ledger
    entry.  So a balance that was not negative stays so, and a balance that
    changed is not negative. *)
Theorem wallet_balance_never_overdrawn :
  forall callee env w,
    allow_negative_balance (reseller w) = false ->
    (forall req res w',
        create_marzban_user_for_reseller callee env req w = (res, w') ->
        allow_negative_balance (reseller w') = false
        /\ untouched_or_covered_debit w w'
        /\ (0 <= wallet_balance (reseller w) -> 0 <= wallet_balance (reseller w'))
        /\ (wallet_balance (reseller w') <> wallet_balance (reseller w) ->
            0 <= wallet_balance (reseller w')))
    /\ (forall id req res w',
           modify_marzban_user_for_reseller env id req w = (res, w') ->
           allow_negative_balance (reseller w') = false
           /\ untouched_or_covered_debit w w'
           /\ (0 <= wallet_balance (reseller w) -> 0 <= wallet_balance (reseller w'))
           /\ (wallet_balance (reseller w') <> wallet_balance (reseller w) ->
               0 <= wallet_balance (reseller w'))).
Proof.
  intros callee env w Hflag. split.
  - intros req res w' H.
    assert (Hu : allow_negative_balance (reseller w') = false
                 /\ untouched_or_covered_debit w w').
    { apply create_wallet_cases in H
        as [(Hr & Ht & _) | (p & rp & c & pl & tx & _ & Hb & Hr & Ht & Ha & _)].
      - unfold untouched_or_covered_debit. rewrite Hr.
        split; [assumption|]. left; auto.
      - unfold untouched_or_covered_debit. rewrite Hr. cbn.
        split; [assumption|]. right. exists c, tx.
        repeat split; auto. now apply covered_when_checked. }
    destruct Hu as [Hf Hu]. split; [assumption|]. split; [assumption|].
    now apply untouched_or_covered_nonneg.
  - intros id req res w' H.
    assert (Hu : allow_negative_balance (reseller w') = false
                 /\ untouched_or_covered_debit w w').
    { apply modify_wallet_cases in H
        as [[Hr Ht] | (u & p & b & tx & _ & _ & Hb & Hr & Ht & Ha & _)].
      - unfold untouched_or_covered_debit. rewrite Hr.
        split; [assumption|]. left; auto.
      - unfold untouched_or_covered_debit. rewrite Hr. cbn.
        split; [assumption|]. right. exists (b_cost b), tx.
        repeat split; auto. now apply covered_when_checked. }
    destruct Hu as [Hf Hu]. split; [assumption|]. split; [assumption|].
    now apply untouched_or_covered_nonneg.
Qed.

Lemma wallet_balance_never_overdrawn_witness :
  allow_negative_balance
    (reseller (snd (modify_marzban_user_for_reseller
                      (sample_env None []) 5 extend30 renewal_world))) = false
  /\ untouched_or_covered_debit renewal_world
       (snd (modify_marzban_user_for_reseller
               (sample_env None []) 5 extend30 renewal_world))
  /\ (0 <= wallet_balance (reseller renewal_world) ->
      0 <= wallet_balance
             (reseller (snd (modify_marzban_user_for_reseller
                               (sample_env None []) 5 extend30 renewal_world))))
  /\ (wallet_balance
        (reseller (snd (modify_marzban_user_for_reseller
                          (sample_env None []) 5 extend30 renewal_world)))
      <> wallet_balance (reseller renewal_world) ->
      0 <= wallet_balance
             (reseller (snd (modify_marzban_user_for_reseller
                               (sample_env None []) 5 extend30 renewal_world)))).
Proof.
  exact (proj2 (wallet_balance_never_overdrawn
                  panel_creates (sample_env None []) renewal_world eq_refl)
               5 extend30 _ _ (surjective_pairing _)).
Defined.

(** The renewal scenario of the spec: the balance goes from 100.00 to 80.00
    and the ledger gains one entry of -20.00 linked to the plan. *)
Example renewal_scenario :
  let w' := snd (modify_marzban_user_for_reseller
                   (sample_env None []) 5 extend30 renewal_world) in
  wallet_balance (reseller w') = 8000
  /\ transactions (db w')
     = [mkTx 1 "user_renewal_cost" (-2000) (Some 5) (Some 7) (Some 2)].
Proof. vm_compute. split; reflexivity. Qed.

(** ** The funds check *)

Lemma unfunded_iff r cost :
  (wallet_balance r <? cost) && negb (allow_negative_balance r) = true
  <-> wallet_balance r < cost /\ allow_negative_balance r = false.
Proof.
  rewrite andb_true_iff, Z.ltb_lt, negb_true_iff. tauto.
Qed.

Section CreateFunds.
Variable callee : CreateKwargs -> call_result (option ApiUser).

Lemma create_insufficient env req w target_panel active_pricing cost plan :
  creation_quote w req = Ok (target_panel, active_pricing, cost, plan) ->
  wallet_balance (reseller w) < cost ->
  allow_negative_balance (reseller w) = false ->
  create_marzban_user_for_reseller callee env req w
  = (Raise (MarzbanUserServiceError
              (InsufficientBalance cost (wallet_balance (reseller w)))), w).
Proof.
  intros Hq Hlt Hflag. unfold create_marzban_user_for_reseller.
  erewrite bind_raise; [reflexivity|].
  apply create_remote_phase_insufficient with (1 := Hq).
  apply unfunded_iff; auto.
Qed.

Lemma create_insufficient_inv env req w res w' a b :
  create_marzban_user_for_reseller callee env req w = (res, w') ->
  res = Raise (MarzbanUserServiceError (InsufficientBalance a b)) ->
  exists target_panel active_pricing plan,
    creation_quote w req = Ok (target_panel, active_pricing, a, plan)
    /\ wallet_balance (reseller w) < a
    /\ allow_negative_balance (reseller w) = false
    /\ b = wallet_balance (reseller w)
    /\ w' = w.
Proof.
  intros H ->.
  destruct (creation_quote w req) as [[[[p rp] c] pl]|e] eqn:Hq.
  2:{ rewrite (create_raises_quote callee env req w e Hq) in H.
      injection H as He Hw. subst e w'.
      exfalso. eapply creation_quote_errors; eauto. }
  destruct ((wallet_balance (reseller w) <? c)
            && negb (allow_negative_balance (reseller w))) eqn:Hb.
  - apply unfunded_iff in Hb as [Hlt Hflag].
    rewrite (create_insufficient env req w _ _ _ _ Hq Hlt Hflag) in H.
    injection H as Ha Hb' Hw. subst a b w'. eauto 10.
  - exfalso. unfold create_marzban_user_for_reseller, bind in H.
    destruct (create_remote_phase callee env req w) as [[x|e] w1] eqn:Hp.
    + destruct (create_remote_phase_funded callee env req w _ _ _ _ _ _ Hq Hb Hp)
        as [_ Hx].
      destruct (Hx x eq_refl) as (response & username & ->).
      apply commit_creation_cases in H
        as [(_ & _ & H & _) | (e & _ & H & _)]; discriminate H.
    + injection H as He _. subst e.
      destruct (create_remote_phase_funded callee env req w _ _ _ _ _ _ Hq Hb Hp)
        as [Hne _].
      eapply Hne; reflexivity.
Qed.

End CreateFunds.

Lemma modify_insufficient env id req w u p b :
  modification_quote env w id req = Ok (u, p, b) ->
  payload_is_empty (b_payload b) && is_none (ur_note req) = false ->
  0 < b_cost b ->
  wallet_balance (reseller w) < b_cost b ->
  allow_negative_balance (reseller w) = false ->
  modify_marzban_user_for_reseller env id req w
  = (Raise (MarzbanUserServiceError
              (InsufficientBalanceForModification
                 (b_cost b) (wallet_balance (reseller w)))), w).
Proof.
  intros Hq Hn Hpos Hlt Hflag. unfold modify_marzban_user_for_reseller.
  erewrite bind_raise; [reflexivity|].
  rewrite (modify_remote_phase_quoted _ _ _ _ _ _ _ Hq), Hn.
  unfold modification_unfunded.
  replace (0 <? b_cost b) with true by (symmetry; now apply Z.ltb_lt).
  replace (wallet_balance (reseller w) <? b_cost b) with true
    by (symmetry; now apply Z.ltb_lt).
  rewrite Hflag. reflexivity.
Qed.

Lemma modify_insufficient_inv env id req w res w' x y :
  modify_marzban_user_for_reseller env id req w = (res, w') ->
  res = Raise (MarzbanUserServiceError (InsufficientBalanceForModification x y)) ->
  exists u p b,
    modification_quote env w id req = Ok (u, p, b)
    /\ x = b_cost b
    /\ 0 < b_cost b
    /\ wallet_balance (reseller w) < b_cost b
    /\ allow_negative_balance (reseller w) = false
    /\ y = wallet_balance (reseller w)
    /\ w' = w.
Proof.
  intros H ->. unfold modify_marzban_user_for_reseller, bind in H.
  destruct (modification_quote env w id req) as [[[u p] b]|e] eqn:Hq.
  2:{ rewrite (modify_raises_phase_quote _ _ _ _ _ Hq) in H.
      injection H as He Hw. subst e w'.
      exfalso. eapply modification_quote_errors; eauto.
      red; eauto. }
  rewrite (modify_remote_phase_quoted _ _ _ _ _ _ _ Hq) in H.
  destruct (_ && is_none _); [discriminate|].
  destruct (modification_unfunded (reseller w) (b_cost b)) eqn:Hb.
  - injection H as Hx Hy Hw. subst x y w'. unfold modification_unfunded in Hb.
    apply andb_true_iff in Hb as [Hpos Hb].
    apply unfunded_iff in Hb as [Hlt Hflag]. apply Z.ltb_lt in Hpos.
    exists u, p, b. repeat split; auto.
  - exfalso.
    destruct (remote_update env p u (b_payload b) w) as [[resp|e] w2] eqn:Hu.
    + apply commit_modification_cases in H
        as [(_ & [row H] & _) | (e & _ & H & _)]; discriminate H.
    + injection H as He _. subst e.
      apply remote_update_cases in Hu as (_ & _ & Hne & _).
      eapply Hne; [reflexivity|]. red; eauto.
Qed.

Lemma billed_cost_needs_payload env d u rp req b :
  billing env d u rp req = Ok b -> b_cost b <> 0 ->
  payload_is_empty (b_payload b) = false.
Proof.
  unfold billing, data_limit_step, expire_step, config_step, no_billing.
  intros H Hc.
  repeat (destruct_match_in H; try discriminate H);
    injection H as <-; cbn in *; try reflexivity;
    try (destruct (ur_proxies req), (ur_inbounds req); reflexivity);
    lia.
Qed.

Lemma quoted_cost_needs_payload env w id req u p b :
  modification_quote env w id req = Ok (u, p, b) -> 0 < b_cost b ->
  payload_is_empty (b_payload b) && is_none (ur_note req) = false.
Proof.
  unfold modification_quote. intros H Hc.
  destruct (get_marzban_user_for_reseller _ _ _); [|discriminate].
  destruct (get_panel _ _); [|discriminate].
  destruct (billing _ _ _ _ _) eqn:E; [|discriminate].
  injection H as _ _ <-.
  rewrite (billed_cost_needs_payload _ _ _ _ _ _ E) by lia. reflexivity.
Qed.

(** C2, as the code has it.  [create_marzban_user_for_reseller] raises the
    insufficient-balance error exactly when the quoted cost exceeds the wallet
    balance and [allow_negative_balance] is false;
    [modify_marzban_user_for_reseller] raises it exactly when, in addition,
    the quoted cost is positive.  The error carries the cost and the
    balance, and the world it leaves is the world it found: no remote call
    logged, no ledger entry, the same wallet. *)
Theorem insufficient_funds_exactly_when_unfunded :
  forall callee env w,
    (forall req res w',
        create_marzban_user_for_reseller callee env req w = (res, w') ->
        (forall a b,
            res = Raise (MarzbanUserServiceError (InsufficientBalance a b)) ->
            exists target_panel active_pricing plan,
              creation_quote w req = Ok (target_panel, active_pricing, a, plan)
              /\ wallet_balance (reseller w) < a
              /\ allow_negative_balance (reseller w) = false
              /\ b = wallet_balance (reseller w)
              /\ w' = w)
        /\ (forall target_panel active_pricing cost plan,
               creation_quote w req = Ok (target_panel, active_pricing, cost, plan) ->
               wallet_balance (reseller w) < cost ->
               allow_negative_balance (reseller w) = false ->
               res = Raise (MarzbanUserServiceError
                              (InsufficientBalance cost (wallet_balance (reseller w))))
               /\ w' = w))
    /\ (forall id req res w',
           modify_marzban_user_for_reseller env id req w = (res, w') ->
           (forall a b,
               res = Raise (MarzbanUserServiceError
                              (InsufficientBalanceForModification a b)) ->
               exists u p bill,
                 modification_quote env w id req = Ok (u, p, bill)
                 /\ a = b_cost bill
                 /\ 0 < b_cost bill
                 /\ wallet_balance (reseller w) < b_cost bill
                 /\ allow_negative_balance (reseller w) = false
                 /\ b = wallet_balance (reseller w)
                 /\ w' = w)
           /\ (forall u p bill,
                  modification_quote env w id req = Ok (u, p, bill) ->
                  0 < b_cost bill ->
                  wallet_balance (reseller w) < b_cost bill ->
                  allow_negative_balance (reseller w) = false ->
                  res = Raise (MarzbanUserServiceError
                                 (InsufficientBalanceForModification
                                    (b_cost bill) (wallet_balance (reseller w))))
                  /\ w' = w)).
Proof.
  intros callee env w. split.
  - intros req res w' H. split.
    + intros a b Hres. eapply create_insufficient_inv; eauto.
    + intros p rp c pl Hq Hlt Hflag.
      rewrite (create_insufficient callee env req w _ _ _ _ Hq Hlt Hflag) in H.
      injection H as <- <-. auto.
  - intros id req res w' H. split.
    + intros a b Hres. eapply modify_insufficient_inv; eauto.
    + intros u p bill Hq Hpos Hlt Hflag.
      pose proof (quoted_cost_needs_payload _ _ _ _ _ _ _ Hq Hpos) as Hn.
      rewrite (modify_insufficient env id req w _ _ _ Hq Hn Hpos Hlt Hflag) in H.
      injection H as <- <-. auto.
Qed.

(** The insufficient-funds scenario of the spec: balance 10.00, 5.00 per GB,
    3 GB requested. *)
Lemma insufficient_funds_exactly_when_unfunded_witness :
  fst (create_marzban_user_for_reseller panel_creates (sample_env None [])
         three_gb short_world)
  = Raise (MarzbanUserServiceError (InsufficientBalance 1500 1000))
  /\ snd (create_marzban_user_for_reseller panel_creates (sample_env None [])
            three_gb short_world)
     = short_world.
Proof.
  exact (proj2 (proj1 (insufficient_funds_exactly_when_unfunded
                         panel_creates (sample_env None []) short_world)
                      three_gb _ _ (surjective_pairing _))
               panel1 unit_pricing 1500 None eq_refl eq_refl eq_refl).
Defined.

(** C2 as stated fails for a modification without a cost: the quoted cost
    (0.00) exceeds the balance (-5.00) and the flag is off, yet the
    modification goes through. *)
Lemma zero_cost_modification_skips_funds_check :
  exists u p bill row w',
    modification_quote (sample_env None []) overdrawn_world 5 note_only
    = Ok (u, p, bill)
    /\ wallet_balance (reseller overdrawn_world) < b_cost bill
    /\ allow_negative_balance (reseller overdrawn_world) = false
    /\ modify_marzban_user_for_reseller (sample_env None []) 5 note_only
         overdrawn_world
       = (Ok row, w').
Proof.
  do 5 eexists. split; [reflexivity|]. split; [reflexivity|].
  split; reflexivity.
Qed.

Example insufficient_funds_message :
  message (InsufficientBalance 1500 1000)
  = "Insufficient wallet balance. Required: 15.00, Available: 10.00.".
Proof. reflexivity. Qed.

(** ** Plan-based pricing *)

Lemma modify_raises_quote env id req w e :
  modification_quote env w id req = Raise e ->
  modify_marzban_user_for_reseller env id req w = (Raise e, w).
Proof.
  intros H. unfold modify_marzban_user_for_reseller.
  erewrite bind_raise; [reflexivity|]. now apply modify_raises_phase_quote.
Qed.

(** C3, as the code has it.  Under plan-based pricing, (1) the expiry branch
    of [modify_marzban_user_for_reseller] adds [plan.price] to the cost when
    [expire_days_to_add] equals [plan.duration_days], and (2) for any other
    positive day count raises the mismatch error, which names the requested
    and the plan's duration, so that (3) the whole modification raises it and
    leaves the world untouched; (4) [create_marzban_user_for_reseller] quotes
    [plan.price] whatever [expire_days] the request carries. *)
Theorem plan_price_and_duration_match :
  forall (d : Db) (rp : ResellerPricing) (pid : Z) (plan : PricingPlan),
    pricing_plan_id rp = Some pid ->
    pricing_plan d rp = Some plan ->
    (forall env u req b days ts,
        ur_expire_days_to_add req = Some days -> 0 < days ->
        days = duration_days plan ->
        new_expire env u days = Ok ts ->
        exists b',
          expire_step env d u (Some rp) req b = Ok b'
          /\ b_cost b' = b_cost b + price plan
          /\ p_expire (b_payload b') = Some ts
          /\ b_pricing_plan_id_for_tx b' = Some pid)
    /\ (forall env u req b days,
           ur_expire_days_to_add req = Some days -> 0 < days ->
           days <> duration_days plan ->
           expire_step env d u (Some rp) req b
           = Raise (MarzbanUserServiceError
                      (PlanDurationMismatch days (duration_days plan))))
    /\ (forall env w id req u p b1 days,
           db w = d ->
           get_marzban_user_for_reseller d id (reseller_id (reseller w)) = Some u ->
           get_panel d (marzban_panel_id u) = Some p ->
           get_active_pricing_for_reseller d (reseller_id (reseller w))
             (Some (panel_id p)) = Some rp ->
           data_limit_step (Some rp) req no_billing = Ok b1 ->
           ur_expire_days_to_add req = Some days -> 0 < days ->
           days <> duration_days plan ->
           modify_marzban_user_for_reseller env id req w
           = (Raise (MarzbanUserServiceError
                       (PlanDurationMismatch days (duration_days plan))), w))
    /\ (forall req,
           custom_price_per_gb rp = None ->
           creation_cost d rp req = Ok (price plan, Some pid)).
Proof.
  intros d rp pid plan Hid Hplan. repeat split.
  - intros env u req b days ts Hreq Hpos Heq Hts.
    unfold expire_step. rewrite Hreq, Hid, Hplan.
    replace (days <=? 0) with false by (symmetry; apply Z.leb_gt; lia).
    replace (duration_days plan =? days) with true
      by (symmetry; apply Z.eqb_eq; lia).
    rewrite Hts. eexists. split; [reflexivity|]. cbn. auto.
  - intros env u req b days Hreq Hpos Hne.
    unfold expire_step. rewrite Hreq, Hid, Hplan.
    replace (days <=? 0) with false by (symmetry; apply Z.leb_gt; lia).
    replace (duration_days plan =? days) with false
      by (symmetry; apply Z.eqb_neq; lia).
    reflexivity.
  - intros env w id req u p b1 days <- Hu Hp Hrp Hdata Hreq Hpos Hne.
    apply modify_raises_quote.
    unfold modification_quote, billing. rewrite Hu, Hp, Hrp, Hdata.
    unfold expire_step. rewrite Hreq, Hid, Hplan.
    replace (days <=? 0) with false by (symmetry; apply Z.leb_gt; lia).
    replace (duration_days plan =? days) with false
      by (symmetry; apply Z.eqb_neq; lia).
    reflexivity.
  - intros req Hnone. unfold creation_cost. rewrite Hnone, Hid, Hplan.
    reflexivity.
Qed.

Lemma plan_price_and_duration_match_witness :
  modify_marzban_user_for_reseller (sample_env None []) 5 extend7 renewal_world
  = (Raise (MarzbanUserServiceError (PlanDurationMismatch 7 30)), renewal_world)
  /\ creation_cost (db plan_world) plan_pricing week_request = Ok (2000, Some 7).
Proof.
  pose proof (plan_price_and_duration_match
                (db renewal_world) plan_pricing 7 plan30 eq_refl eq_refl)
    as (_ & _ & Hmodify & Hcreate).
  split.
  - exact (Hmodify (sample_env None []) renewal_world 5 extend7
                   (alice (Some 1699913600)) panel1 no_billing 7
                   eq_refl eq_refl eq_refl eq_refl eq_refl eq_refl eq_refl
                   ltac:(discriminate)).
  - exact (Hcreate week_request eq_refl).
Defined.

(** C3 as stated fails for provisioning: on a 30-day plan a request for
    7 days is quoted the plan's price and is not rejected for its duration.
    With a panel that accepts the user the reseller is charged 20.00; as the
    module is written the run ends in the [TypeError] of the call at
    line 492, after the wallet check passed. *)
Lemma creation_ignores_plan_duration :
  duration_days plan30 <> 7
  /\ creation_quote plan_world week_request = Ok (panel1, plan_pricing, 2000, Some 7)
  /\ (exists row w',
         create_marzban_user_for_reseller panel_creates (sample_env None [])
           week_request plan_world = (Ok row, w')
         /\ wallet_balance (reseller w') = 8000)
  /\ fst (create_marzban_user_for_reseller_as_written (sample_env None [])
            week_request plan_world)
     = Raise (PyError "TypeError"
                "create_marzban_user() got an unexpected keyword argument 'panel_url'").
Proof.
  split; [discriminate|]. split; [reflexivity|]. split.
  - do 2 eexists. split; reflexivity.
  - reflexivity.
Qed.

Example mismatch_message :
  message (PlanDurationMismatch 7 30)
  = "Cannot extend expiry: Requested duration 7 days does not match assigned plan duration 30 days.".
Proof. reflexivity. Qed.

(** ** Unit-rate pricing *)

Lemma creation_quote_inv w req p rp c pl :
  creation_quote w req = Ok (p, rp, c, pl) ->
  get_panel (db w) (cr_marzban_panel_id req) = Some p
  /\ get_active_pricing_for_reseller (db w) (reseller_id (reseller w))
       (Some (cr_marzban_panel_id req)) = Some rp
  /\ creation_cost (db w) rp req = Ok (c, pl).
Proof.
  unfold creation_quote. intros H.
  destruct (negb _); [discriminate|].
  destruct (get_panel (db w) (cr_marzban_panel_id req)) as [p0|] eqn:Ep;
    [|discriminate].
  rewrite (get_panel_id _ _ _ Ep) in H.
  destruct (get_active_pricing_for_reseller (db w) (reseller_id (reseller w))
              (Some (cr_marzban_panel_id req))) as [rp0|]; [|discriminate].
  destruct (creation_cost (db w) rp0 req) as [[c0 pl0]|] eqn:Ec; [|discriminate].
  injection H as <- <- <- <-. auto.
Qed.

Lemma modification_quote_inv env w id req u p b :
  modification_quote env w id req = Ok (u, p, b) ->
  get_marzban_user_for_reseller (db w) id (reseller_id (reseller w)) = Some u
  /\ get_panel (db w) (marzban_panel_id u) = Some p
  /\ billing env (db w) u
       (get_active_pricing_for_reseller (db w) (reseller_id (reseller w))
          (Some (panel_id p))) req = Ok b.
Proof.
  unfold modification_quote. intros H.
  destruct (get_marzban_user_for_reseller (db w) id (reseller_id (reseller w)))
    as [u0|]; [|discriminate].
  destruct (get_panel (db w) (marzban_panel_id u0)) as [p0|] eqn:Ep;
    [|discriminate].
  destruct (billing env (db w) u0 _ req) as [b0|] eqn:E; [|discriminate].
  injection H as <- <- <-. auto.
Qed.





Example rounding_example_charged :
  wallet_balance
    (reseller (snd (create_marzban_user_for_reseller panel_creates
                      (sample_env None []) gb_2333 funded_world)))
  = 10000 - 117.
Proof. reflexivity. Qed.
(** ** Expiry extension *)

Lemma new_expire_reads_max env u days now ts :
  utcnow env 239 = now -> utcnow env 242 = now -> 0 <= now ->
  new_expire env u days = Ok ts ->
  timestamp env (extended_expiry now u days) = Ok ts.
Proof.
  intros H239 H242 Hnow.
  unfold new_expire, extended_expiry, last_known_expire, stored_expire.
  rewrite H239, H242.
  assert (Hadd : forall base,
             match add_days base days with
             | Some new_expire_dt => timestamp env new_expire_dt
             | None => Raise (PyError "OverflowError" "date value out of range")
             end = Ok ts ->
             timestamp env (base + days * 86400 * 1000000) = Ok ts).
  { intros base. unfold add_days.
    destruct (Z.abs days <=? 999999999); [|discriminate].
    destruct (in_datetime_range _); [|discriminate]. trivial. }
  destruct (match api_response_data u with
            | Some data => au_expire data
            | None => None
            end) as [e|].
  - destruct (0 <? e) eqn:Epos.
    + unfold utcfromtimestamp.
      destruct (in_datetime_range (e * 1000000)); [|discriminate].
      destruct (now <? e * 1000000) eqn:Ecmp;
        [apply Z.ltb_lt in Ecmp | apply Z.ltb_ge in Ecmp];
        intros H; apply Hadd in H.
      * now rewrite Z.max_r by lia.
      * now rewrite Z.max_l by lia.
    + apply Z.ltb_ge in Epos. intros H. apply Hadd in H.
      now rewrite Z.max_l by lia.
  - intros H. apply Hadd in H. now rewrite Z.max_l by lia.
Qed.

Lemma stale_extended_expiry now u days :
  0 <= now -> stale u now ->
  extended_expiry now u days = now + days * 86400 * 1000000.
Proof.
  unfold stale, extended_expiry, last_known_expire. intros Hnow.
  destruct (stored_expire u) as [e|]; [|intros _; now rewrite Z.max_l by lia].
  intros [He | He]; now rewrite Z.max_l by lia.
Qed.

Lemma expire_step_inv env d u rp req b b' days :
  ur_expire_days_to_add req = Some days ->
  expire_step env d u rp req b = Ok b' ->
  0 < days
  /\ exists ts, new_expire env u days = Ok ts
                /\ p_expire (b_payload b') = Some ts.
Proof.
  unfold expire_step. intros -> H.
  destruct (days <=? 0) eqn:E; [discriminate|]. apply Z.leb_gt in E.
  repeat (destruct_match_in H; try discriminate H).
  injection H as <-. cbn. eauto.
Qed.

Lemma billing_expire env d u rp req b days :
  ur_expire_days_to_add req = Some days ->
  billing env d u rp req = Ok b ->
  0 < days
  /\ exists ts, new_expire env u days = Ok ts
                /\ p_expire (b_payload b) = Some ts.
Proof.
  unfold billing. intros Hreq H.
  destruct (data_limit_step rp req no_billing) as [b1|]; [|discriminate].
  destruct (expire_step env d u rp req b1) as [b2|] eqn:E; [|discriminate].
  injection H as <-.
  destruct (expire_step_inv _ _ _ _ _ _ _ _ Hreq E) as (Hpos & ts & Hts & Hp).
  split; [assumption|]. exists ts. split; [assumption|]. exact Hp.
Qed.

Lemma remote_update_sends_the_payload env p u payload w resp w' :
  payload_is_empty payload = false ->
  remote_update env p u payload w = (Ok resp, w') ->
  exists password token,
    remote_log w'
    = UpdateUserCall (api_url p) token (marzban_username u) payload
      :: TokenCall (api_url p) (admin_username p) password
      :: remote_log w.
Proof.
  unfold remote_update, uncaught, translated. intros -> H.
  run_in H; injection H as <- <-; cbn; eauto.
Qed.

Lemma payload_with_expire_is_not_empty payload ts :
  p_expire payload = Some ts -> payload_is_empty payload = false.
Proof.
  unfold payload_is_empty. intros ->. destruct (p_data_limit payload); reflexivity.
Qed.

Lemma successful_extension_sends_its_expiry env id req w row w' days :
  ur_expire_days_to_add req = Some days ->
  modify_marzban_user_for_reseller env id req w = (Ok row, w') ->
  exists u p payload password token ts,
    get_marzban_user_for_reseller (db w) id (reseller_id (reseller w)) = Some u
    /\ get_panel (db w) (marzban_panel_id u) = Some p
    /\ 0 < days
    /\ new_expire env u days = Ok ts
    /\ p_expire payload = Some ts
    /\ remote_log w'
       = UpdateUserCall (api_url p) token (marzban_username u) payload
         :: TokenCall (api_url p) (admin_username p) password
         :: remote_log w.
Proof.
  intros Hreq H.
  destruct (modification_quote env w id req) as [[[u p] b]|e] eqn:Hq.
  2:{ rewrite (modify_raises_quote _ _ _ _ _ Hq) in H. discriminate H. }
  pose proof Hq as Hq'.
  unfold modify_marzban_user_for_reseller, bind in H.
  rewrite (modify_remote_phase_quoted _ _ _ _ _ _ _ Hq) in H.
  apply modification_quote_inv in Hq' as (Hu & Hp & Hb).
  destruct (billing_expire _ _ _ _ _ _ _ Hreq Hb) as (Hpos & ts & Hts & Hpe).
  pose proof (payload_with_expire_is_not_empty _ _ Hpe) as Hne.
  rewrite Hne in H. cbn [andb] in H.
  destruct (modification_unfunded _ _); [discriminate H|].
  destruct (remote_update env p u (b_payload b) w) as [[resp|e] w1] eqn:Hr;
    [|discriminate H].
  destruct (remote_update_sends_the_payload _ _ _ _ _ _ _ Hne Hr)
    as (password & token & Hlog).
  apply commit_modification_cases in H
    as [(_ & _ & _ & _ & Hlog') | (e & _ & He & _)]; [|discriminate He].
  exists u, p, (b_payload b), password, token, ts.
  repeat split; try assumption. congruence.
Qed.

(** X30.  Whatever the zone of the host, a successful extension by [days]
    has sent the panel one PATCH, after one token request, for the mirror
    row's username, and the [expire] of its payload is the host's
    [int(timestamp())] of the naive datetime [max(now, stored expiry) +
    days], [now] being what both clock readings of lines 239 and 242
    answer; when the stored expiry is absent, zero or not after [now], that
    datetime is [now + days]. *)
Theorem extension_sends_the_host_reading_of_max_plus_days :
  forall env now days id req w row w',
    utcnow env 239 = now -> utcnow env 242 = now -> 0 <= now ->
    ur_expire_days_to_add req = Some days ->
    modify_marzban_user_for_reseller env id req w = (Ok row, w') ->
    exists u p payload password token ts,
      get_marzban_user_for_reseller (db w) id (reseller_id (reseller w)) = Some u
      /\ get_panel (db w) (marzban_panel_id u) = Some p
      /\ remote_log w'
         = UpdateUserCall (api_url p) token (marzban_username u) payload
           :: TokenCall (api_url p) (admin_username p) password
           :: remote_log w
      /\ p_expire payload = Some ts
      /\ timestamp env (extended_expiry now u days) = Ok ts
      /\ (stale u now -> timestamp env (now + days * 86400 * 1000000) = Ok ts).
Proof.
  intros env now days id req w row w' H239 H242 Hnow Hreq H.
  destruct (successful_extension_sends_its_expiry _ _ _ _ _ _ _ Hreq H)
    as (u & p & payload & password & token & ts
        & Hu & Hp & _ & Hts & Hpe & Hlog).
  exists u, p, payload, password, token, ts.
  pose proof (new_expire_reads_max _ _ _ _ _ H239 H242 Hnow Hts) as Hmax.
  repeat split; try assumption.
  intros Hstale. now rewrite <- (stale_extended_expiry now u days Hnow Hstale).
Qed.

Lemma extension_sends_the_host_reading_of_max_plus_days_witness :
  exists payload password token,
    remote_log (snd (modify_marzban_user_for_reseller
                       (sample_env None []) 5 extend30 renewal_world))
    = [UpdateUserCall "https://panel.example/" token "alice" payload;
       TokenCall "https://panel.example/" "root" password]
    /\ p_expire payload = Some 1702592000.
Proof.
  destruct (extension_sends_the_host_reading_of_max_plus_days
              (sample_env None []) sample_now 30 5 extend30 renewal_world _ _
              eq_refl eq_refl ltac:(discriminate) eq_refl (surjective_pairing _))
    as (u & p & payload & password & token & ts
        & Hu & Hp & Hlog & Hpe & Hts & _).
  injection Hu as <-. injection Hp as <-.
  exists payload, password, token. split; [exact Hlog|].
  assert (E : timestamp (sample_env None [])
                (extended_expiry sample_now (alice (Some 1699913600)) 30)
              = Ok 1702592000) by (vm_compute; reflexivity).
  rewrite E in Hts. injection Hts as <-. exact Hpe.
Defined.

(** On a host whose zone is UTC the spec's example comes out as the spec
    has it: the stored expiry is a day old, 30 days are asked for, and the
    payload carries now + 30 days. *)
Example renewal_scenario_payload :
  remote_log (snd (modify_marzban_user_for_reseller
                     (sample_env None []) 5 extend30 renewal_world))
  = [UpdateUserCall "https://panel.example/" "token" "alice"
       (mkPayload None (Some 1702592000) None None);
     TokenCall "https://panel.example/" "root" "secret"].
Proof. vm_compute. reflexivity. Qed.

(** C6.  The expiry sent to the panel is not [max(now, last-known expiry) +
    days] on a host whose zone is not UTC.  Lines 239 to 245 compute that
    instant as a naive datetime holding UTC ([utcnow], [utcfromtimestamp]),
    and line 246 converts it with [timestamp()], which reads a naive
    datetime as a local time of the host.  On a host in Asia/Tehran the
    spec's example (the clock reads 2023-11-14T22:13:20.25 UTC, the stored
    expiry is a day old, 30 days are asked for) succeeds and sends the
    PATCH with [expire = 1702579400], while now + 30 days is the second
    1702592000: the user expires three and a half hours early. *)
Theorem extension_expiry_is_read_in_the_host_zone :
  let run := modify_marzban_user_for_reseller tehran_env 5 extend30 renewal_world in
  (exists row, fst run = Ok row)
  /\ remote_log (snd run)
     = [UpdateUserCall "https://panel.example/" "token" "alice"
          (mkPayload None (Some 1702579400) None None);
        TokenCall "https://panel.example/" "root" "secret"]
  /\ utcnow tehran_env 239 = sample_now
  /\ utcnow tehran_env 242 = sample_now
  /\ stale (alice (Some 1699913600)) sample_now
  /\ extended_expiry sample_now (alice (Some 1699913600)) 30
     = 1702592000 * 1000000 + 250000
  /\ 1702579400 = 1702592000 - 12600.
Proof.
  cbv zeta. repeat apply conj.
  - eexists. vm_compute. reflexivity.
  - vm_compute. reflexivity.
  - reflexivity.
  - reflexivity.
  - right. discriminate.
  - reflexivity.
  - reflexivity.
Qed.
(** ** The host's clock *)

Lemma div_half_even_near n d :
  0 < d -> 2 * Z.abs (div_half_even n d * d - n) <= d.
Proof.
  intros Hd. unfold div_half_even.
  pose proof (Z.div_mod n d ltac:(lia)) as Hdm.
  pose proof (Z.mod_pos_bound n d Hd) as Hr.
  destruct (2 * (n mod d) <? d) eqn:E1; [apply Z.ltb_lt in E1; nia|].
  apply Z.ltb_ge in E1.
  destruct (d <? 2 * (n mod d)) eqn:E2; [apply Z.ltb_lt in E2; nia|].
  apply Z.ltb_ge in E2.
  destruct (Z.even (n / d)); nia.
Qed.

Lemma scaled_bounds a d :
  0 < a -> 0 < d ->
  let e0 := Z.log2 a - Z.log2 d - 53 in
  let '(n0, d0) := scaled a d e0 in
  0 < d0 /\ 2 ^ 52 * d0 <= n0 < 2 ^ 54 * d0.
Proof.
  intros Ha Hd e0.
  pose proof (Z.log2_spec a Ha) as [Ha1 Ha2].
  pose proof (Z.log2_spec d Hd) as [Hd1 Hd2].
  pose proof (Z.log2_nonneg a) as Hla.
  pose proof (Z.log2_nonneg d) as Hld.
  unfold scaled. destruct (0 <=? e0) eqn:E.
  - apply Z.leb_le in E.
    assert (Hp : 0 < 2 ^ e0) by (apply Z.pow_pos_nonneg; lia).
    assert (Hla' : Z.log2 a = Z.log2 d + e0 + 53) by lia.
    rewrite Hla' in Ha1, Ha2.
    replace (Z.succ (Z.log2 d + e0 + 53)) with (Z.log2 d + e0 + 54) in Ha2 by lia.
    rewrite !Z.pow_add_r in Ha1, Ha2 by lia.
    rewrite Z.pow_succ_r in Hd2 by lia.
    split; [nia|]. split; nia.
  - apply Z.leb_gt in E.
    assert (Hp : 0 < 2 ^ (- e0)) by (apply Z.pow_pos_nonneg; lia).
    assert (Hld' : Z.log2 a + - e0 = Z.log2 d + 53) by lia.
    assert (H1 : 2 ^ Z.log2 a * 2 ^ (- e0) = 2 ^ Z.log2 d * 2 ^ 53)
      by (rewrite <- !Z.pow_add_r by lia; now rewrite Hld').
    rewrite !Z.pow_succ_r in * by lia.
    split; [lia|]. split; nia.
Qed.

Lemma scaled_next a d e n0 d0 :
  0 < d -> scaled a d e = (n0, d0) ->
  exists n1 d1, scaled a d (e + 1) = (n1, d1) /\ 0 < d1 * d0 /\ n0 * d1 = 2 * n1 * d0.
Proof.
  intros Hd. unfold scaled.
  destruct (0 <=? e) eqn:E; intros [= <- <-].
  - apply Z.leb_le in E.
    replace (0 <=? e + 1) with true by (symmetry; apply Z.leb_le; lia).
    assert (Hp : 0 < 2 ^ e) by (apply Z.pow_pos_nonneg; lia).
    eexists _, _. split; [reflexivity|].
    rewrite Z.pow_add_r by lia. change (2 ^ 1) with 2.
    set (p := 2 ^ e) in *. split; [|ring].
    assert (0 < d * p) by nia. nia.
  - apply Z.leb_gt in E.
    destruct (0 <=? e + 1) eqn:E'.
    + apply Z.leb_le in E'. assert (e = -1) by lia. subst e.
      eexists _, _. split; [reflexivity|].
      change (2 ^ (- (-1))) with 2. change (2 ^ (-1 + 1)) with 1.
      split; [nia | ring].
    + apply Z.leb_gt in E'.
      assert (Hp : 0 < 2 ^ (- (e + 1))) by (apply Z.pow_pos_nonneg; lia).
      eexists _, _. split; [reflexivity|].
      replace (- e) with (- (e + 1) + 1) by lia.
      rewrite Z.pow_add_r by lia. change (2 ^ 1) with 2.
      set (p := 2 ^ (- (e + 1))) in *. split; [nia | ring].
Qed.

Lemma round_to_double_spec n d :
  0 < n -> 0 < d ->
  exists M E n1 d1,
    round_to_double n d = mkDouble M E
    /\ scaled n d E = (n1, d1)
    /\ 0 < d1
    /\ 2 ^ 52 * d1 <= n1 < 2 ^ 53 * d1
    /\ 2 * Z.abs (M * d1 - n1) <= d1.
Proof.
  intros Hn Hd. unfold round_to_double.
  replace (n =? 0) with false by (symmetry; apply Z.eqb_neq; lia).
  rewrite (Z.abs_eq n) by lia. rewrite (Z.sgn_pos n) by lia.
  pose proof (scaled_bounds n d Hn Hd) as Hb. cbv zeta in Hb.
  destruct (scaled n d (Z.log2 n - Z.log2 d - 53)) as [n0 d0] eqn:Es0.
  destruct Hb as (Hd0 & Hlo & Hhi).
  destruct (2 ^ 53 * d0 <=? n0) eqn:Et.
  - apply Z.leb_le in Et.
    destruct (scaled_next _ _ _ _ _ Hd Es0) as (n1 & d1 & Es1 & Hpos & Hrel).
    rewrite Es1. exists (1 * div_half_even n1 d1), (Z.log2 n - Z.log2 d - 53 + 1), n1, d1.
    assert (Hd1 : 0 < d1) by nia.
    split; [reflexivity|]. split; [exact Es1|]. split; [exact Hd1|].
    split; [split; nia|].
    rewrite Z.mul_1_l. now apply div_half_even_near.
  - apply Z.leb_gt in Et. rewrite Es0.
    exists (1 * div_half_even n0 d0), (Z.log2 n - Z.log2 d - 53), n0, d0.
    split; [reflexivity|]. split; [exact Es0|]. split; [exact Hd0|].
    split; [split; lia|].
    rewrite Z.mul_1_l. now apply div_half_even_near.
Qed.

Lemma pow2_gt_19 q : 0 <= q -> 2 ^ 19 < 2 ^ q -> 2 ^ 20 <= 2 ^ q.
Proof.
  intros Hq H. destruct (Z_lt_le_dec q 20) as [Hlt | Hge].
  - assert (2 ^ q <= 2 ^ 19) by (apply Z.pow_le_mono_r; lia). lia.
  - apply Z.pow_le_mono_r; lia.
Qed.

Lemma double_of_int_holds s :
  0 <= s < 2 ^ 33 -> holds_int (double_of_int s) s.
Proof.
  intros Hs. unfold holds_int, double_of_int.
  destruct (Z.eq_dec s 0) as [-> | Hnz]; [cbn; lia|].
  destruct (round_to_double_spec s 1 ltac:(lia) ltac:(lia))
    as (M & E & n1 & d1 & -> & Hsc & Hd1 & [Hlo Hhi] & Hnear).
  cbn [binary_exponent significand]. unfold scaled in Hsc.
  destruct (0 <=? E) eqn:HE; injection Hsc as <- <-.
  - apply Z.leb_le in HE.
    assert (0 < 2 ^ E) by (apply Z.pow_pos_nonneg; lia).
    assert (2 ^ 33 < 2 ^ 52) by reflexivity. nia.
  - apply Z.leb_gt in HE. split; [lia|]. lia.
Qed.

Lemma double_div_holds us :
  0 <= us < 1000000 -> holds_fraction (double_div us 1000000).
Proof.
  intros Hus. unfold holds_fraction, double_div.
  destruct (Z.eq_dec us 0) as [-> | Hnz]; [cbn; lia|].
  destruct (round_to_double_spec us 1000000 ltac:(lia) ltac:(lia))
    as (M & E & n1 & d1 & -> & Hsc & Hd1 & [Hlo Hhi] & Hnear).
  cbn [binary_exponent significand]. unfold scaled in Hsc.
  assert (H52 : 2 ^ 52 = 4503599627370496) by reflexivity.
  assert (H20 : 2 ^ 20 = 1048576) by reflexivity.
  destruct (0 <=? E) eqn:HE; injection Hsc as <- <-.
  - apply Z.leb_le in HE.
    assert (0 < 2 ^ E) by (apply Z.pow_pos_nonneg; lia). nia.
  - apply Z.leb_gt in HE.
    set (Q := 2 ^ (- E)) in *.
    rewrite H52 in *. rewrite H20.
    assert (HQ : 0 < Q) by (apply Z.pow_pos_nonneg; lia).
    assert (Hle : us * Q <= 999999 * Q) by nia.
    split; [lia|]. split; lia.
Qed.

Lemma round_then_int s N D :
  0 <= s < 2 ^ 33 -> 0 < D -> s * D <= N ->
  (N - s * D) * 2 ^ 20 <= (2 ^ 20 - 1) * D ->
  int_of_double (round_to_double N D) = s.
Proof.
  intros Hs HD Hlow Hup.
  assert (H20 : 2 ^ 20 = 1048576) by reflexivity.
  assert (H19 : 2 ^ 19 = 524288) by reflexivity.
  assert (H33 : 2 ^ 33 = 8589934592) by reflexivity.
  assert (H52 : 2 ^ 52 = 4503599627370496) by reflexivity.
  rewrite H20 in Hup. rewrite H33 in Hs.
  destruct (Z.eq_dec N 0) as [-> | Hnz].
  { assert (s = 0) by nia. subst s. reflexivity. }
  assert (HN : 0 < N) by nia.
  assert (HNup : N < (s + 1) * D) by nia.
  destruct (round_to_double_spec N D HN HD)
    as (M & E & n1 & d1 & -> & Hsc & Hd1 & [Hlo Hhi] & Hnear).
  rewrite H52 in Hlo.
  unfold int_of_double. cbn [binary_exponent significand].
  unfold scaled in Hsc.
  destruct (0 <=? E) eqn:HE; injection Hsc as <- <-.
  - apply Z.leb_le in HE.
    assert (0 < 2 ^ E) by (apply Z.pow_pos_nonneg; lia).
    exfalso. nia.
  - apply Z.leb_gt in HE.
    assert (HQ20 : 2 ^ 20 <= 2 ^ (- E)).
    { apply pow2_gt_19; [lia|]. rewrite H19.
      assert (0 < 2 ^ (- E)) by (apply Z.pow_pos_nonneg; lia). nia. }
    rewrite H20 in HQ20.
    set (Q := 2 ^ (- E)) in *.
    assert (HM0 : s * Q <= M).
    { assert (2 * D * (M - s * Q) >= - D) by nia. nia. }
    assert (HM1 : M < (s + 1) * Q).
    { assert (2097152 * (M * D) <= 2097152 * (N * Q) + 1048576 * D) by lia.
      assert (1048576 * (N * Q) <= (1048576 * s + 1048575) * (D * Q)) by nia.
      assert (D * (2097152 * M) <= D * (2097152 * (s + 1) * Q - 2 * Q + 1048576))
        by nia.
      assert (2097152 * M <= 2097152 * (s + 1) * Q - 2 * Q + 1048576)
        by (apply Z.mul_le_mono_pos_l with (p := D); assumption).
      lia. }
    rewrite Z.quot_div_nonneg by nia.
    symmetry. apply Z.div_unique with (r := M - s * Q); nia.
Qed.

Lemma double_add_then_int x y s :
  holds_int x s -> holds_fraction y -> 0 <= s < 2 ^ 33 ->
  int_of_double (double_add x y) = s.
Proof.
  intros [Hex Hx] (Hey & Hy0 & Hy) Hs. unfold double_add. cbv zeta.
  set (e := Z.min (binary_exponent x) (binary_exponent y)).
  assert (He : e <= 0) by lia.
  assert (Hxe : 0 <= binary_exponent x - e) by lia.
  assert (Hye : 0 <= binary_exponent y - e) by lia.
  assert (Hpx : 2 ^ (- binary_exponent x) * 2 ^ (binary_exponent x - e) = 2 ^ (- e))
    by (rewrite <- Z.pow_add_r by lia; f_equal; lia).
  assert (Hpy : 2 ^ (- binary_exponent y) * 2 ^ (binary_exponent y - e) = 2 ^ (- e))
    by (rewrite <- Z.pow_add_r by lia; f_equal; lia).
  assert (Hp1 : 0 < 2 ^ (binary_exponent y - e)) by (apply Z.pow_pos_nonneg; lia).
  assert (HD : 0 < 2 ^ (- e)) by (apply Z.pow_pos_nonneg; lia).
  assert (HN : significand x * 2 ^ (binary_exponent x - e)
               + significand y * 2 ^ (binary_exponent y - e)
               = s * 2 ^ (- e) + significand y * 2 ^ (binary_exponent y - e)).
  { rewrite Hx, <- Z.mul_assoc, Hpx. reflexivity. }
  rewrite HN.
  assert (Hup : significand y * 2 ^ (binary_exponent y - e) * 2 ^ 20
                <= (2 ^ 20 - 1) * 2 ^ (- e)).
  { rewrite <- Hpy. nia. }
  destruct (0 <=? e) eqn:E0.
  - apply Z.leb_le in E0. assert (e = 0) by lia.
    replace (2 ^ e) with 1 by (now replace e with 0).
    replace (2 ^ (- e)) with 1 in * by (now replace e with 0).
    rewrite Z.mul_1_r. apply round_then_int; [assumption | lia | nia | lia].
  - apply round_then_int; [assumption | assumption | nia |].
    replace (s * 2 ^ (- e) + significand y * 2 ^ (binary_exponent y - e)
             - s * 2 ^ (- e))
      with (significand y * 2 ^ (binary_exponent y - e)) by ring.
    exact Hup.
Qed.

Lemma timestamp_on_a_utc_host env dt :
  utc_host env -> 0 <= dt -> dt / 1000000 < 2 ^ 33 ->
  timestamp env dt = Ok (dt / 1000000).
Proof.
  intros Hutc Hdt Hs. unfold timestamp. rewrite Hutc. f_equal.
  assert (0 <= dt / 1000000) by (apply Z.div_pos; lia).
  apply double_add_then_int.
  - apply double_of_int_holds. lia.
  - apply double_div_holds. apply Z.mod_pos_bound. lia.
  - lia.
Qed.

Lemma extended_expiry_second now u days :
  extended_expiry now u days / 1000000 = extended_second now u days.
Proof.
  unfold extended_expiry, extended_second.
  rewrite Z.div_add by lia. f_equal.
  destruct (Z.max_spec now (last_known_expire u * 1000000)) as [[Hlt ->] | [Hle ->]].
  - rewrite Z.div_mul by lia.
    assert (now / 1000000 <= last_known_expire u)
      by (apply Z.lt_le_incl, Z.div_lt_upper_bound; lia).
    lia.
  - assert (last_known_expire u <= now / 1000000)
      by (apply Z.div_le_lower_bound; lia).
    lia.
Qed.

(** X31.  On a host whose zone is UTC the expiry sent is the claim's.  A
    successful extension by [days] has sent the panel one PATCH, after one
    token request, and when [max(now, stored expiry) + days] falls in a
    second before [2^33] (the year 2242), the [expire] of its payload is
    exactly that second: [max(now, stored expiry) + days * 86400], with
    [now] cut to whole seconds, and [now + days * 86400] when the stored
    expiry is absent, zero or not after [now].  The float that
    [timestamp()] returns holds these seconds and their microseconds
    without an error that [int] could see. *)
Theorem extension_on_a_utc_host_sends_max_plus_days :
  forall env now days id req w row w',
    utc_host env ->
    utcnow env 239 = now -> utcnow env 242 = now -> 0 <= now ->
    ur_expire_days_to_add req = Some days ->
    modify_marzban_user_for_reseller env id req w = (Ok row, w') ->
    exists u p payload password token,
      get_marzban_user_for_reseller (db w) id (reseller_id (reseller w)) = Some u
      /\ get_panel (db w) (marzban_panel_id u) = Some p
      /\ remote_log w'
         = UpdateUserCall (api_url p) token (marzban_username u) payload
           :: TokenCall (api_url p) (admin_username p) password
           :: remote_log w
      /\ (extended_second now u days < 2 ^ 33 ->
          p_expire payload = Some (extended_second now u days))
      /\ (stale u now ->
          extended_second now u days = now / 1000000 + days * 86400).
Proof.
  intros env now days id req w row w' Hutc H239 H242 Hnow Hreq H.
  destruct (successful_extension_sends_its_expiry _ _ _ _ _ _ _ Hreq H)
    as (u & p & payload & password & token & ts
        & Hu & Hp & Hdays & Hts & Hpe & Hlog).
  exists u, p, payload, password, token.
  repeat split; try assumption.
  - intros Hbound.
    pose proof (new_expire_reads_max _ _ _ _ _ H239 H242 Hnow Hts) as Hmax.
    rewrite timestamp_on_a_utc_host in Hmax.
    + rewrite extended_expiry_second in Hmax. congruence.
    + exact Hutc.
    + unfold extended_expiry. nia.
    + now rewrite extended_expiry_second.
  - intros Hstale.
    pose proof (stale_extended_expiry now u days Hnow Hstale) as E.
    rewrite <- extended_expiry_second, E.
    now rewrite Z.div_add by lia.
Qed.

Lemma extension_on_a_utc_host_sends_max_plus_days_witness :
  exists payload password token,
    remote_log (snd (modify_marzban_user_for_reseller
                       (sample_env None []) 5 extend30 renewal_world))
    = [UpdateUserCall "https://panel.example/" token "alice" payload;
       TokenCall "https://panel.example/" "root" password]
    /\ p_expire payload = Some (1700000000 + 30 * 86400).
Proof.
  destruct (extension_on_a_utc_host_sends_max_plus_days
              (sample_env None []) sample_now 30 5 extend30 renewal_world _ _
              (fun s => eq_refl) eq_refl eq_refl ltac:(discriminate) eq_refl
              (surjective_pairing _))
    as (u & p & payload & password & token & Hu & Hp & Hlog & Hpe & _).
  injection Hu as <-. injection Hp as <-.
  exists payload, password, token. split; [exact Hlog|].
  exact (Hpe eq_refl).
Defined.

(** ** Failure of the local commit after the remote call *)

Lemma prefix_append s t : prefix s (s ++ t) = true.
Proof.
  induction s as [|c s IH]; cbn; [destruct t; reflexivity|].
  destruct (ascii_dec c c); [assumption | contradiction].
Qed.

Lemma contains_append a s t : contains s (a ++ s ++ t) = true.
Proof.
  induction a as [|c a IH].
  - cbn [append]. destruct (s ++ t) eqn:E; cbn [contains];
      rewrite <- E, prefix_append; reflexivity.
  - cbn [append contains]. rewrite IH. destruct (prefix s _); reflexivity.
Qed.

Section CreateCommit.
Variable callee : CreateKwargs -> call_result (option ApiUser).

Lemma create_remote_phase_ok_inv env req w p rp c pl response username w1 :
  create_remote_phase callee env req w = (Ok (p, rp, c, pl, response, username), w1) ->
  creation_quote w req = Ok (p, rp, c, pl)
  /\ truthy (au_username response) = Some username
  /\ db w1 = db w /\ reseller w1 = reseller w
  /\ exists kw rest,
      remote_log w1 = CreateUserCall kw :: rest
      /\ kw_username kw = cr_username req
      /\ callee kw = Returned (Some response).
Proof.
  intros H.
  pose proof (create_remote_phase_local callee _ _ _ _ _ H) as [Hd Hr].
  unfold create_remote_phase, uncaught, translated, days_to_timestamp, timestamp in H.
  unfold_monad. cbn beta iota zeta in H.
  destruct (creation_quote w req) as [[[[p0 rp0] c0] pl0]|e] eqn:Hq;
    [|discriminate H].
  run_in H; injection H as <- <- <- <- <- <- <-; cbn;
    (split; [reflexivity|]; split; [assumption|];
     split; [reflexivity|]; split; [reflexivity|];
     do 2 eexists; split; [reflexivity|]; split; [reflexivity | assumption]).
Qed.

End CreateCommit.







Example creation_commit_failure_message :
  fst (create_marzban_user_for_reseller panel_creates (sample_env None [])
         alice_again plan_world)
  = Raise (MarzbanUserServiceError
             (DatabaseErrorAfterCreation "uq_marzban_user_panel_username"
                                         "alice" "main"))
  /\ message (DatabaseErrorAfterCreation "uq_marzban_user_panel_username"
                                         "alice" "main")
     = "Database error after Marzban user creation: uq_marzban_user_panel_username. Manual reconciliation may be needed for user 'alice' on panel 'main'.".
Proof. split; reflexivity. Qed.

(** ** Failures of the remote create call *)

Lemma as_written_remote_phase_raises env req w res w1 :
  create_remote_phase create_marzban_user_local env req w = (res, w1) ->
  (forall x, res <> Ok x)
  /\ (forall d, res <> Raise (MarzbanUserServiceError (MarzbanApiError d))).
Proof.
  unfold create_remote_phase, uncaught, translated, days_to_timestamp, timestamp,
    create_marzban_user_local.
  intros H. unfold_monad. cbn beta iota zeta in H.
  destruct (creation_quote w req) as [[[[p rp] c] pl]|e] eqn:Hq.
  - run_in H; injection H as <- <-; split; intros; discriminate.
  - injection H as <- <-. split; [intros; discriminate|].
    intros d [= ->]. unfold creation_quote, creation_cost, InvalidOperation in Hq.
    repeat (destruct_match_in Hq; try discriminate Hq).
Qed.

(** C7 on the code as written.  [create_marzban_user_for_reseller] never
    returns a user and never raises the "Marzban API error" that line 506
    builds from a failure of the panel: the call of line 492 raises
    [TypeError] before any request is made.  On a panel that would answer
    the POST with HTTP 409 [User already exists], a funded request ends in
    that [TypeError]; with the API client's function bound to the name, the
    same request would raise "Marzban API error: Failed to create Marzban
    user (HTTP 409): User already exists". *)
Theorem username_conflict_is_not_surfaced :
  forall env req w,
    (forall row,
        fst (create_marzban_user_for_reseller_as_written env req w) <> Ok row)
    /\ (forall d,
           fst (create_marzban_user_for_reseller_as_written env req w)
           <> Raise (MarzbanUserServiceError (MarzbanApiError d)))
    /\ fst (create_marzban_user_for_reseller_as_written
              (sample_env None []) three_gb rich_world)
       = Raise type_error
    /\ fst (create_marzban_user_for_reseller
              (api_client_create_marzban_user panel_conflict)
              (sample_env None []) three_gb rich_world)
       = Raise (MarzbanUserServiceError
                  (MarzbanApiError
                     "Failed to create Marzban user (HTTP 409): User already exists")).
Proof.
  intros env req w.
  assert (H : forall res w',
             create_marzban_user_for_reseller_as_written env req w = (res, w') ->
             (forall row, res <> Ok row)
             /\ (forall d, res <> Raise (MarzbanUserServiceError (MarzbanApiError d)))).
  { intros res w'. unfold create_marzban_user_for_reseller_as_written,
      create_marzban_user_for_reseller, bind.
    destruct (create_remote_phase create_marzban_user_local env req w)
      as [[x|e] w1] eqn:Hp; intros H.
    - exfalso. apply as_written_remote_phase_raises in Hp as [Hx _].
      eapply Hx; reflexivity.
    - injection H as <- <-.
      apply as_written_remote_phase_raises in Hp as [_ Hd].
      split; [intros; discriminate|].
      intros d [= ->]. eapply Hd; reflexivity. }
  destruct (H _ _ (surjective_pairing _)) as [Hok Hapi].
  repeat apply conj; [exact Hok | exact Hapi | reflexivity | reflexivity].
Qed.

(** X1. As the module is written, a creation that passes pricing, the wallet
    check, the credentials, the token request and the two conversions of
    lines 488 and 489 (a data limit whose bytes are finite, an expiry that
    the host can convert) ends in the [TypeError] of line 492: the database
    and the wallet are as before, and the log holds the token request and
    the call that failed. *)
Theorem creation_as_written_ends_in_type_error :
  forall env req w target_panel active_pricing cost plan password token expire_ts,
    creation_quote w req = Ok (target_panel, active_pricing, cost, plan) ->
    (wallet_balance (reseller w) <? cost)
    && negb (allow_negative_balance (reseller w)) = false ->
    truthy (get_panel_decrypted_password env (db w) (panel_id target_panel))
    = Some password ->
    get_marzban_access_token env (api_url target_panel)
      (admin_username target_panel) password = Returned (Some token) ->
    truthy (Some token) = Some token ->
    bytes_fit (cr_data_limit_gb req) ->
    days_to_timestamp env (cr_expire_days req) = Ok expire_ts ->
    exists kw,
      create_marzban_user_for_reseller_as_written env req w
      = (Raise type_error,
         mkWorld (db w) (reseller w)
                 (CreateUserCall kw
                  :: TokenCall (api_url target_panel) (admin_username target_panel)
                               password
                  :: remote_log w)).
Proof.
  intros env req w target_panel active_pricing cost plan password token expire_ts
         Hq Hfunds Hpw Htok Htruthy _ Hts.
  unfold create_marzban_user_for_reseller_as_written,
    create_marzban_user_for_reseller, create_remote_phase, uncaught, translated,
    create_marzban_user_local.
  unfold_monad. rewrite Hq. cbn beta iota zeta. rewrite Hfunds.
  cbn beta iota zeta. rewrite Hpw. cbn beta iota zeta. rewrite Htok.
  cbn beta iota zeta. rewrite Htruthy. cbn beta iota zeta. rewrite Hts.
  cbn. eexists. reflexivity.
Qed.

Lemma creation_as_written_ends_in_type_error_witness :
  exists kw,
    create_marzban_user_for_reseller_as_written (sample_env None []) three_gb
      rich_world
    = (Raise type_error,
       mkWorld (db rich_world) (reseller rich_world)
               [CreateUserCall kw;
                TokenCall "https://panel.example/" "root" "secret"]).
Proof.
  exact (creation_as_written_ends_in_type_error
           (sample_env None []) three_gb rich_world panel1 unit_pricing 1500 None
           "secret" "token" None
           eq_refl eq_refl eq_refl eq_refl eq_refl eq_refl eq_refl).
Defined.

(** ** Synchronisation *)

Lemma sync_when_listing_succeeds env w panel api_users :
  listing_succeeds env w panel api_users ->
  exists log,
    sync_marzban_users_for_reseller_panel env panel w
    = (Ok (snd (sync_loop env (reseller w) panel 0 api_users (db w)
                  (mkSummary (panel_id panel) (reseller_id (reseller w))
                             (marzban_admin_id (reseller w))
                             (Z.of_nat (List.length api_users)) 0 0 []))),
       mkWorld (fst (sync_loop env (reseller w) panel 0 api_users (db w)
                       (mkSummary (panel_id panel) (reseller_id (reseller w))
                                  (marzban_admin_id (reseller w))
                                  (Z.of_nat (List.length api_users)) 0 0 [])))
               (reseller w) log).
Proof.
  intros (password & token & token' & Hpw & Htok & Htruthy & Hlist).
  unfold sync_marzban_users_for_reseller_panel.
  cbn zeta. rewrite Hpw, Htok, Htruthy, Hlist.
  unfold set_total. cbn [synced_panel_id summary_reseller_id
    reseller_marzban_admin_id newly_added_count updated_count errors].
  destruct (sync_loop _ _ _ _ _ _ _) as [d' s']. eexists. reflexivity.
Qed.

Lemma missing_add_error s e :
  missing_username_errors (add_error s e)
  = missing_username_errors s + (if is_missing_username e then 1 else 0).
Proof.
  unfold missing_username_errors, add_error. cbn [errors].
  rewrite filter_app, length_app. cbn [filter].
  destruct (is_missing_username e); cbn [List.length]; lia.
Qed.

Lemma length_errors_add s e :
  List.length (errors (add_error s e)) = S (List.length (errors s)).
Proof.
  unfold add_error. cbn [errors]. rewrite length_app. cbn. lia.
Qed.

(** The loop counts every listed user once. *)
Lemma sync_loop_counts env r panel : forall api_users i d s,
  (forall j, (j < List.length api_users)%nat -> item_fault env (i + j) = None) ->
  let s' := snd (sync_loop env r panel i api_users d s) in
  total_users_from_api s' = total_users_from_api s
  /\ newly_added_count s' + updated_count s' + missing_username_errors s'
     = newly_added_count s + updated_count s + missing_username_errors s
       + Z.of_nat (List.length api_users)
  /\ Z.of_nat (List.length (errors s')) - missing_username_errors s'
     = Z.of_nat (List.length (errors s)) - missing_username_errors s
  /\ updated_count s' + newly_added_count s'
     = updated_count s + newly_added_count s
       + Z.of_nat (List.length (filter has_username api_users)).
Proof.
  induction api_users as [|user_data rest IH]; intros i d s Hfault.
  - cbn. repeat split; lia.
  - cbn [sync_loop filter].
    assert (Hrest : forall j, (j < List.length rest)%nat ->
                              item_fault env (S i + j) = None).
    { intros j Hj. replace (S i + j)%nat with (i + S j)%nat by lia.
      apply Hfault. cbn. lia. }
    destruct (truthy (au_username user_data)) as [username|] eqn:Hname.
    + replace (has_username user_data) with true
        by (unfold has_username; rewrite Hname; reflexivity).
      pose proof (Hfault 0%nat ltac:(cbn; lia)) as H0.
      rewrite Nat.add_0_r in H0. rewrite H0.
      destruct (get_marzban_user_by_username_and_panel d username (panel_id panel)).
      * specialize (IH (S i) (update_marzban_user_from_api_data env d m user_data)
                       (count_updated s) Hrest).
        cbv zeta in IH. destruct IH as (H1 & H2 & H3 & H4).
        cbn [List.length] in *. unfold missing_username_errors in *.
        cbn [count_updated total_users_from_api newly_added_count
             updated_count errors] in *.
        repeat split; lia.
      * specialize (IH (S i) (insert_user d (synced_row env r panel username user_data))
                       (count_added s) Hrest).
        cbv zeta in IH. destruct IH as (H1 & H2 & H3 & H4).
        cbn [List.length] in *. unfold missing_username_errors in *.
        cbn [count_added total_users_from_api newly_added_count
             updated_count errors] in *.
        repeat split; lia.
    + replace (has_username user_data) with false
        by (unfold has_username; rewrite Hname; reflexivity).
      specialize (IH (S i) d (add_error s (MissingUsername user_data)) Hrest).
      cbv zeta in IH. destruct IH as (H1 & H2 & H3 & H4).
      rewrite missing_add_error, length_errors_add in *.
      cbn [is_missing_username] in *.
      cbn [add_error total_users_from_api newly_added_count updated_count] in *.
      cbn [List.length]. repeat split; lia.
Qed.

(** C10.  When the remote listing succeeds and no exception leaves the loop
    body, [sync_marzban_users_for_reseller_panel] returns a summary in which
    [total_users_from_api] is the number of listed users and equals
    [newly_added_count + updated_count] plus the number of username-missing
    entries of [errors]; the error list holds no other entry, so every listed
    user was counted exactly once. *)
Theorem sync_summary_accounts_for_every_listed_user :
  forall env panel w api_users,
    listing_succeeds env w panel api_users ->
    no_item_fault env (List.length api_users) ->
    exists s w',
      sync_marzban_users_for_reseller_panel env panel w = (Ok s, w')
      /\ total_users_from_api s = Z.of_nat (List.length api_users)
      /\ total_users_from_api s
         = newly_added_count s + updated_count s + missing_username_errors s
      /\ Z.of_nat (List.length (errors s)) = missing_username_errors s
      /\ newly_added_count s + updated_count s
         = Z.of_nat (List.length (filter has_username api_users)).
Proof.
  intros env panel w api_users Hlist Hfault.
  destruct (sync_when_listing_succeeds env w panel api_users Hlist) as [log Hrun].
  do 2 eexists. split; [exact Hrun|].
  pose proof (sync_loop_counts env (reseller w) panel api_users 0 (db w)
                (mkSummary (panel_id panel) (reseller_id (reseller w))
                           (marzban_admin_id (reseller w))
                           (Z.of_nat (List.length api_users)) 0 0 [])
                Hfault) as H.
  cbv zeta in H. destruct H as (H1 & H2 & H3 & H4).
  unfold missing_username_errors in *.
  cbn [total_users_from_api newly_added_count updated_count errors
       filter List.length] in *.
  repeat split; lia.
Qed.

Lemma sync_summary_accounts_for_every_listed_user_witness :
  exists s w',
    sync_marzban_users_for_reseller_panel (sample_env None listed_users) panel1
      plan_world = (Ok s, w')
    /\ total_users_from_api s = Z.of_nat (List.length listed_users)
    /\ total_users_from_api s
       = newly_added_count s + updated_count s + missing_username_errors s
    /\ Z.of_nat (List.length (errors s)) = missing_username_errors s
    /\ newly_added_count s + updated_count s
       = Z.of_nat (List.length (filter has_username listed_users)).
Proof.
  apply (sync_summary_accounts_for_every_listed_user
           (sample_env None listed_users) panel1 plan_world listed_users).
  - exists "secret", "token", (Some "token"). repeat split; reflexivity.
  - intros i _. reflexivity.
Defined.

Example sync_first_run :
  fst (sync_marzban_users_for_reseller_panel (sample_env None listed_users)
         panel1 plan_world)
  = Ok (mkSummary 1 1 10 3 1 1
          [MissingUsername (mkApiUser None (Some 10) None "")]).
Proof. reflexivity. Qed.

(** *** Keys of the mirror table *)

Lemma lookup_known d name pid :
  key_known d pid name = true
  <-> exists u, get_marzban_user_by_username_and_panel d name pid = Some u.
Proof.
  unfold key_known, get_marzban_user_by_username_and_panel. split.
  - intros H. apply existsb_exists in H as (u & Hin & Hu).
    destruct (find _ (marzban_users d)) eqn:E; [eauto|].
    pose proof (find_none _ _ E u Hin) as Hn. cbv beta in Hn. congruence.
  - intros [u H]. apply find_some in H as [Hin Hu].
    apply existsb_exists. eauto.
Qed.

Lemma lookup_unknown d name pid :
  get_marzban_user_by_username_and_panel d name pid = None ->
  key_known d pid name = false.
Proof.
  intros H. destruct (key_known d pid name) eqn:E; [|reflexivity].
  apply lookup_known in E as [u Hu]. congruence.
Qed.

Lemma NoDup_map_injective {A B} (f : A -> B) l x y :
  NoDup (map f l) -> In x l -> In y l -> f x = f y -> x = y.
Proof.
  induction l as [|a l IH]; cbn; intros Hnd Hx Hy Hf; [contradiction|].
  inversion Hnd as [|? ? Hnotin Hnd']; subst.
  destruct Hx as [-> | Hx], Hy as [-> | Hy]; auto.
  - exfalso. apply Hnotin. rewrite Hf. now apply in_map.
  - exfalso. apply Hnotin. rewrite <- Hf. now apply in_map.
Qed.

(** Refreshing a row keeps every id, username and panel of the table. *)
Lemma save_user_keeps_keys (row db_user : MarzbanUser) us :
  NoDup (map mu_id us) -> In db_user us ->
  mu_id row = mu_id db_user ->
  marzban_username row = marzban_username db_user ->
  marzban_panel_id row = marzban_panel_id db_user ->
  map mu_id (save_user row us) = map mu_id us
  /\ forall name pid,
      existsb (fun u => String.eqb (marzban_username u) name
                        && (marzban_panel_id u =? pid)) (save_user row us)
      = existsb (fun u => String.eqb (marzban_username u) name
                          && (marzban_panel_id u =? pid)) us.
Proof.
  intros Hnd Hin Hid Hname Hpanel.
  assert (Hsame : forall v, In v us ->
            let v' := if mu_id v =? mu_id row then row else v in
            mu_id v' = mu_id v
            /\ marzban_username v' = marzban_username v
            /\ marzban_panel_id v' = marzban_panel_id v).
  { intros v Hv. cbv zeta. destruct (mu_id v =? mu_id row) eqn:E; [|auto].
    apply Z.eqb_eq in E. rewrite Hid in E.
    pose proof (NoDup_map_injective mu_id us v db_user Hnd Hv Hin E) as ->.
    auto. }
  clear Hnd Hin. unfold save_user. induction us as [|v us IH].
  - split; [reflexivity | intros; reflexivity].
  - destruct IH as [IH1 IH2]; [intros; apply Hsame; now right|].
    destruct (Hsame v (or_introl eq_refl)) as (H1 & H2 & H3).
    cbn [map existsb]. split.
    + rewrite H1, IH1. reflexivity.
    + intros name pid. rewrite H2, H3, IH2. reflexivity.
Qed.

Lemma update_keeps_keys env d db_user user_data name pid :
  primary_keys_ok d ->
  get_marzban_user_by_username_and_panel d name pid = Some db_user ->
  primary_keys_ok (update_marzban_user_from_api_data env d db_user user_data)
  /\ forall n p,
      key_known (update_marzban_user_from_api_data env d db_user user_data) p n
      = key_known d p n.
Proof.
  intros [Hnd Hlt] Hfind.
  unfold get_marzban_user_by_username_and_panel in Hfind.
  apply find_some in Hfind as [Hin _].
  unfold update_marzban_user_from_api_data, primary_keys_ok, key_known, set_users.
  cbn [marzban_users next_user_id].
  set (row := mkUser _ _ _ _ _ _ _ _).
  destruct (save_user_keeps_keys row db_user (marzban_users d) Hnd Hin
              eq_refl eq_refl eq_refl) as [Hids Hkeys].
  split; [split|].
  - rewrite Hids. exact Hnd.
  - apply Forall_forall. intros v Hv.
    assert (Hv' : In (mu_id v) (map mu_id (marzban_users d)))
      by (rewrite <- Hids; now apply in_map).
    apply in_map_iff in Hv' as (v0 & Heq & Hv0).
    rewrite <- Heq. rewrite Forall_forall in Hlt. now apply Hlt.
  - intros n p. apply Hkeys.
Qed.

Lemma insert_keeps_keys d (row : Z -> MarzbanUser) :
  primary_keys_ok d ->
  (forall id, mu_id (row id) = id) ->
  primary_keys_ok (insert_user d row)
  /\ forall n p,
      key_known (insert_user d row) p n
      = key_known d p n
        || (String.eqb (marzban_username (row (next_user_id d))) n
            && (marzban_panel_id (row (next_user_id d)) =? p)).
Proof.
  intros [Hnd Hlt] Hid. unfold primary_keys_ok, key_known, insert_user.
  cbn [marzban_users next_user_id]. split; [split|].
  - rewrite map_app. cbn [map]. rewrite Hid.
    rewrite Forall_forall in Hlt.
    assert (Hfresh : ~ In (next_user_id d) (map mu_id (marzban_users d))).
    { intros Hin. apply in_map_iff in Hin as (v & Heq & Hv).
      specialize (Hlt v Hv). lia. }
    clear Hlt. induction (map mu_id (marzban_users d)) as [|a l IH]; cbn.
    + constructor; [intros [] | constructor].
    + inversion Hnd; subst. constructor.
      * rewrite in_app_iff. cbn. intros [H|[H|[]]]; [contradiction|].
        apply Hfresh. now left.
      * apply IH; [assumption|]. intros H. apply Hfresh. now right.
  - apply Forall_app. split.
    + eapply Forall_impl; [|exact Hlt]. cbv beta. intros; lia.
    + constructor; [rewrite Hid; lia | constructor].
  - intros n p. rewrite existsb_app. cbn [existsb]. rewrite orb_false_r.
    reflexivity.
Qed.

(** *** The loop and the keys *)

Lemma sync_loop_mirrors env r panel : forall api_users i d s,
  primary_keys_ok d ->
  (forall j, (j < List.length api_users)%nat -> item_fault env (i + j) = None) ->
  let d' := fst (sync_loop env r panel i api_users d s) in
  primary_keys_ok d'
  /\ (forall n, key_known d (panel_id panel) n = true ->
                key_known d' (panel_id panel) n = true)
  /\ all_mirrored d' (panel_id panel) api_users.
Proof.
  induction api_users as [|user_data rest IH]; intros i d s Hwf Hfault.
  - cbn. split; [assumption|]. split; [auto|]. intros u name [].
  - cbn [sync_loop].
    assert (Hrest : forall j, (j < List.length rest)%nat ->
                              item_fault env (S i + j) = None).
    { intros j Hj. replace (S i + j)%nat with (i + S j)%nat by lia.
      apply Hfault. cbn. lia. }
    destruct (truthy (au_username user_data)) as [username|] eqn:Hname.
    + pose proof (Hfault 0%nat ltac:(cbn; lia)) as H0.
      rewrite Nat.add_0_r in H0. rewrite H0.
      destruct (get_marzban_user_by_username_and_panel d username (panel_id panel))
        as [db_user|] eqn:Hfind.
      * destruct (update_keeps_keys env d db_user user_data _ _ Hwf Hfind)
          as [Hwf1 Hkeys].
        specialize (IH (S i) (update_marzban_user_from_api_data env d db_user user_data)
                       (count_updated s) Hwf1 Hrest).
        cbv zeta in IH. destruct IH as (Hwf' & Hmono & Hall).
        split; [assumption|]. split.
        -- intros n Hn. apply Hmono. now rewrite Hkeys.
        -- intros u name [<- | Hin] Hu; [|eapply Hall; eauto].
           rewrite Hname in Hu. injection Hu as <-.
           apply Hmono. rewrite Hkeys. apply lookup_known. eauto.
      * destruct (insert_keeps_keys d (synced_row env r panel username user_data)
                    Hwf (fun id => eq_refl)) as [Hwf1 Hkeys].
        specialize (IH (S i) (insert_user d (synced_row env r panel username user_data))
                       (count_added s) Hwf1 Hrest).
        cbv zeta in IH. destruct IH as (Hwf' & Hmono & Hall).
        split; [assumption|]. split.
        -- intros n Hn. apply Hmono. rewrite Hkeys, Hn. reflexivity.
        -- intros u name [<- | Hin] Hu; [|eapply Hall; eauto].
           rewrite Hname in Hu. injection Hu as <-.
           apply Hmono. rewrite Hkeys. cbn [synced_row marzban_username marzban_panel_id].
           rewrite String.eqb_refl, Z.eqb_refl. apply orb_true_r.
    + specialize (IH (S i) d (add_error s (MissingUsername user_data)) Hwf Hrest).
      cbv zeta in IH. destruct IH as (Hwf' & Hmono & Hall).
      split; [assumption|]. split; [assumption|].
      intros u name [<- | Hin] Hu; [congruence | eapply Hall; eauto].
Qed.

Lemma sync_loop_refreshes env r panel : forall api_users i d s,
  primary_keys_ok d ->
  (forall j, (j < List.length api_users)%nat -> item_fault env (i + j) = None) ->
  all_mirrored d (panel_id panel) api_users ->
  let s' := snd (sync_loop env r panel i api_users d s) in
  newly_added_count s' = newly_added_count s
  /\ updated_count s'
     = updated_count s + Z.of_nat (List.length (filter has_username api_users)).
Proof.
  induction api_users as [|user_data rest IH]; intros i d s Hwf Hfault Hall.
  - cbn. split; lia.
  - cbn [sync_loop filter].
    assert (Hrest : forall j, (j < List.length rest)%nat ->
                              item_fault env (S i + j) = None).
    { intros j Hj. replace (S i + j)%nat with (i + S j)%nat by lia.
      apply Hfault. cbn. lia. }
    destruct (truthy (au_username user_data)) as [username|] eqn:Hname.
    + replace (has_username user_data) with true
        by (unfold has_username; rewrite Hname; reflexivity).
      pose proof (Hfault 0%nat ltac:(cbn; lia)) as H0.
      rewrite Nat.add_0_r in H0. rewrite H0.
      pose proof (Hall user_data username (or_introl eq_refl) Hname) as Hknown.
      apply lookup_known in Hknown as [db_user Hfind]. rewrite Hfind.
      destruct (update_keeps_keys env d db_user user_data _ _ Hwf Hfind)
        as [Hwf1 Hkeys].
      specialize (IH (S i) (update_marzban_user_from_api_data env d db_user user_data)
                     (count_updated s) Hwf1 Hrest).
      cbv zeta in IH. destruct IH as [H1 H2].
      { intros u name Hin Hu. rewrite Hkeys. eapply Hall; [right|]; eauto. }
      cbn [count_updated newly_added_count updated_count List.length] in *.
      split; lia.
    + replace (has_username user_data) with false
        by (unfold has_username; rewrite Hname; reflexivity).
      specialize (IH (S i) d (add_error s (MissingUsername user_data)) Hwf Hrest).
      cbv zeta in IH. destruct IH as [H1 H2].
      { intros u name Hin Hu. eapply Hall; [right|]; eauto. }
      cbn [add_error newly_added_count updated_count] in *. split; lia.
Qed.

Lemma filter_all {A} (f : A -> bool) l :
  forallb f l = true -> filter f l = l.
Proof.
  induction l as [|a l IH]; cbn; [reflexivity|].
  intros H. apply andb_true_iff in H as [-> H]. now rewrite IH.
Qed.

(** C9, as the code has it.  Let the mirror table have sound primary keys,
    and let two runs of [sync_marzban_users_for_reseller_panel] follow each
    other with the same listing from the panel and no exception inside the
    loop.  The second run returns a summary with [newly_added_count = 0] and
    with [updated_count] equal to the number of listed users that carry a
    username, that is [total_users_from_api] minus the username-missing
    errors; when every listed user carries a username, [updated_count] is
    the number of listed users. *)
Theorem second_sync_only_refreshes :
  forall env1 env2 panel w api_users s1 w1,
    primary_keys_ok (db w) ->
    listing_succeeds env1 w panel api_users ->
    no_item_fault env1 (List.length api_users) ->
    sync_marzban_users_for_reseller_panel env1 panel w = (Ok s1, w1) ->
    listing_succeeds env2 w1 panel api_users ->
    no_item_fault env2 (List.length api_users) ->
    exists s2 w2,
      sync_marzban_users_for_reseller_panel env2 panel w1 = (Ok s2, w2)
      /\ newly_added_count s2 = 0
      /\ updated_count s2
         = Z.of_nat (List.length (filter has_username api_users))
      /\ updated_count s2 = total_users_from_api s2 - missing_username_errors s2
      /\ (forallb has_username api_users = true ->
          updated_count s2 = total_users_from_api s2).
Proof.
  intros env1 env2 panel w api_users s1 w1 Hwf Hl1 Hf1 Hrun1 Hl2 Hf2.
  destruct (sync_when_listing_succeeds env1 w panel api_users Hl1) as [log1 Hr1].
  rewrite Hr1 in Hrun1. injection Hrun1 as _ Hw1.
  pose proof (sync_loop_mirrors env1 (reseller w) panel api_users 0 (db w)
                (mkSummary (panel_id panel) (reseller_id (reseller w))
                           (marzban_admin_id (reseller w))
                           (Z.of_nat (List.length api_users)) 0 0 [])
                Hwf Hf1) as Hm.
  cbv zeta in Hm. destruct Hm as (Hwf1 & _ & Hall).
  assert (Hdb : db w1 = fst (sync_loop env1 (reseller w) panel 0 api_users (db w)
                  (mkSummary (panel_id panel) (reseller_id (reseller w))
                             (marzban_admin_id (reseller w))
                             (Z.of_nat (List.length api_users)) 0 0 [])))
    by (rewrite <- Hw1; reflexivity).
  rewrite <- Hdb in Hwf1, Hall.
  destruct (sync_when_listing_succeeds env2 w1 panel api_users Hl2) as [log2 Hr2].
  do 2 eexists. split; [exact Hr2|].
  set (s0 := mkSummary (panel_id panel) (reseller_id (reseller w1))
                       (marzban_admin_id (reseller w1))
                       (Z.of_nat (List.length api_users)) 0 0 []).
  pose proof (sync_loop_refreshes env2 (reseller w1) panel api_users 0 (db w1) s0
                Hwf1 Hf2 Hall) as Hr.
  pose proof (sync_loop_counts env2 (reseller w1) panel api_users 0 (db w1) s0 Hf2)
    as Hc.
  cbv zeta in Hr, Hc. destruct Hr as [Hnew Hupd].
  destruct Hc as (Htot & Hsum & _ & _).
  unfold missing_username_errors in *. subst s0.
  cbn [total_users_from_api newly_added_count updated_count errors
       filter List.length] in *.
  repeat split; try lia.
  intros Hallnames. rewrite (filter_all _ _ Hallnames) in Hupd. lia.
Qed.

Lemma second_sync_only_refreshes_witness :
  exists s2 w2,
    sync_marzban_users_for_reseller_panel (sample_env None listed_users) panel1
      (snd (sync_marzban_users_for_reseller_panel
              (sample_env None listed_users) panel1 plan_world))
    = (Ok s2, w2)
    /\ newly_added_count s2 = 0
    /\ updated_count s2
       = Z.of_nat (List.length (filter has_username listed_users))
    /\ updated_count s2 = total_users_from_api s2 - missing_username_errors s2
    /\ (forallb has_username listed_users = true ->
        updated_count s2 = total_users_from_api s2).
Proof.
  eapply (second_sync_only_refreshes
            (sample_env None listed_users) (sample_env None listed_users)
            panel1 plan_world listed_users).
  - split.
    + repeat constructor. intros [].
    + repeat constructor.
  - exists "secret", "token", (Some "token"). repeat split; reflexivity.
  - intros i _. reflexivity.
  - vm_compute. reflexivity.
  - exists "secret", "token", (Some "token"). repeat split; reflexivity.
  - intros i _. reflexivity.
Defined.

(** C9 as stated fails when a listed record has no username: the panel lists
    one such record, both runs skip it, and the second run reports
    [updated_count = 0] for one listed user. *)
Lemma nameless_record_is_never_refreshed :
  exists s1 w1 s2 w2,
    sync_marzban_users_for_reseller_panel (sample_env None nameless_only) panel1
      plan_world = (Ok s1, w1)
    /\ sync_marzban_users_for_reseller_panel (sample_env None nameless_only) panel1
         w1 = (Ok s2, w2)
    /\ newly_added_count s2 = 0
    /\ total_users_from_api s2 = 1
    /\ updated_count s2 = 0
    /\ updated_count s2 <> Z.of_nat (List.length nameless_only).
Proof.
  do 4 eexists. split; [reflexivity|]. split; [reflexivity|].
  repeat split. discriminate.
Qed.

Example sync_second_run :
  fst (sync_marzban_users_for_reseller_panel (sample_env None listed_users) panel1
         (snd (sync_marzban_users_for_reseller_panel
                 (sample_env None listed_users) panel1 plan_world)))
  = Ok (mkSummary 1 1 10 3 0 2
          [MissingUsername (mkApiUser None (Some 10) None "")]).
Proof. reflexivity. Qed.

(** ** All or nothing *)

Section CreateBooks.
Variable callee : CreateKwargs -> call_result (option ApiUser).

(** What a run of [create_marzban_user_for_reseller] leaves behind. *)
Lemma create_outcomes env req w res w' :
  create_marzban_user_for_reseller callee env req w = (res, w') ->
  (db w' = db w /\ reseller w' = reseller w /\ exists e, res = Raise e)
  \/ (exists p rp cost plan response username,
         creation_quote w req = Ok (p, rp, cost, plan)
         /\ truthy (au_username response) = Some username
         /\ get_marzban_user_by_username_and_panel (db w) username (panel_id p)
            = None
         /\ res = Ok (mkUser (next_user_id (db w)) username (panel_id p)
                             (reseller_id (reseller w)) true (cr_note req)
                             (Some response) (db_now env))
         /\ reseller w' = debit (reseller w) cost
         /\ db w'
            = insert_transaction
                (insert_user (db w)
                   (fun id => mkUser id username (panel_id p)
                                     (reseller_id (reseller w)) true (cr_note req)
                                     (Some response) (db_now env)))
                (mkTx (reseller_id (reseller w)) "user_creation_cost" (- cost)
                      (Some (next_user_id (db w))) plan (Some (rp_id rp)))).
Proof.
  unfold create_marzban_user_for_reseller, bind. intros H.
  destruct (create_remote_phase callee env req w) as [[x|e] w1] eqn:Hp.
  2:{ injection H as <- <-.
      apply create_remote_phase_local in Hp as [-> ->]. left. eauto. }
  destruct x as [[[[[p rp] c] pl] response] username].
  apply create_remote_phase_ok_inv in Hp as (Hq & Hname & Hd & Hr & _).
  unfold commit_creation in H. rewrite Hd, Hr in H.
  destruct (get_marzban_user_by_username_and_panel (db w) username (panel_id p))
    eqn:Hfree.
  { injection H as <- <-. left. eauto. }
  destruct (commit_fault env); injection H as <- <-.
  { left. eauto. }
  right. exists p, rp, c, pl, response, username. cbn. repeat split; auto.
Qed.

End CreateBooks.

(** What a run of [modify_marzban_user_for_reseller] leaves behind. *)
Lemma modify_outcomes env id req w res w' :
  modify_marzban_user_for_reseller env id req w = (res, w') ->
  (db w' = db w /\ reseller w' = reseller w /\ exists e, res = Raise e)
  \/ (exists u p b resp w1,
         modification_quote env w id req = Ok (u, p, b)
         /\ modification_unfunded (reseller w) (b_cost b) = false
         /\ remote_update env p u (b_payload b) w = (Ok resp, w1)
         /\ commit_fault env = None
         /\ commit_modification env p u req b resp w1 = (res, w')
         /\ db w1 = db w /\ reseller w1 = reseller w).
Proof.
  unfold modify_marzban_user_for_reseller, bind. intros H.
  destruct (modify_remote_phase env id req w) as [[x|e] w1] eqn:Hp.
  2:{ injection H as <- <-.
      apply modify_remote_phase_local in Hp as [-> ->]. left. eauto. }
  pose proof (modify_remote_phase_local _ _ _ _ _ _ Hp) as [Hd Hr].
  destruct (modification_quote env w id req) as [[[u p] b]|e] eqn:Hq.
  2:{ rewrite (modify_raises_phase_quote _ _ _ _ _ Hq) in Hp. discriminate. }
  rewrite (modify_remote_phase_quoted _ _ _ _ _ _ _ Hq) in Hp.
  destruct (_ && is_none _); [discriminate|].
  destruct (modification_unfunded (reseller w) (b_cost b)) eqn:Hb; [discriminate|].
  destruct (remote_update env p u (b_payload b) w) as [[resp|e] w2] eqn:Hu;
    [|discriminate].
  injection Hp as <- <-.
  destruct (commit_fault env) eqn:Hf.
  - unfold commit_modification in H. rewrite Hf in H. injection H as <- <-.
    left. eauto.
  - right. exists u, p, b, resp, w2. repeat split; auto.
Qed.





(** ** The wallet and the ledger *)

Lemma ledger_total_cons rid t txs :
  ledger_total rid (t :: txs)
  = (if tx_reseller_id t =? rid then amount t else 0) + ledger_total rid txs.
Proof.
  unfold ledger_total. cbn [fold_right].
  destruct (tx_reseller_id t =? rid); lia.
Qed.

(** X5.  The wallet moves only together with the ledger.  Across any run of
    [create_marzban_user_for_reseller] or [modify_marzban_user_for_reseller],
    successful or not, the difference between the reseller's balance and the
    sum of the reseller's ledger entries is unchanged, and so is the
    reseller's id. *)
Theorem wallet_moves_only_with_the_ledger :
  forall callee env w,
    (forall req res w',
        create_marzban_user_for_reseller callee env req w = (res, w') ->
        unaccounted w' = unaccounted w
        /\ reseller_id (reseller w') = reseller_id (reseller w))
    /\ (forall id req res w',
           modify_marzban_user_for_reseller env id req w = (res, w') ->
           unaccounted w' = unaccounted w
           /\ reseller_id (reseller w') = reseller_id (reseller w)).
Proof.
  intros callee env w. split.
  - intros req res w' H.
    apply create_outcomes in H
      as [(Hd & Hr & _)
         | (p & rp & c & pl & resp & un & _ & _ & _ & _ & Hr & Hd)].
    + unfold unaccounted. rewrite Hd, Hr. auto.
    + unfold unaccounted. rewrite Hd, Hr.
      cbn [debit reseller_id wallet_balance insert_transaction transactions
           insert_user].
      rewrite ledger_total_cons. cbn [tx_reseller_id amount].
      rewrite Z.eqb_refl. split; [lia | reflexivity].
  - intros id req res w' H.
    apply modify_outcomes in H
      as [(Hd & Hr & _)
         | (u & p & b & resp & w1 & _ & _ & _ & _ & Hc & Hd & Hr)].
    + unfold unaccounted. rewrite Hd, Hr. auto.
    + apply commit_modification_cases in Hc
        as [(_ & _ & Hr' & Ht & _) | (e & _ & _ & ->)].
      * unfold unaccounted. rewrite Hr', Ht, Hd, Hr.
        destruct (0 <? b_cost b).
        -- cbn [debit reseller_id wallet_balance].
           rewrite ledger_total_cons. cbn [tx_reseller_id amount].
           rewrite Z.eqb_refl. split; [lia | reflexivity].
        -- auto.
      * unfold unaccounted. rewrite Hd, Hr. auto.
Qed.

Lemma wallet_moves_only_with_the_ledger_witness :
  unaccounted (snd (modify_marzban_user_for_reseller
                      (sample_env None []) 5 extend30 renewal_world))
  = unaccounted renewal_world
  /\ wallet_balance
       (reseller (snd (modify_marzban_user_for_reseller
                         (sample_env None []) 5 extend30 renewal_world)))
     <> wallet_balance (reseller renewal_world).
Proof.
  split.
  - exact (proj1 (proj2 (wallet_moves_only_with_the_ledger
                           panel_creates (sample_env None []) renewal_world)
                        5 extend30 _ _ (surjective_pairing _))).
  - vm_compute. discriminate.
Defined.

(** ** What a modification buys *)

(** The billing of lines 184-258 in terms of the request. *)
Lemma billing_flags env d u rp req b :
  billing env d u rp req = Ok b ->
  b_set_data b = negb (is_none (ur_data_limit_gb req))
  /\ match ur_expire_days_to_add req with
     | Some _ =>
         exists r plan,
           rp = Some r /\ pricing_plan d r = Some plan
           /\ b_added b = Some (plan_name plan)
     | None => b_added b = None
     end
  /\ (ur_data_limit_gb req = None -> ur_expire_days_to_add req = None ->
      b_cost b = 0
      /\ b_payload b = mkPayload None None (ur_proxies req) (ur_inbounds req)).
Proof.
  unfold billing, data_limit_step, expire_step, config_step, no_billing.
  intros H.
  repeat (destruct_match_in H; try discriminate H);
    injection H as <-; cbn.
  all: split; [reflexivity|]; split.
  all: try reflexivity; eauto.
  all: intros Hdata Hdays; try discriminate; split; reflexivity.
Qed.

Lemma cons_neq {A} (x : A) l : l <> x :: l.
Proof.
  intros H. apply (f_equal (@List.length A)) in H. cbn in H. lia.
Qed.

(** The ledger entry of a modification that wrote one. *)
Lemma charged_modification_entry env id req w row w' tx :
  modify_marzban_user_for_reseller env id req w = (Ok row, w') ->
  transactions (db w') = tx :: transactions (db w) ->
  exists u p b,
    modification_quote env w id req = Ok (u, p, b)
    /\ 0 < b_cost b
    /\ tx = mkTx (reseller_id (reseller w)) (modification_transaction_type b)
                 (- b_cost b) (Some (mu_id u))
                 (b_pricing_plan_id_for_tx b) (b_reseller_pricing_id_for_tx b)
    /\ marzban_panel_id row = marzban_panel_id u.
Proof.
  intros H Htx.
  apply modify_outcomes in H
    as [(_ & _ & e & He)
       | (u & p & b & resp & w1 & Hq & _ & _ & Hf & Hc & Hd & Hr)];
    [discriminate He|].
  unfold commit_modification in Hc. rewrite Hf in Hc.
  injection Hc as <- <-. cbn [db transactions marzban_panel_id] in Htx |- *.
  rewrite Hd, Hr in Htx.
  destruct (0 <? b_cost b) eqn:Hcost.
  2:{ cbn in Htx. exfalso. exact (cons_neq _ _ Htx). }
  cbn in Htx. injection Htx as <-. apply Z.ltb_lt in Hcost.
  exists u, p, b. auto.
Qed.

(** X6.  When a successful modification writes a ledger entry, the entry's
    type says what was bought: [user_data_topup_cost] for a new data limit
    alone, [user_data_renew_cost] for a data limit together with more days,
    and for more days alone [user_renewal_cost], unless the name of the
    renewal plan itself contains the text [Set data to], in which case the
    entry is typed [user_data_renew_cost].  The generic
    [user_config_change_cost] is never written. *)
Theorem charged_modification_is_typed_by_what_it_bought :
  forall env id req w row w' tx,
    modify_marzban_user_for_reseller env id req w = (Ok row, w') ->
    transactions (db w') = tx :: transactions (db w) ->
    transaction_type tx <> "user_config_change_cost"
    /\ match ur_data_limit_gb req, ur_expire_days_to_add req with
       | Some _, Some _ => transaction_type tx = "user_data_renew_cost"
       | Some _, None => transaction_type tx = "user_data_topup_cost"
       | None, Some _ =>
           exists p plan,
             get_panel (db w) (marzban_panel_id row) = Some p
             /\ renewal_plan w p = Some plan
             /\ transaction_type tx
                = if contains "Set data to" (plan_name plan)
                  then "user_data_renew_cost" else "user_renewal_cost"
       | None, None => False
       end.
Proof.
  intros env id req w row w' tx H Htx.
  destruct (charged_modification_entry _ _ _ _ _ _ _ H Htx)
    as (u & p & b & Hq & Hcost & -> & Hrow).
  apply modification_quote_inv in Hq as (_ & Hp & Hb).
  apply billing_flags in Hb as (Hset & Hadd & Hfree).
  rewrite Hrow. cbn [transaction_type].
  unfold modification_transaction_type. rewrite Hset.
  destruct (ur_data_limit_gb req) as [gb|], (ur_expire_days_to_add req) as [days|];
    cbn [is_none negb orb].
  - destruct Hadd as (r & plan & _ & _ & ->). cbn. split; [discriminate | reflexivity].
  - rewrite Hadd. cbn. split; [discriminate | reflexivity].
  - destruct Hadd as (r & plan & Hrp & Hplan & ->). cbn [is_none negb andb].
    split.
    + destruct (contains "Set data to" (plan_name plan)); discriminate.
    + exists p, plan. split; [assumption|]. split.
      * unfold renewal_plan. rewrite Hrp. exact Hplan.
      * destruct (contains "Set data to" (plan_name plan)); reflexivity.
  - destruct (Hfree eq_refl eq_refl) as [Hzero _]. lia.
Qed.

Lemma charged_modification_is_typed_by_what_it_bought_witness :
  exists tx,
    transactions
      (db (snd (modify_marzban_user_for_reseller (sample_env None []) 5
                  data_and_days
                  (sample_world [both_pricing] None 10000 false))))
    = [tx]
    /\ transaction_type tx = "user_data_renew_cost"
    /\ amount tx = -3500.
Proof.
  eexists. split; [vm_compute; reflexivity|].
  split; [|reflexivity].
  refine (proj2 (charged_modification_is_typed_by_what_it_bought
                   (sample_env None []) 5 data_and_days
                   (sample_world [both_pricing] None 10000 false) _ _ _ _ _)).
  - vm_compute. reflexivity.
  - vm_compute. reflexivity.
Defined.

(** X7.  Proxies, inbounds and notes are free.  A modification that asks
    for neither a data limit nor more days never touches the wallet or the
    ledger and never raises the insufficient-balance error, whatever the
    balance is; when it only sets the note, it makes no call to the panel
    either. *)
Theorem settings_and_notes_are_free :
  forall env id req w res w',
    ur_data_limit_gb req = None ->
    ur_expire_days_to_add req = None ->
    modify_marzban_user_for_reseller env id req w = (res, w') ->
    reseller w' = reseller w
    /\ transactions (db w') = transactions (db w)
    /\ (forall a b,
           res <> Raise (MarzbanUserServiceError
                           (InsufficientBalanceForModification a b)))
    /\ (ur_proxies req = None -> ur_inbounds req = None ->
        remote_log w' = remote_log w).
Proof.
  intros env id req w res w' Hdata Hdays H.
  assert (Hfunds : forall a b,
             res <> Raise (MarzbanUserServiceError
                             (InsufficientBalanceForModification a b))).
  { intros a b Hres.
    destruct (modify_insufficient_inv _ _ _ _ _ _ _ _ H Hres)
      as (u & p & bl & Hq & _ & Hpos & _).
    apply modification_quote_inv in Hq as (_ & _ & Hb).
    apply billing_flags in Hb as (_ & _ & Hfree).
    destruct (Hfree Hdata Hdays) as [Hzero _]. lia. }
  destruct (modification_quote env w id req) as [[[u p] b]|e] eqn:Hq.
  2:{ unfold modify_marzban_user_for_reseller in H.
      erewrite bind_raise in H by (apply modify_raises_phase_quote; eassumption).
      injection H as <- <-. auto. }
  pose proof Hq as Hq'.
  apply modification_quote_inv in Hq' as (_ & _ & Hb).
  apply billing_flags in Hb as (_ & _ & Hfree).
  destruct (Hfree Hdata Hdays) as [Hzero Hpay].
  unfold modify_marzban_user_for_reseller, bind in H.
  rewrite (modify_remote_phase_quoted _ _ _ _ _ _ _ Hq) in H.
  destruct (_ && is_none _); [injection H as <- <-; auto|].
  destruct (modification_unfunded _ _); [injection H as <- <-; auto|].
  destruct (remote_update env p u (b_payload b) w) as [[resp|e] w1] eqn:Hu.
  - apply remote_update_cases in Hu as (Hd & Hr & _ & Hempty).
    apply commit_modification_cases in H
      as [(_ & _ & Hr' & Ht & Hlog) | (e & _ & _ & ->)].
    + rewrite Hzero in Hr', Ht. cbn in Hr', Ht.
      split; [congruence|]. split; [congruence|]. split; [assumption|].
      intros Hpx Hin. rewrite Hpay, Hpx, Hin in Hempty.
      destruct (Hempty eq_refl) as [_ ->]. exact Hlog.
    + split; [assumption|]. split; [now rewrite Hd|]. split; [assumption|].
      intros Hpx Hin. rewrite Hpay, Hpx, Hin in Hempty.
      destruct (Hempty eq_refl) as [_ ->]. reflexivity.
  - injection H as <- <-.
    apply remote_update_cases in Hu as (Hd & Hr & _ & Hempty).
    split; [assumption|]. split; [now rewrite Hd|]. split; [assumption|].
    intros Hpx Hin. rewrite Hpay, Hpx, Hin in Hempty.
    destruct (Hempty eq_refl) as [[=] _].
Qed.

Lemma settings_and_notes_are_free_witness :
  let run := modify_marzban_user_for_reseller (sample_env None []) 5 note_only
               overdrawn_world in
  reseller (snd run) = reseller overdrawn_world
  /\ transactions (db (snd run)) = transactions (db overdrawn_world)
  /\ (forall a b,
         fst run <> Raise (MarzbanUserServiceError
                             (InsufficientBalanceForModification a b)))
  /\ (ur_proxies note_only = None -> ur_inbounds note_only = None ->
      remote_log (snd run) = remote_log overdrawn_world).
Proof.
  exact (settings_and_notes_are_free (sample_env None []) 5 note_only
           overdrawn_world _ _ eq_refl eq_refl (surjective_pairing _)).
Defined.

(** ** Rows and owners *)

Lemma save_user_length row us :
  List.length (save_user row us) = List.length us.
Proof. unfold save_user. apply length_map. Qed.

Lemma save_user_others row us v :
  In v us -> mu_id v <> mu_id row -> In v (save_user row us).
Proof.
  unfold save_user. intros Hin Hid. apply in_map_iff. exists v.
  split; [|assumption].
  destruct (mu_id v =? mu_id row) eqn:E; [|reflexivity].
  apply Z.eqb_eq in E. contradiction.
Qed.

Lemma save_user_in row us v :
  In v (save_user row us) -> v = row \/ In v us.
Proof.
  unfold save_user. intros Hin. apply in_map_iff in Hin as (x & Hx & Hin).
  destruct (mu_id x =? mu_id row); subst; auto.
Qed.

(** X8.  A successful modification rewrites one mirror row and nothing else
    of the database's user and catalogue tables.  The row it returns is the
    row of the reseller with the requested id: id, username, panel, owner and
    origin flag are unchanged, the note is replaced only when the request
    carries one, every other row is kept as it was, and no row is added or
    removed. *)
Theorem modification_rewrites_only_its_row :
  forall env id req w row w',
    modify_marzban_user_for_reseller env id req w = (Ok row, w') ->
    exists u,
      get_marzban_user_for_reseller (db w) id (reseller_id (reseller w)) = Some u
      /\ row_identity row = row_identity u
      /\ mu_id row = id
      /\ mu_reseller_id row = reseller_id (reseller w)
      /\ notes row = match ur_note req with
                     | Some n => Some n
                     | None => notes u
                     end
      /\ same_catalogue (db w) (db w')
      /\ List.length (marzban_users (db w')) = List.length (marzban_users (db w))
      /\ (forall v, In v (marzban_users (db w)) -> mu_id v <> id ->
                    In v (marzban_users (db w')))
      /\ (forall v, In v (marzban_users (db w')) ->
                    v = row \/ In v (marzban_users (db w))).
Proof.
  intros env id req w row w' H.
  apply modify_outcomes in H
    as [(_ & _ & e & He)
       | (u & p & b & resp & w1 & Hq & _ & _ & Hf & Hc & Hd & Hr)];
    [discriminate He|].
  apply modification_quote_inv in Hq as (Hu & _ & _).
  pose proof Hu as Hfound.
  unfold get_marzban_user_for_reseller in Hfound.
  apply find_some in Hfound as [_ Hkey].
  apply andb_true_iff in Hkey as [Hid Hrid].
  apply Z.eqb_eq in Hid. apply Z.eqb_eq in Hrid.
  unfold commit_modification in Hc. rewrite Hf in Hc.
  injection Hc as <- <-. rewrite Hd.
  exists u. unfold row_identity, same_catalogue.
  cbn [mu_id marzban_username marzban_panel_id mu_reseller_id
       created_by_new_panel notes db].
  split; [assumption|]. split; [reflexivity|]. split; [assumption|].
  split; [assumption|]. split; [reflexivity|].
  set (row := mkUser _ _ _ _ _ _ _ _).
  assert (Hrow : mu_id row = id) by exact Hid.
  destruct (0 <? b_cost b);
    cbn [set_users insert_transaction marzban_panels pricing_plans
         reseller_pricings marzban_users];
    (split; [auto|]; split; [apply save_user_length|]; split;
     [ intros v Hv Hne; apply save_user_others; [assumption | congruence]
     | intros v Hv; now apply save_user_in ]).
Qed.

Lemma modification_rewrites_only_its_row_witness :
  exists row w' u,
    modify_marzban_user_for_reseller (sample_env None []) 5 note_only
      overdrawn_world = (Ok row, w')
    /\ get_marzban_user_for_reseller (db overdrawn_world) 5 1 = Some u
    /\ row_identity row = row_identity u
    /\ notes row = Some "vip".
Proof.
  eexists _, _. 
  edestruct (modification_rewrites_only_its_row (sample_env None []) 5 note_only
               overdrawn_world) as (u & Hu & Hi & _ & _ & Hn & _).
  - vm_compute. reflexivity.
  - exists u. split; [reflexivity|]. split; [exact Hu|]. split; [exact Hi|].
    exact Hn.
Defined.

(** X9.  A reseller cannot modify a user that is not theirs.  When no mirror
    row has both the requested id and the caller's reseller id,
    [modify_marzban_user_for_reseller] raises "Marzban user not found or does
    not belong to this reseller." at once: the world it leaves is the world
    it found, so no token is requested and no PATCH reaches the panel. *)
Theorem foreign_user_is_rejected_before_any_call :
  forall env id req w,
    (forall u, In u (marzban_users (db w)) -> mu_id u = id ->
               mu_reseller_id u <> reseller_id (reseller w)) ->
    modify_marzban_user_for_reseller env id req w
    = (Raise (MarzbanUserServiceError UserNotFoundOrForeign), w).
Proof.
  intros env id req w Hforeign.
  unfold modify_marzban_user_for_reseller.
  erewrite bind_raise; [reflexivity|].
  apply modify_raises_phase_quote. unfold modification_quote.
  destruct (get_marzban_user_for_reseller (db w) id (reseller_id (reseller w)))
    as [u|] eqn:Hu; [|reflexivity].
  exfalso. unfold get_marzban_user_for_reseller in Hu.
  apply find_some in Hu as [Hin Hkey].
  apply andb_true_iff in Hkey as [Hid Hrid].
  apply Z.eqb_eq in Hid. apply Z.eqb_eq in Hrid.
  exact (Hforeign u Hin Hid Hrid).
Qed.

Lemma foreign_user_is_rejected_before_any_call_witness :
  modify_marzban_user_for_reseller (sample_env None []) 5 extend30 stranger_world
  = (Raise (MarzbanUserServiceError UserNotFoundOrForeign), stranger_world).
Proof.
  apply foreign_user_is_rejected_before_any_call.
  intros u [<- | []] _. vm_compute. discriminate.
Defined.

(** ** What a synchronisation writes *)

(** The loop writes to the mirror table only, and adds as many rows as it
    counts. *)
Lemma sync_loop_frame env r panel : forall api_users i d s,
  let d' := fst (sync_loop env r panel i api_users d s) in
  let s' := snd (sync_loop env r panel i api_users d s) in
  transactions d' = transactions d
  /\ same_catalogue d d'
  /\ Z.of_nat (List.length (marzban_users d')) - newly_added_count s'
     = Z.of_nat (List.length (marzban_users d)) - newly_added_count s.
Proof.
  unfold same_catalogue.
  induction api_users as [|user_data rest IH]; intros i d s.
  - cbn. auto.
  - cbn [sync_loop].
    destruct (truthy (au_username user_data)) as [username|].
    + destruct (item_fault env i).
      * cbn. auto.
      * destruct (get_marzban_user_by_username_and_panel d username (panel_id panel))
          as [db_user|].
        -- specialize (IH (S i) (update_marzban_user_from_api_data env d db_user user_data)
                          (count_updated s)).
           cbv zeta in IH. destruct IH as (Ht & (H1 & H2 & H3) & Hn).
           unfold update_marzban_user_from_api_data, set_users in *.
           cbn [transactions marzban_panels pricing_plans reseller_pricings
                marzban_users count_updated newly_added_count] in *.
           rewrite save_user_length in Hn. auto.
        -- specialize (IH (S i) (insert_user d (synced_row env r panel username user_data))
                          (count_added s)).
           cbv zeta in IH. destruct IH as (Ht & (H1 & H2 & H3) & Hn).
           unfold insert_user in *.
           cbn [transactions marzban_panels pricing_plans reseller_pricings
                marzban_users count_added newly_added_count] in *.
           rewrite length_app in Hn. cbn [List.length] in Hn.
           repeat split; auto; lia.
    + specialize (IH (S i) d (add_error s (MissingUsername user_data))).
      cbv zeta in IH. cbn [add_error newly_added_count] in IH. exact IH.
Qed.

Lemma map_save_user_stable (row db_user : MarzbanUser) us :
  NoDup (map mu_id us) -> In db_user us ->
  stable_columns row = stable_columns db_user ->
  map stable_columns (save_user row us) = map stable_columns us.
Proof.
  intros Hnd Hin Hstable. unfold save_user. rewrite map_map.
  apply map_ext_in. intros v Hv.
  destruct (mu_id v =? mu_id row) eqn:E; [|reflexivity].
  apply Z.eqb_eq in E.
  assert (Hid : mu_id row = mu_id db_user).
  { unfold stable_columns, row_identity in Hstable. congruence. }
  rewrite Hid in E.
  pose proof (NoDup_map_injective mu_id us v db_user Hnd Hv Hin E) as ->.
  exact Hstable.
Qed.

Lemma firstn_map {A B} (f : A -> B) n l :
  firstn n (map f l) = map f (firstn n l).
Proof.
  revert l. induction n as [|n IH]; intros [|a l]; cbn; try reflexivity.
  now rewrite IH.
Qed.

Lemma skipn_map {A B} (f : A -> B) n l :
  skipn n (map f l) = map f (skipn n l).
Proof.
  revert l. induction n as [|n IH]; intros [|a l]; cbn; try reflexivity.
  apply IH.
Qed.

Lemma In_skipn {A} n (l : list A) x : In x (skipn n l) -> In x l.
Proof.
  revert l. induction n as [|n IH]; intros [|a l]; cbn; auto.
Qed.

(** The loop keeps the stable columns of the first [n] rows, and the rows
    after them stay rows imported for this reseller and panel. *)
Lemma sync_loop_rows env r panel n : forall api_users i d s,
  Forall (fun data => au_creator_admin_id data = Some (marzban_admin_id r)) api_users ->
  primary_keys_ok d ->
  (n <= List.length (marzban_users d))%nat ->
  Forall (imported_by r panel) (skipn n (marzban_users d)) ->
  let d' := fst (sync_loop env r panel i api_users d s) in
  map stable_columns (firstn n (marzban_users d'))
  = map stable_columns (firstn n (marzban_users d))
  /\ Forall (imported_by r panel) (skipn n (marzban_users d')).
Proof.
  induction api_users as [|user_data rest IH]; intros i d s Hmine Hwf Hn Himp.
  - cbn. auto.
  - cbn [sync_loop]. inversion Hmine as [|? ? Hcreator Hmine']; subst.
    destruct (truthy (au_username user_data)) as [username|] eqn:Hname.
    2:{ apply IH; assumption. }
    destruct (item_fault env i); [cbn; auto|].
    destruct (get_marzban_user_by_username_and_panel d username (panel_id panel))
      as [db_user|] eqn:Hfind.
    + destruct (update_keeps_keys env d db_user user_data _ _ Hwf Hfind)
        as [Hwf1 _].
      pose proof Hfind as Hfound.
      unfold get_marzban_user_by_username_and_panel in Hfound.
      apply find_some in Hfound as [Hin Hkey].
      apply andb_true_iff in Hkey as [Huname Hpanel].
      apply String.eqb_eq in Huname. apply Z.eqb_eq in Hpanel.
      destruct Hwf as [Hnd Hlt].
      set (d1 := update_marzban_user_from_api_data env d db_user user_data) in *.
      assert (Husers : marzban_users d1
                       = save_user (mkUser (mu_id db_user) (marzban_username db_user)
                                      (marzban_panel_id db_user) (mu_reseller_id db_user)
                                      (created_by_new_panel db_user) (notes db_user)
                                      (Some user_data) (utcnow env 47))
                                   (marzban_users d)) by reflexivity.
      set (row := mkUser _ _ _ _ _ _ _ _) in Husers.
      assert (Hstable : map stable_columns (marzban_users d1)
                        = map stable_columns (marzban_users d)).
      { rewrite Husers. eapply map_save_user_stable; eauto. }
      specialize (IH (S i) d1 (count_updated s) Hmine' Hwf1).
      cbv zeta in IH. destruct IH as [IH1 IH2].
      * rewrite <- (length_map stable_columns), Hstable, length_map. exact Hn.
      * rewrite Husers. unfold save_user. rewrite skipn_map.
        apply Forall_forall. intros v Hv.
        apply in_map_iff in Hv as (x & Hx & Hxin).
        rewrite Forall_forall in Himp.
        destruct (mu_id x =? mu_id row) eqn:E; [|subst; now apply Himp].
        apply Z.eqb_eq in E. cbn [row mu_id] in E.
        pose proof (NoDup_map_injective mu_id _ x db_user Hnd
                      (In_skipn _ _ _ Hxin) Hin E) as ->.
        specialize (Himp db_user Hxin) as (H1 & H2 & H3 & _).
        subst v. unfold imported_by. cbn.
        repeat split; auto. exists user_data. rewrite Huname. auto.
      * split; [|assumption]. rewrite IH1.
        rewrite <- !firstn_map, Hstable. reflexivity.
    + destruct (insert_keeps_keys d (synced_row env r panel username user_data)
                  Hwf (fun id => eq_refl)) as [Hwf1 _].
      set (d1 := insert_user d (synced_row env r panel username user_data)) in *.
      assert (Husers : marzban_users d1
                       = (marzban_users d
                          ++ [synced_row env r panel username user_data
                                (next_user_id d)])%list) by reflexivity.
      specialize (IH (S i) d1 (count_added s) Hmine' Hwf1).
      cbv zeta in IH. destruct IH as [IH1 IH2].
      * rewrite Husers, length_app. lia.
      * rewrite Husers, skipn_app. apply Forall_app. split; [assumption|].
        replace (n - List.length (marzban_users d))%nat with 0%nat by lia.
        cbn [skipn]. constructor; [|constructor].
        unfold imported_by, synced_row. cbn. repeat split; auto.
        exists user_data. auto.
      * split; [|assumption]. rewrite IH1, Husers, firstn_app.
        replace (n - List.length (marzban_users d))%nat with 0%nat by lia.
        cbn [firstn]. now rewrite app_nil_r.
Qed.

Lemma listed_users_are_the_admins env url token admin api_users :
  get_marzban_users env url token (Some admin) = Returned api_users ->
  Forall (fun data => au_creator_admin_id data = Some admin) api_users.
Proof.
  unfold get_marzban_users. destruct (panel_users env url token); try discriminate.
  intros [= <-]. apply Forall_forall. intros u Hu.
  apply filter_In in Hu as [_ Hc].
  destruct (au_creator_admin_id u) as [c|]; [|discriminate].
  apply Z.eqb_eq in Hc. now subst.
Qed.

(** The shapes a run of the synchronisation can take. *)
Lemma sync_outcomes env panel w res w' :
  sync_marzban_users_for_reseller_panel env panel w = (res, w') ->
  reseller w' = reseller w
  /\ ((db w' = db w
       /\ forall s, res = Ok s -> newly_added_count s = 0)
      \/ exists api_users,
           Forall (fun data => au_creator_admin_id data
                               = Some (marzban_admin_id (reseller w))) api_users
           /\ db w' = fst (sync_loop env (reseller w) panel 0 api_users (db w)
                             (mkSummary (panel_id panel) (reseller_id (reseller w))
                                (marzban_admin_id (reseller w))
                                (Z.of_nat (List.length api_users)) 0 0 []))
           /\ res = Ok (snd (sync_loop env (reseller w) panel 0 api_users (db w)
                               (mkSummary (panel_id panel) (reseller_id (reseller w))
                                  (marzban_admin_id (reseller w))
                                  (Z.of_nat (List.length api_users)) 0 0 [])))).
Proof.
  unfold sync_marzban_users_for_reseller_panel. cbv zeta. intros H.
  destruct (truthy (get_panel_decrypted_password env (db w) (panel_id panel)));
    [|injection H as <- <-; split; [reflexivity|]; left; split;
      [reflexivity | intros ? [=]]].
  destruct (get_marzban_access_token env _ _ _) as [tok| |];
    try (injection H as <- <-; split; [reflexivity|]; left; split;
         [reflexivity | intros ? [= <-]; reflexivity]).
  destruct (truthy tok) as [token|];
    [|injection H as <- <-; split; [reflexivity|]; left; split;
      [reflexivity | intros ? [= <-]; reflexivity]].
  destruct (get_marzban_users env (api_url panel) token
              (Some (marzban_admin_id (reseller w)))) as [api_users| |] eqn:Hlist;
    try (injection H as <- <-; split; [reflexivity|]; left; split;
         [reflexivity | intros ? [= <-]; reflexivity]).
  apply listed_users_are_the_admins in Hlist.
  unfold set_total in H.
  cbn [synced_panel_id summary_reseller_id reseller_marzban_admin_id
       newly_added_count updated_count errors] in H.
  destruct (sync_loop _ _ _ _ _ _ _) as [d' s'] eqn:Hloop.
  injection H as <- <-. split; [reflexivity|]. right.
  exists api_users. split; [assumption|].
  unfold set_total in Hloop.
  cbn [synced_panel_id summary_reseller_id reseller_marzban_admin_id
       newly_added_count updated_count errors] in Hloop.
  rewrite Hloop. auto.
Qed.

(** X10.  A synchronisation never bills and never drops a row.  Whatever
    [sync_marzban_users_for_reseller_panel] returns or raises, the reseller's
    row (wallet included), the ledger and the panel, plan and pricing tables
    are as before; and, when the mirror table had sound primary keys, every
    row that was there is still there, at its place, with its id, username,
    panel, owner, origin flag and notes: a user that vanished from the
    panel keeps its row, and a row owned by another reseller stays theirs
    even when the panel lists its username for the syncing reseller. *)
Theorem sync_never_bills_and_never_drops_a_row :
  forall env panel w res w',
    sync_marzban_users_for_reseller_panel env panel w = (res, w') ->
    reseller w' = reseller w
    /\ transactions (db w') = transactions (db w)
    /\ same_catalogue (db w) (db w')
    /\ (primary_keys_ok (db w) ->
        map stable_columns
            (firstn (List.length (marzban_users (db w))) (marzban_users (db w')))
        = map stable_columns (marzban_users (db w))).
Proof.
  intros env panel w res w' H.
  apply sync_outcomes in H as [Hr [[Hd _] | (api_users & Hmine & Hd & _)]].
  - rewrite Hd. unfold same_catalogue. repeat split; auto.
    intros _. now rewrite firstn_all.
  - split; [assumption|].
    destruct (sync_loop_frame env (reseller w) panel api_users 0 (db w)
                (mkSummary (panel_id panel) (reseller_id (reseller w))
                   (marzban_admin_id (reseller w))
                   (Z.of_nat (List.length api_users)) 0 0 []))
      as (Ht & Hc & _).
    rewrite Hd. split; [assumption|]. split; [assumption|].
    intros Hwf.
    destruct (sync_loop_rows env (reseller w) panel
                (List.length (marzban_users (db w))) api_users 0 (db w)
                (mkSummary (panel_id panel) (reseller_id (reseller w))
                   (marzban_admin_id (reseller w))
                   (Z.of_nat (List.length api_users)) 0 0 [])
                Hmine Hwf (Nat.le_refl _)) as [Hs _].
    { rewrite skipn_all. constructor. }
    rewrite Hs, firstn_all. reflexivity.
Qed.

Lemma sync_never_bills_and_never_drops_a_row_witness :
  let w := sample_world [plan_pricing] (Some 1699913600) 10000 false in
  let w' := snd (sync_marzban_users_for_reseller_panel
                   (sample_env None mixed_listing) panel1 w) in
  reseller w' = reseller w
  /\ transactions (db w') = transactions (db w)
  /\ same_catalogue (db w) (db w')
  /\ (primary_keys_ok (db w) ->
      map stable_columns
          (firstn (List.length (marzban_users (db w))) (marzban_users (db w')))
      = map stable_columns (marzban_users (db w))).
Proof.
  exact (sync_never_bills_and_never_drops_a_row
           (sample_env None mixed_listing) panel1
           (sample_world [plan_pricing] (Some 1699913600) 10000 false)
           _ _ (surjective_pairing _)).
Defined.



(** X12.  A synchronisation imports only the reseller's own users.  On a
    mirror table with sound primary keys, every row that
    [sync_marzban_users_for_reseller_panel] adds belongs to the syncing
    reseller and to the synced panel, is flagged as not created by this
    system, and holds a record of the panel whose [creator_admin_id] is the
    reseller's [marzban_admin_id] and whose username is the row's: users
    that another admin created on the same panel are never mirrored. *)
Theorem sync_imports_only_the_resellers_own_users :
  forall env panel w res w',
    primary_keys_ok (db w) ->
    sync_marzban_users_for_reseller_panel env panel w = (res, w') ->
    Forall (imported_by (reseller w) panel)
           (skipn (List.length (marzban_users (db w))) (marzban_users (db w'))).
Proof.
  intros env panel w res w' Hwf H.
  apply sync_outcomes in H as [_ [[Hd _] | (api_users & Hmine & Hd & _)]].
  - rewrite Hd, skipn_all. constructor.
  - rewrite Hd.
    apply (sync_loop_rows env (reseller w) panel
             (List.length (marzban_users (db w))) api_users 0 (db w) _
             Hmine Hwf (Nat.le_refl _)).
    rewrite skipn_all. constructor.
Qed.

Lemma sync_imports_only_the_resellers_own_users_witness :
  let w := sample_world [plan_pricing] None 10000 false in
  let w' := snd (sync_marzban_users_for_reseller_panel
                   (sample_env None
                      (mkApiUser (Some "eve") (Some 99) None "" :: mixed_listing))
                   panel1 w) in
  map marzban_username (marzban_users (db w')) = ["alice"; "carol"; "dave"]
  /\ Forall (imported_by (reseller w) panel1)
            (skipn (List.length (marzban_users (db w))) (marzban_users (db w'))).
Proof.
  split; [vm_compute; reflexivity|].
  assert (Hwf : primary_keys_ok (db (sample_world [plan_pricing] None 10000 false))).
  { split.
    - cbn. constructor; [intros [] | constructor].
    - cbn. constructor; [reflexivity | constructor]. }
  exact (sync_imports_only_the_resellers_own_users
           (sample_env None
              (mkApiUser (Some "eve") (Some 99) None "" :: mixed_listing))
           panel1 (sample_world [plan_pricing] None 10000 false) _ _ Hwf
           (surjective_pairing _)).
Defined.

(** ** Administration of pricing *)

Lemma panel_is_eq pid rp : panel_is pid rp = true <-> rp_marzban_panel_id rp = pid.
Proof.
  destruct pid as [p|]; [apply panel_is_some | apply panel_is_none].
Qed.

Lemma same_scope_iff rid pid rp : same_scope rid pid rp = true <-> scope rp = (rid, pid).
Proof.
  unfold same_scope, scope. rewrite andb_true_iff, Z.eqb_eq, panel_is_eq.
  split; [intros [-> ->]; reflexivity | intros [= -> ->]; auto].
Qed.

Lemma same_scope_false rid pid rp : same_scope rid pid rp = false <-> scope rp <> (rid, pid).
Proof.
  rewrite <- same_scope_iff. destruct (same_scope rid pid rp); split; congruence.
Qed.

Lemma no_row_in_scope rid pid l :
  find (same_scope rid pid) l = None <-> ~ In (rid, pid) (map scope l).
Proof.
  split.
  - intros Hnone Hin. apply in_map_iff in Hin as (rp & Hs & Hin).
    pose proof (find_none _ _ Hnone rp Hin) as Hf.
    apply same_scope_false in Hf. contradiction.
  - intros Hnot. destruct (find (same_scope rid pid) l) as [rp|] eqn:E; [|reflexivity].
    apply find_some in E as [Hin Hs]. apply same_scope_iff in Hs.
    exfalso. apply Hnot. rewrite <- Hs. now apply in_map.
Qed.

Lemma find_app {A} (f : A -> bool) l x :
  find f (l ++ [x])
  = match find f l with
    | Some y => Some y
    | None => if f x then Some x else None
    end.
Proof.
  induction l as [|a l IH]; cbn; [reflexivity|].
  destruct (f a); [reflexivity | exact IH].
Qed.

Lemma NoDup_snoc {A} (l : list A) x : NoDup l -> ~ In x l -> NoDup (l ++ [x]).
Proof.
  intros Hnd Hx. induction l as [|a l IH]; cbn.
  - constructor; [intros [] | constructor].
  - inversion Hnd; subst. constructor.
    + rewrite in_app_iff. cbn. intros [H|[H|[]]]; [contradiction|].
      apply Hx. now left.
    + apply IH; [assumption|]. intros H. apply Hx. now right.
Qed.

Lemma check_one_mechanism_ok plan custom :
  check_one_mechanism plan custom = Ok tt
  <-> (plan = None /\ custom <> None) \/ (plan <> None /\ custom = None).
Proof.
  unfold check_one_mechanism.
  destruct plan, custom; split; intros H; try discriminate; try reflexivity.
  - destruct H as [[[=] _] | [_ [=]]].
  - right. split; [discriminate | reflexivity].
  - left. split; [reflexivity | discriminate].
  - destruct H as [[_ H] | [H _]]; contradiction.
Qed.

Lemma commit_pricing_cases {A} env d d' rp (a : A) res d1 :
  commit_pricing env d d' rp a = (res, d1) ->
  (res = Ok a /\ d1 = d' /\ references_exist d rp = true /\ commit_fault env = None)
  \/ ((exists e, res = Raise e) /\ d1 = d).
Proof.
  unfold commit_pricing. intros H.
  destruct (references_exist d rp); cbn in H.
  - destruct (commit_fault env); injection H as <- <-; eauto.
  - injection H as <- <-. eauto.
Qed.

(** X13.  [create_reseller_pricing] keeps the pricing table sound.  A
    payload that names both a plan and a unit rate, or neither, is refused
    with [ValueError]; a payload for a scope (reseller and panel, or
    reseller and the generic configuration) that already has a row is
    refused with [IntegrityError]; and a call that ends in a [ValueError]
    or an [IntegrityError] leaves the database as it was.  A row that is
    created prices by exactly one mechanism and is appended for a scope that
    had none, so the table keeps one configuration per scope, generic ones
    included. *)
Theorem create_reseller_pricing_keeps_the_table_sound :
  forall env assigned_id d pricing_in res d',
    create_reseller_pricing env assigned_id d pricing_in = (res, d') ->
    match res with
    | Ok rp =>
        rp = mkPricing assigned_id (pc_reseller_id pricing_in)
                       (pc_pricing_plan_id pricing_in)
                       (pc_custom_price_per_gb pricing_in)
                       (pc_marzban_panel_id pricing_in)
        /\ one_mechanism rp
        /\ ~ In (scope rp) (map scope (reseller_pricings d))
        /\ reseller_pricings d' = (reseller_pricings d ++ [rp])%list
        /\ (one_config_per_scope d -> one_config_per_scope d')
        /\ (Forall one_mechanism (reseller_pricings d) ->
            Forall one_mechanism (reseller_pricings d'))
    | Raise e =>
        forall msg, e = ValueError msg \/ e = IntegrityError msg -> d' = d
    end
    /\ (pc_pricing_plan_id pricing_in <> None ->
        pc_custom_price_per_gb pricing_in <> None ->
        res = Raise (ValueError
                       "Cannot set both pricing_plan_id and custom_price_per_gb. Choose one."))
    /\ (pc_pricing_plan_id pricing_in = None ->
        pc_custom_price_per_gb pricing_in = None ->
        res = Raise (ValueError
                       "Either pricing_plan_id or custom_price_per_gb must be set."))
    /\ (In (pc_reseller_id pricing_in, pc_marzban_panel_id pricing_in)
           (map scope (reseller_pricings d)) ->
        check_one_mechanism (pc_pricing_plan_id pricing_in)
                            (pc_custom_price_per_gb pricing_in) = Ok tt ->
        res = Raise (already_configured (pc_marzban_panel_id pricing_in))).
Proof.
  intros env assigned_id d pricing_in res d' H.
  unfold create_reseller_pricing, _validate_pricing_input in H.
  destruct (check_one_mechanism (pc_pricing_plan_id pricing_in)
              (pc_custom_price_per_gb pricing_in)) as [[]|e] eqn:Hcheck.
  2:{ injection H as <- <-. split; [intros; reflexivity|].
      unfold check_one_mechanism in Hcheck.
      destruct (pc_pricing_plan_id pricing_in), (pc_custom_price_per_gb pricing_in);
        try discriminate Hcheck; injection Hcheck as <-;
        repeat split; try congruence; intros; discriminate. }
  apply check_one_mechanism_ok in Hcheck.
  assert (Hnot_both :
            (pc_pricing_plan_id pricing_in <> None ->
             pc_custom_price_per_gb pricing_in <> None -> False)
            /\ (pc_pricing_plan_id pricing_in = None ->
                pc_custom_price_per_gb pricing_in = None -> False)).
  { destruct Hcheck as [[H1 H2] | [H1 H2]]; split; congruence. }
  destruct Hnot_both as [Hboth Hneither].
  destruct (find _ (reseller_pricings d)) as [old|] eqn:Hfind.
  { injection H as <- <-. split; [intros; reflexivity|].
    split; [intros; exfalso; auto|]. split; [intros; exfalso; auto|]. auto. }
  pose proof (proj1 (no_row_in_scope _ _ _) Hfind) as Hfree.
  apply commit_pricing_cases in H as [(-> & -> & _ & _) | ([e ->] & ->)].
  - split.
    + split; [reflexivity|]. split; [exact Hcheck|]. split; [exact Hfree|].
      split; [reflexivity|]. split.
      * unfold one_config_per_scope. cbn [set_pricings reseller_pricings].
        intros Hnd. rewrite map_app. cbn [map]. now apply NoDup_snoc.
      * cbn [set_pricings reseller_pricings]. intros Hall.
        apply Forall_app. split; [assumption|]. constructor; [exact Hcheck|constructor].
    + split; [intros; exfalso; auto|]. split; [intros; exfalso; auto|].
      intros Hin. contradiction.
  - split; [intros; reflexivity|].
    split; [intros; exfalso; auto|]. split; [intros; exfalso; auto|].
    intros Hin. contradiction.
Qed.

Lemma create_reseller_pricing_keeps_the_table_sound_witness :
  exists rp d',
    create_reseller_pricing quiet_env 9 catalogue
      (mkPricingCreate 1 None (Some 300) (Some 2)) = (Ok rp, d')
    /\ one_mechanism rp
    /\ reseller_pricings d' = [plan_pricing; generic_pricing; rp]
    /\ fst (create_reseller_pricing quiet_env 10 d'
              (mkPricingCreate 1 (Some 7) None (Some 2)))
       = Raise (already_configured (Some 2))
    /\ fst (create_reseller_pricing quiet_env 10 d'
              (mkPricingCreate 1 None (Some 80) None))
       = Raise (already_configured None).
Proof.
  eexists _, _. split; [vm_compute; reflexivity|].
  pose proof (create_reseller_pricing_keeps_the_table_sound quiet_env 9 catalogue
                (mkPricingCreate 1 None (Some 300) (Some 2)) _ _
                (surjective_pairing _)) as [H _].
  vm_compute in H. destruct H as (_ & Hone & _ & Hrows & _).
  split; [exact Hone|]. split; [reflexivity|]. split; reflexivity.
Defined.

Lemma create_reseller_pricing_ok env assigned_id d pricing_in rp d' :
  create_reseller_pricing env assigned_id d pricing_in = (Ok rp, d') ->
  rp = mkPricing assigned_id (pc_reseller_id pricing_in)
                 (pc_pricing_plan_id pricing_in)
                 (pc_custom_price_per_gb pricing_in)
                 (pc_marzban_panel_id pricing_in)
  /\ find (same_scope (pc_reseller_id pricing_in) (pc_marzban_panel_id pricing_in))
          (reseller_pricings d) = None
  /\ reseller_pricings d' = (reseller_pricings d ++ [rp])%list.
Proof.
  unfold create_reseller_pricing. intros H.
  destruct (_validate_pricing_input _ _); [|discriminate].
  destruct (find _ (reseller_pricings d)) eqn:Hfind; [discriminate|].
  apply commit_pricing_cases in H as [([= <-] & -> & _) | ([e [=]] & _)].
  auto.
Qed.

Lemma active_pricing_unfold d rid pid :
  get_active_pricing_for_reseller d rid pid
  = match match pid with
          | Some p => find (same_scope rid (Some p)) (reseller_pricings d)
          | None => None
          end with
    | Some rp => Some rp
    | None => find (same_scope rid None) (reseller_pricings d)
    end.
Proof. reflexivity. Qed.

(** X14.  A created pricing configuration is the one that prices.  After a
    successful [create_reseller_pricing], [get_active_pricing_for_reseller]
    answers with the new row for the scope it was created for: for its
    panel when it is panel-specific, for the generic lookup and for every
    panel without a row of its own when it is generic.  Lookups for other
    resellers, and for the reseller's other panels after a panel-specific
    row was added, answer as before. *)
Theorem created_pricing_becomes_active :
  forall env assigned_id d pricing_in rp d',
    create_reseller_pricing env assigned_id d pricing_in = (Ok rp, d') ->
    match pc_marzban_panel_id pricing_in with
    | Some p =>
        get_active_pricing_for_reseller d' (pc_reseller_id pricing_in) (Some p)
        = Some rp
        /\ (forall q, q <> p ->
              get_active_pricing_for_reseller d' (pc_reseller_id pricing_in) (Some q)
              = get_active_pricing_for_reseller d (pc_reseller_id pricing_in) (Some q))
        /\ get_active_pricing_for_reseller d' (pc_reseller_id pricing_in) None
           = get_active_pricing_for_reseller d (pc_reseller_id pricing_in) None
    | None =>
        get_active_pricing_for_reseller d' (pc_reseller_id pricing_in) None = Some rp
        /\ (forall q,
              get_active_pricing_for_reseller d' (pc_reseller_id pricing_in) (Some q)
              = match get_active_pricing_for_reseller
                        d (pc_reseller_id pricing_in) (Some q) with
                | Some specific => Some specific
                | None => Some rp
                end)
    end
    /\ (forall rid pid,
           rid <> pc_reseller_id pricing_in ->
           get_active_pricing_for_reseller d' rid pid
           = get_active_pricing_for_reseller d rid pid).
Proof.
  intros env assigned_id d pricing_in rp d' H.
  apply create_reseller_pricing_ok in H as (Hrp & Hfree & Hrows).
  assert (Hscope : forall rid pid,
             same_scope rid pid rp
             = (pc_reseller_id pricing_in =? rid)
               && match pc_marzban_panel_id pricing_in, pid with
                  | Some a, Some b => a =? b
                  | None, None => true
                  | _, _ => false
                  end).
  { intros rid pid. rewrite Hrp. reflexivity. }
  assert (Hfind : forall rid pid,
             find (same_scope rid pid) (reseller_pricings d')
             = match find (same_scope rid pid) (reseller_pricings d) with
               | Some y => Some y
               | None => if same_scope rid pid rp then Some rp else None
               end).
  { intros rid pid. rewrite Hrows. apply find_app. }
  split.
  - destruct (pc_marzban_panel_id pricing_in) as [p|] eqn:Hp.
    + split; [|split].
      * rewrite active_pricing_unfold, Hfind, Hfree, Hscope.
        rewrite !Z.eqb_refl. reflexivity.
      * intros q Hq. rewrite !active_pricing_unfold, !Hfind, !Hscope.
        rewrite Z.eqb_refl. cbn [andb].
        replace (p =? q) with false by (symmetry; apply Z.eqb_neq; congruence).
        destruct (find (same_scope _ (Some q)) _); [reflexivity|].
        destruct (find (same_scope _ None) _); reflexivity.
      * rewrite !active_pricing_unfold, !Hfind, !Hscope.
        rewrite Z.eqb_refl. cbn [andb].
        destruct (find (same_scope _ None) _); reflexivity.
    + split.
      * rewrite active_pricing_unfold, Hfind, Hfree, Hscope.
        rewrite Z.eqb_refl. reflexivity.
      * intros q. rewrite !active_pricing_unfold, !Hfind, !Hscope, Hfree.
        rewrite Z.eqb_refl. cbn [andb].
        destruct (find (same_scope _ (Some q)) _); reflexivity.
  - intros rid pid Hrid.
    assert (Hother : forall x, same_scope rid x rp = false).
    { intros x. rewrite Hscope.
      replace (pc_reseller_id pricing_in =? rid) with false
        by (symmetry; apply Z.eqb_neq; congruence).
      reflexivity. }
    destruct pid as [q|]; rewrite !active_pricing_unfold, !Hfind, !Hother.
    + destruct (find (same_scope rid (Some q)) _); [reflexivity|].
      destruct (find (same_scope rid None) _); reflexivity.
    + destruct (find (same_scope rid None) _); reflexivity.
Qed.

Lemma created_pricing_becomes_active_witness :
  exists rp d',
    create_reseller_pricing quiet_env 9 catalogue
      (mkPricingCreate 1 None (Some 300) (Some 2)) = (Ok rp, d')
    /\ get_active_pricing_for_reseller catalogue 1 (Some 2) = Some generic_pricing
    /\ get_active_pricing_for_reseller d' 1 (Some 2) = Some rp
    /\ get_active_pricing_for_reseller d' 1 (Some 1) = Some plan_pricing.
Proof.
  eexists _, _. split; [vm_compute; reflexivity|].
  split; [reflexivity|].
  edestruct (created_pricing_becomes_active quiet_env 9 catalogue
               (mkPricingCreate 1 None (Some 300) (Some 2))) as [(H1 & H2 & _) _].
  - vm_compute. reflexivity.
  - split; [exact H1|].
    exact (eq_trans (H2 1 ltac:(discriminate)) eq_refl).
Defined.

(** *** Updates *)

Lemma get_reseller_pricing_id d id rp :
  get_reseller_pricing d id = Some rp -> rp_id rp = id /\ In rp (reseller_pricings d).
Proof.
  unfold get_reseller_pricing. intros H. apply find_some in H as [Hin Hid].
  apply Z.eqb_eq in Hid. auto.
Qed.

Lemma differs_false a b : differs a b = false -> a = b.
Proof.
  destruct a as [x|], b as [y|]; cbn; try discriminate; try reflexivity.
  intros H. apply negb_false_iff, Z.eqb_eq in H. now subst.
Qed.

(** What [update_reseller_pricing] does when it does not store a row, and
    what it stores when it does. *)
Lemma update_reseller_pricing_cases env d pricing_id pricing_in res d' :
  update_reseller_pricing env d pricing_id pricing_in = (res, d') ->
  (d' = d /\ forall row, res <> Ok (Some row))
  \/ exists old row,
       res = Ok (Some row)
       /\ get_reseller_pricing d pricing_id = Some old
       /\ rp_id row = rp_id old
       /\ rp_reseller_id row = rp_reseller_id old
       /\ rp_marzban_panel_id row
          = get_or (pu_marzban_panel_id pricing_in) (rp_marzban_panel_id old)
       /\ reseller_pricings d'
          = map (fun rp => if rp_id rp =? pricing_id then row else rp)
                (reseller_pricings d)
       /\ (rp_marzban_panel_id row = rp_marzban_panel_id old
           \/ forall rp, In rp (reseller_pricings d) -> rp_id rp <> pricing_id ->
                         scope rp <> scope row).
Proof.
  unfold update_reseller_pricing. intros H.
  destruct (get_reseller_pricing d pricing_id) as [old|] eqn:Hold.
  2:{ injection H as <- <-. left. split; [reflexivity | discriminate]. }
  destruct (match pu_pricing_plan_id pricing_in with
            | Some (Some p) => _
            | _ => _
            end) as [[[fp fc] up] uc].
  destruct (check_one_mechanism fp fc).
  2:{ injection H as <- <-. left. split; [reflexivity | discriminate]. }
  destruct (match pu_marzban_panel_id pricing_in with
            | Some new_panel => _
            | None => None
            end) as [taken|] eqn:Htaken.
  { injection H as <- <-. left. split; [reflexivity | discriminate]. }
  apply commit_pricing_cases in H as [(-> & -> & _) | ([e ->] & ->)].
  2:{ left. split; [reflexivity | discriminate]. }
  right. do 2 eexists. split; [reflexivity|]. split; [reflexivity|].
  cbn [rp_id rp_reseller_id rp_marzban_panel_id set_pricings reseller_pricings].
  split; [reflexivity|]. split; [reflexivity|]. split; [reflexivity|].
  split; [reflexivity|].
  destruct (pu_marzban_panel_id pricing_in) as [new_panel|]; [|left; reflexivity].
  cbn [get_or].
  destruct (differs new_panel (rp_marzban_panel_id old)) eqn:Hdiff.
  - destruct (find _ (reseller_pricings d)) eqn:Hfind; [discriminate|].
    right. intros rp Hin Hid.
    pose proof (find_none _ _ Hfind rp Hin) as Hno. cbv beta in Hno.
    apply andb_false_iff in Hno as [Hno | Hno].
    + apply same_scope_false in Hno. exact Hno.
    + apply negb_false_iff, Z.eqb_eq in Hno. contradiction.
  - left. apply differs_false in Hdiff. congruence.
Qed.

Lemma replace_row_ids id row l :
  rp_id row = id ->
  map rp_id (map (fun rp => if rp_id rp =? id then row else rp) l) = map rp_id l.
Proof.
  intros Hid. rewrite map_map. apply map_ext. intros rp.
  destruct (rp_id rp =? id) eqn:E; [|reflexivity].
  apply Z.eqb_eq in E. congruence.
Qed.

Lemma replace_row_scopes id row l :
  NoDup (map rp_id l) -> NoDup (map scope l) ->
  (forall rp, In rp l -> rp_id rp <> id -> scope rp <> scope row) ->
  NoDup (map scope (map (fun rp => if rp_id rp =? id then row else rp) l)).
Proof.
  induction l as [|a l IH]; cbn [map]; intros Hids Hscopes Hfresh.
  - constructor.
  - inversion Hids as [|? ? Hida Hids']; subst.
    inversion Hscopes as [|? ? Hsa Hscopes']; subst.
    destruct (rp_id a =? id) eqn:E.
    + apply Z.eqb_eq in E.
      assert (Hsame : map (fun rp => if rp_id rp =? id then row else rp) l = l).
      { rewrite <- (map_id l) at 2. apply map_ext_in. intros rp Hin.
        destruct (rp_id rp =? id) eqn:E'; [|reflexivity].
        apply Z.eqb_eq in E'. exfalso. apply Hida. rewrite E, <- E'.
        now apply in_map. }
      rewrite Hsame. constructor; [|assumption].
      intros Hin. apply in_map_iff in Hin as (rp & Hs & Hin).
      apply (Hfresh rp); [now right | | assumption].
      intros Hid. apply Hida. rewrite E, <- Hid. now apply in_map.
    + apply Z.eqb_neq in E. constructor.
      * intros Hin. apply in_map_iff in Hin as (x & Hs & Hin).
        apply in_map_iff in Hin as (rp & Hx & Hin).
        destruct (rp_id rp =? id); subst x.
        -- apply (Hfresh a); [now left | assumption | congruence].
        -- apply Hsa. rewrite <- Hs. now apply in_map.
      * apply IH; auto. intros rp Hin. apply Hfresh. now right.
Qed.

Lemma replace_row_same_scope id row old l :
  NoDup (map rp_id l) -> In old l -> rp_id old = id -> scope row = scope old ->
  map scope (map (fun rp => if rp_id rp =? id then row else rp) l) = map scope l.
Proof.
  intros Hids Hin Hid Hscope. rewrite map_map. apply map_ext_in. intros rp Hrp.
  destruct (rp_id rp =? id) eqn:E; [|reflexivity].
  apply Z.eqb_eq in E.
  assert (rp = old) as ->
    by (apply (NoDup_map_injective rp_id l); auto; congruence).
  exact Hscope.
Qed.

(** X15.  [update_reseller_pricing] keeps one configuration per scope.  On
    a table with sound primary keys and at most one row per reseller and
    panel (or generic), every run of the update, stored or refused, leaves a
    table with the same properties: moving a row to a panel, or to the
    generic scope, that the reseller already has a row for is refused, and a
    refused or failed update changes nothing. *)
Theorem update_reseller_pricing_keeps_one_config_per_scope :
  forall env d pricing_id pricing_in res d',
    pricing_keys_ok d ->
    one_config_per_scope d ->
    update_reseller_pricing env d pricing_id pricing_in = (res, d') ->
    pricing_keys_ok d' /\ one_config_per_scope d'.
Proof.
  intros env d pricing_id pricing_in res d' Hkeys Hscopes H.
  apply update_reseller_pricing_cases in H
    as [[-> _] | (old & row & _ & Hold & Hid & Hrid & _ & Hrows & Hpanel)];
    [auto|].
  apply get_reseller_pricing_id in Hold as [Hoid Hin].
  unfold pricing_keys_ok, one_config_per_scope in *. rewrite Hrows. split.
  - rewrite replace_row_ids by congruence. assumption.
  - destruct Hpanel as [Hsame | Hfresh].
    + rewrite (replace_row_same_scope pricing_id row old); auto.
      unfold scope. congruence.
    + apply replace_row_scopes; assumption.
Qed.

Lemma update_reseller_pricing_keeps_one_config_per_scope_witness :
  fst (update_reseller_pricing quiet_env catalogue 2
         (mkPricingUpdate None None (Some None)))
  = Raise (already_configured None)
  /\ (let d' := snd (update_reseller_pricing quiet_env catalogue 2
                       (mkPricingUpdate None None (Some (Some 2)))) in
      map scope (reseller_pricings d') = [(1, Some 2); (1, None)]
      /\ pricing_keys_ok d' /\ one_config_per_scope d').
Proof.
  split; [reflexivity|]. cbv zeta. split; [reflexivity|].
  assert (Hkeys : pricing_keys_ok catalogue).
  { unfold pricing_keys_ok. cbn.
    constructor; [intros [[=]|[]] | constructor; [intros [] | constructor]]. }
  assert (Hscopes : one_config_per_scope catalogue).
  { unfold one_config_per_scope. cbn.
    constructor; [intros [[=]|[]] | constructor; [intros [] | constructor]]. }
  exact (update_reseller_pricing_keeps_one_config_per_scope quiet_env catalogue 2
           (mkPricingUpdate None None (Some (Some 2))) _ _ Hkeys Hscopes
           (surjective_pairing _)).
Defined.

(** The mechanisms a stored update leaves on the row. *)
Lemma update_reseller_pricing_mechanisms env d pricing_id pricing_in row d' :
  update_reseller_pricing env d pricing_id pricing_in = (Ok (Some row), d') ->
  exists old,
    get_reseller_pricing d pricing_id = Some old
    /\ match pu_pricing_plan_id pricing_in, pu_custom_price_per_gb pricing_in with
       | Some (Some p), Some (Some c) =>
           pricing_plan_id row = Some p /\ custom_price_per_gb row = Some c
       | Some (Some p), _ =>
           pricing_plan_id row = Some p /\ custom_price_per_gb row = None
       | _, Some (Some c) =>
           pricing_plan_id row = None /\ custom_price_per_gb row = Some c
       | plan_update, custom_update =>
           pricing_plan_id row = get_or plan_update (pricing_plan_id old)
           /\ custom_price_per_gb row = get_or custom_update (custom_price_per_gb old)
           /\ one_mechanism row
       end.
Proof.
  unfold update_reseller_pricing. intros H.
  destruct (get_reseller_pricing d pricing_id) as [old|]; [|discriminate].
  exists old. split; [reflexivity|].
  destruct (pu_pricing_plan_id pricing_in) as [[p|]|],
           (pu_custom_price_per_gb pricing_in) as [[c|]|];
    cbn [get_or] in H;
    match type of H with
    | context [check_one_mechanism ?a ?b] =>
        destruct (check_one_mechanism a b) as [[]|] eqn:Hcheck; [|discriminate H]
    end;
    (destruct (match pu_marzban_panel_id pricing_in with
               | Some new_panel => _
               | None => None
               end); [discriminate H|]);
    apply commit_pricing_cases in H as [([= ->] & _) | ([e [=]] & _)];
    cbn [pricing_plan_id custom_price_per_gb get_or];
    try (split; reflexivity);
    (split; [reflexivity|]; split; [reflexivity|];
     apply check_one_mechanism_ok in Hcheck; exact Hcheck).
Qed.

(** X16.  Setting one pricing mechanism through [update_reseller_pricing]
    clears the other.  When the payload does not set both mechanisms to
    non-null values, a stored update leaves a row that prices by exactly one
    mechanism: a payload that sets the plan leaves the unit rate null, a
    payload that sets the unit rate leaves the plan null, and a payload that
    would leave the row with both or with neither is refused. *)
Theorem update_reseller_pricing_switches_mechanism :
  forall env d pricing_id pricing_in row d',
    update_reseller_pricing env d pricing_id pricing_in = (Ok (Some row), d') ->
    ~ sets_both pricing_in ->
    one_mechanism row
    /\ (forall p, pu_pricing_plan_id pricing_in = Some (Some p) ->
                  pricing_plan_id row = Some p /\ custom_price_per_gb row = None)
    /\ (forall c, pu_custom_price_per_gb pricing_in = Some (Some c) ->
                  custom_price_per_gb row = Some c /\ pricing_plan_id row = None).
Proof.
  intros env d pricing_id pricing_in row d' H Hnot.
  apply update_reseller_pricing_mechanisms in H as (old & _ & H).
  unfold sets_both in Hnot.
  destruct (pu_pricing_plan_id pricing_in) as [[p|]|],
           (pu_custom_price_per_gb pricing_in) as [[c|]|];
    try (exfalso; apply Hnot; eauto; fail).
  all: cbn beta iota zeta in H.
  all: repeat match goal with
              | H : _ /\ _ |- _ => destruct H
              end.
  all: split; [|split].
  all: try (intros x Hx; try discriminate Hx; try (injection Hx as <-);
            split; congruence).
  all: first [ assumption
             | unfold one_mechanism; right; split; congruence
             | unfold one_mechanism; left; split; congruence ].
Qed.

Lemma update_reseller_pricing_switches_mechanism_witness :
  exists row d',
    update_reseller_pricing quiet_env catalogue 3
      (mkPricingUpdate (Some (Some 7)) None None) = (Ok (Some row), d')
    /\ custom_price_per_gb generic_pricing = Some 50
    /\ one_mechanism row
    /\ pricing_plan_id row = Some 7 /\ custom_price_per_gb row = None.
Proof.
  eexists _, _. split; [vm_compute; reflexivity|]. split; [reflexivity|].
  edestruct (update_reseller_pricing_switches_mechanism quiet_env catalogue 3
               (mkPricingUpdate (Some (Some 7)) None None)) as (H1 & H2 & _).
  - vm_compute. reflexivity.
  - intros (p & c & _ & [=]).
  - split; [exact H1|]. exact (H2 7 eq_refl).
Defined.

(** X17.  A payload that sets both mechanisms gets past the check and
    stores both.  [update_reseller_pricing] never answers such a payload
    with the [ValueError] of its "cannot set both" check, because the branch
    for a plan id nulls the unit rate it validates but not the one it
    writes; a stored row then carries the plan and the unit rate together,
    and [create_marzban_user_for_reseller] prices by the unit rate: it
    demands a data limit and charges per GB, the plan being ignored. *)
Theorem update_with_both_mechanisms_stores_both :
  forall env d pricing_id p c panel res d',
    update_reseller_pricing env d pricing_id
      (mkPricingUpdate (Some (Some p)) (Some (Some c)) panel) = (res, d') ->
    (forall msg, res <> Raise (ValueError msg))
    /\ forall row,
        res = Ok (Some row) ->
        pricing_plan_id row = Some p
        /\ custom_price_per_gb row = Some c
        /\ ~ one_mechanism row
        /\ forall dbx req,
            creation_cost dbx row req
            = match cr_data_limit_gb req with
              | None => Raise (MarzbanUserServiceError DataLimitRequired)
              | Some gb =>
                  if coeff gb <=? 0
                  then Raise (MarzbanUserServiceError DataLimitRequired)
                  else match unit_rate_cost gb c with
                       | Some cost => Ok (cost, None)
                       | None => Raise InvalidOperation
                       end
              end.
Proof.
  intros env d pricing_id p c panel res d' H. split.
  - intros msg ->. unfold update_reseller_pricing in H.
    destruct (get_reseller_pricing d pricing_id) as [old|]; [|discriminate].
    cbn [pu_pricing_plan_id pu_custom_price_per_gb pu_marzban_panel_id get_or
         check_one_mechanism] in H.
    destruct (match panel with
              | Some new_panel => _
              | None => None
              end); [discriminate H|].
    unfold commit_pricing in H.
    destruct (negb _); [discriminate H|].
    destruct (commit_fault env); discriminate H.
  - intros row ->.
    apply update_reseller_pricing_mechanisms in H as (old & _ & Hp & Hc).
    cbn in Hp, Hc. split; [assumption|]. split; [assumption|]. split.
    + unfold one_mechanism. rewrite Hp, Hc.
      intros [[[=] _] | [_ [=]]].
    + intros dbx req. unfold creation_cost. rewrite Hc. reflexivity.
Qed.

Lemma update_with_both_mechanisms_stores_both_witness :
  exists row d',
    update_reseller_pricing quiet_env catalogue 2
      (mkPricingUpdate (Some (Some 7)) (Some (Some 300)) None) = (Ok (Some row), d')
    /\ pricing_plan_id row = Some 7
    /\ custom_price_per_gb row = Some 300
    /\ creation_cost d' row (create_request None (Some 30))
       = Raise (MarzbanUserServiceError DataLimitRequired).
Proof.
  eexists _, _. split; [vm_compute; reflexivity|].
  edestruct (update_with_both_mechanisms_stores_both quiet_env catalogue 2 7 300 None)
    as [_ H].
  - vm_compute. reflexivity.
  - destruct (H _ eq_refl) as (Hp & Hc & _ & Hcost).
    split; [exact Hp|]. split; [exact Hc|]. rewrite Hcost. reflexivity.
Defined.

(** *** Deletions *)

Lemma commit_delete_cases {A} env d d' (a : A) res d1 :
  commit_delete env d d' a = (res, d1) ->
  (res = Ok a /\ d1 = d' /\ commit_fault env = None)
  \/ ((exists e, res = Raise e) /\ d1 = d).
Proof.
  unfold commit_delete. intros H.
  destruct (commit_fault env); injection H as <- <-; eauto.
Qed.

Lemma find_filter_other {A} (f g : A -> bool) l :
  (forall x, In x l -> f x = true -> g x = true) ->
  find f (filter g l) = find f l.
Proof.
  induction l as [|a l IH]; cbn; intros H; [reflexivity|].
  destruct (g a) eqn:Eg; cbn.
  - destruct (f a); [reflexivity|]. apply IH. intros; apply H; auto.
  - destruct (f a) eqn:Ef.
    + rewrite (H a (or_introl eq_refl) Ef) in Eg. discriminate.
    + apply IH. intros; apply H; auto.
Qed.

Lemma find_filter_none {A} (f g : A -> bool) l :
  (forall x, In x l -> f x = true -> g x = false) ->
  find f (filter g l) = None.
Proof.
  intros H. destruct (find f (filter g l)) as [x|] eqn:E; [|reflexivity].
  apply find_some in E as [Hin Hf]. apply filter_In in Hin as [Hin Hg].
  rewrite (H x Hin Hf) in Hg. discriminate.
Qed.

(** X18.  Deleting a panel-specific configuration hands the panel back to
    the generic one.  On a table with sound primary keys and one
    configuration per scope, after [delete_reseller_pricing] removed the row
    of a reseller for a panel, [get_active_pricing_for_reseller] answers for
    that reseller and panel what it answers for the generic lookup, which is
    what it answered before the deletion; other panels and other resellers
    are priced as before, and no ledger entry is lost or changes its amount. *)
Theorem deleting_panel_pricing_falls_back_to_generic :
  forall env d pricing_id rp p d',
    pricing_keys_ok d ->
    one_config_per_scope d ->
    rp_marzban_panel_id rp = Some p ->
    delete_reseller_pricing env d pricing_id = (Ok (Some rp), d') ->
    get_active_pricing_for_reseller d' (rp_reseller_id rp) (Some p)
    = get_active_pricing_for_reseller d (rp_reseller_id rp) None
    /\ get_active_pricing_for_reseller d' (rp_reseller_id rp) None
       = get_active_pricing_for_reseller d (rp_reseller_id rp) None
    /\ (forall rid pid,
           (rid, pid) <> (rp_reseller_id rp, Some p) ->
           get_active_pricing_for_reseller d' rid pid
           = get_active_pricing_for_reseller d rid pid)
    /\ map amount (transactions d') = map amount (transactions d).
Proof.
  intros env d pricing_id rp p d' Hkeys Hscopes Hpanel H.
  unfold delete_reseller_pricing in H.
  destruct (get_reseller_pricing d pricing_id) as [old|] eqn:Hold; [|discriminate].
  apply commit_delete_cases in H as [([= <-] & -> & _) | ([e [=]] & _)].
  apply get_reseller_pricing_id in Hold as [Hid Hin].
  assert (Hkept : forall rid pid,
             (rid, pid) <> (rp_reseller_id rp, Some p) ->
             find (same_scope rid pid)
                  (filter (fun x => negb (rp_id x =? pricing_id)) (reseller_pricings d))
             = find (same_scope rid pid) (reseller_pricings d)).
  { intros rid pid Hne. apply find_filter_other. intros x Hx Hs.
    apply same_scope_iff in Hs. apply negb_true_iff, Z.eqb_neq. intros Hxid.
    assert (x = rp) as ->
      by (apply (NoDup_map_injective rp_id (reseller_pricings d)); auto; congruence).
    apply Hne. rewrite <- Hs. unfold scope. now rewrite Hpanel. }
  assert (Hgone : find (same_scope (rp_reseller_id rp) (Some p))
                       (filter (fun x => negb (rp_id x =? pricing_id))
                               (reseller_pricings d)) = None).
  { apply find_filter_none. intros x Hx Hs. apply same_scope_iff in Hs.
    apply negb_false_iff, Z.eqb_eq.
    assert (x = rp) as ->; [|assumption].
    apply (NoDup_map_injective scope (reseller_pricings d)); auto.
    rewrite Hs. unfold scope. now rewrite Hpanel. }
  assert (Hgeneric : forall rid,
             find (same_scope rid None)
                  (filter (fun x => negb (rp_id x =? pricing_id)) (reseller_pricings d))
             = find (same_scope rid None) (reseller_pricings d)).
  { intros rid. apply Hkept. discriminate. }
  split; [|split; [|split]].
  - rewrite !active_pricing_unfold. cbn [reseller_pricings].
    rewrite Hgone, Hgeneric. reflexivity.
  - rewrite !active_pricing_unfold. cbn [reseller_pricings].
    rewrite Hgeneric. reflexivity.
  - intros rid pid Hne. rewrite !active_pricing_unfold. cbn [reseller_pricings].
    rewrite Hgeneric. destruct pid as [q|]; [|reflexivity].
    rewrite (Hkept rid (Some q) Hne). reflexivity.
  - cbn [transactions]. rewrite map_map. reflexivity.
Qed.

Lemma deleting_panel_pricing_falls_back_to_generic_witness :
  exists d',
    delete_reseller_pricing quiet_env catalogue 2 = (Ok (Some plan_pricing), d')
    /\ get_active_pricing_for_reseller catalogue 1 (Some 1) = Some plan_pricing
    /\ get_active_pricing_for_reseller d' 1 (Some 1) = Some generic_pricing
    /\ map tx_reseller_pricing_id (transactions d') = [None].
Proof.
  eexists. split; [vm_compute; reflexivity|]. split; [reflexivity|].
  split; [|reflexivity].
  assert (Hkeys : pricing_keys_ok catalogue).
  { unfold pricing_keys_ok. cbn.
    constructor; [intros [[=]|[]] | constructor; [intros [] | constructor]]. }
  assert (Hscopes : one_config_per_scope catalogue).
  { unfold one_config_per_scope. cbn.
    constructor; [intros [[=]|[]] | constructor; [intros [] | constructor]]. }
  exact (proj1 (deleting_panel_pricing_falls_back_to_generic quiet_env catalogue 2
                  plan_pricing 1 _ Hkeys Hscopes eq_refl eq_refl)).
Defined.

(** *** Plans *)

Lemma find_map_same {A} (f : A -> bool) (g : A -> A) l :
  (forall x, f (g x) = f x) ->
  find f (map g l) = option_map g (find f l).
Proof.
  intros H. induction l as [|a l IH]; cbn; [reflexivity|].
  rewrite H. destruct (f a); [reflexivity | exact IH].
Qed.

(** X19.  Deleting a plan that is in use strands the resellers priced by it.
    [delete_plan] removes the plan row, and the database nulls the
    [pricing_plan_id] of every pricing row that named it.  The reseller whose
    active pricing for a panel named the deleted plan and carried no unit
    rate still has that pricing row, now with neither mechanism: for that
    reseller [create_marzban_user_for_reseller] with access to the panel
    raises "Invalid pricing configuration found. Contact admin.", and a
    renewal through [modify_marzban_user_for_reseller] is refused with "No
    suitable pricing plan found". *)
Theorem deleting_a_plan_in_use_strands_its_resellers :
  forall env d id plan d' rid p rp,
    delete_plan env d id = (Ok (Some plan), d') ->
    get_active_pricing_for_reseller d rid (Some p) = Some rp ->
    pricing_plan_id rp = Some id ->
    custom_price_per_gb rp = None ->
    exists rp',
      get_active_pricing_for_reseller d' rid (Some p) = Some rp'
      /\ rp_id rp' = rp_id rp
      /\ pricing_plan_id rp' = None
      /\ custom_price_per_gb rp' = None
      /\ (forall req, creation_cost d' rp' req
                      = Raise (MarzbanUserServiceError InvalidPricingConfiguration))
      /\ (forall env' u req b days,
             ur_expire_days_to_add req = Some days -> 0 < days ->
             expire_step env' d' u (Some rp') req b
             = Raise (MarzbanUserServiceError NoSuitablePricingPlan)).
Proof.
  intros env d id plan d' rid p rp H Hactive Hplan Hcustom.
  unfold delete_plan in H.
  destruct (get_plan d id) as [db_plan|]; [|discriminate].
  apply commit_delete_cases in H as [(_ & -> & _) | ([e [=]] & _)].
  set (nulled := fun rp0 => mkPricing (rp_id rp0) (rp_reseller_id rp0)
                              (set_null id (pricing_plan_id rp0))
                              (custom_price_per_gb rp0) (rp_marzban_panel_id rp0)).
  assert (Hfind : forall pid,
             find (same_scope rid pid) (map nulled (reseller_pricings d))
             = option_map nulled (find (same_scope rid pid) (reseller_pricings d))).
  { intros pid. apply find_map_same. reflexivity. }
  exists (nulled rp).
  assert (Hnull : pricing_plan_id (nulled rp) = None).
  { cbn. rewrite Hplan. cbn. now rewrite Z.eqb_refl. }
  split; [|split; [reflexivity|]; split; [exact Hnull|]; split; [exact Hcustom|]; split].
  - rewrite active_pricing_unfold in Hactive |- *. cbn [reseller_pricings].
    fold nulled. rewrite !Hfind.
    destruct (find (same_scope rid (Some p)) (reseller_pricings d)) as [x|].
    + injection Hactive as ->. reflexivity.
    + rewrite Hactive. reflexivity.
  - intros req. unfold creation_cost.
    replace (custom_price_per_gb (nulled rp)) with (@None Money) by (symmetry; exact Hcustom).
    rewrite Hnull. reflexivity.
  - intros env' u req b days Hreq Hpos. unfold expire_step. rewrite Hreq.
    replace (days <=? 0) with false by (symmetry; apply Z.leb_gt; lia).
    rewrite Hnull. reflexivity.
Qed.

Lemma deleting_a_plan_in_use_strands_its_resellers_witness :
  let d' := snd (delete_plan quiet_env catalogue 7) in
  exists rp',
    fst (delete_plan quiet_env catalogue 7) = Ok (Some plan30)
    /\ get_active_pricing_for_reseller d' 1 (Some 1) = Some rp'
    /\ rp_id rp' = 2
    /\ fst (create_marzban_user_for_reseller panel_creates quiet_env week_request
              (mkWorld d' (mkReseller 1 10 10000 false [1]) []))
       = Raise (MarzbanUserServiceError InvalidPricingConfiguration).
Proof.
  destruct (deleting_a_plan_in_use_strands_its_resellers quiet_env catalogue 7
              plan30 (snd (delete_plan quiet_env catalogue 7)) 1 1 plan_pricing
              eq_refl eq_refl eq_refl eq_refl)
    as (rp' & Hactive & Hid & _).
  exists rp'. split; [reflexivity|]. split; [exact Hactive|].
  split; [exact Hid|]. reflexivity.
Defined.

(** ** Panel access *)

Lemma has_duplicates_false l : has_duplicates l = false -> NoDup l.
Proof.
  induction l as [|x l IH]; cbn; intros H; [constructor|].
  apply orb_false_iff in H as [Hx Hl]. constructor; [|auto].
  intros Hin. assert (existsb (Z.eqb x) l = true); [|congruence].
  apply existsb_exists. exists x. split; [assumption | apply Z.eqb_refl].
Qed.

Lemma get_reseller_replaced resellers rid old row :
  get_reseller resellers rid = Some old -> reseller_id row = rid ->
  get_reseller (map (fun r => if reseller_id r =? rid then row else r) resellers) rid
  = Some row.
Proof.
  unfold get_reseller. intros H Hid.
  induction resellers as [|a l IH]; [discriminate|].
  cbn [find map] in *. destruct (reseller_id a =? rid) eqn:E.
  - rewrite Hid, Z.eqb_refl. reflexivity.
  - rewrite E. apply IH. exact H.
Qed.

(** X20.  [update_reseller_panel_access] replaces the reseller's grants by
    the requested panels that exist.  After a successful update the reseller
    has access to a panel exactly when its id was requested and names a row
    of [marzban_panels]; earlier grants that were not requested again are
    gone, requested ids that name no panel are dropped without an error, and
    the wallet and the other columns are untouched.  For that reseller
    [create_marzban_user_for_reseller] then refuses with "Reseller does not
    have access" exactly the panels outside the grant, and never reaches
    its "Target Marzban panel ID ... not found" error. *)
Theorem granted_panels_are_the_existing_requested_ones :
  forall env d resellers rid panel_ids r' resellers',
    update_reseller_panel_access env d resellers rid panel_ids
    = (Ok (Some r'), resellers') ->
    (forall p, In p (panels r') <-> In p panel_ids /\ get_panel d p <> None)
    /\ NoDup (panels r')
    /\ get_reseller resellers' rid = Some r'
    /\ (exists old,
           get_reseller resellers rid = Some old
           /\ reseller_id r' = rid
           /\ r' = mkReseller (reseller_id old) (marzban_admin_id old)
                              (wallet_balance old) (allow_negative_balance old)
                              (panels r'))
    /\ (forall log req,
           (creation_quote (mkWorld d r' log) req
            = Raise (MarzbanUserServiceError (NoPanelAccess (cr_marzban_panel_id req)))
            <-> ~ In (cr_marzban_panel_id req) (panels r'))
           /\ creation_quote (mkWorld d r' log) req
              <> Raise (MarzbanUserServiceError
                          (TargetPanelNotFound (cr_marzban_panel_id req)))).
Proof.
  intros env d resellers rid panel_ids r' resellers' H.
  unfold update_reseller_panel_access in H.
  destruct (get_reseller resellers rid) as [old|] eqn:Hold; [|discriminate].
  destruct (has_duplicates _) eqn:Hdup; [discriminate|].
  destruct (commit_fault env); [discriminate|].
  injection H as <- <-.
  pose proof Hold as Hfound. unfold get_reseller in Hfound.
  apply find_some in Hfound as [Hin Hid]. apply Z.eqb_eq in Hid.
  cbn [panels].
  assert (Hgrant : forall p,
             In p (filter (fun pid => negb (is_none (get_panel d pid))) panel_ids)
             <-> In p panel_ids /\ get_panel d p <> None).
  { intros p. rewrite filter_In.
    destruct (get_panel d p); cbn; split; intros [H1 H2]; split; auto;
      congruence. }
  split; [exact Hgrant|]. split; [now apply has_duplicates_false|]. split; [|split].
  - eapply get_reseller_replaced; [eassumption | exact Hid].
  - exists old. auto.
  - intros log req. unfold creation_quote. cbn [reseller db panels].
    set (granted := filter _ panel_ids) in *.
    destruct (existsb (fun p => p =? cr_marzban_panel_id req) granted) eqn:Hacc;
      cbn [negb].
    + apply existsb_exists in Hacc as (p & Hp & Heq). apply Z.eqb_eq in Heq. subst p.
      pose proof (proj1 (Hgrant _) Hp) as [_ Hexists].
      destruct (get_panel d (cr_marzban_panel_id req)) as [panel|];
        [|contradiction].
      split.
      * split; [|intros Hnot; contradiction].
        intros Hq. exfalso.
        destruct (get_active_pricing_for_reseller _ _ _); [|discriminate Hq].
        destruct (creation_cost _ _ _) as [[c pl]|e] eqn:Hc; [discriminate Hq|].
        injection Hq as ->. unfold creation_cost, InvalidOperation in Hc.
        repeat (destruct_match_in Hc; try discriminate Hc).
      * intros Hq.
        destruct (get_active_pricing_for_reseller _ _ _); [|discriminate Hq].
        destruct (creation_cost _ _ _) as [[c pl]|e] eqn:Hc; [discriminate Hq|].
        injection Hq as ->. unfold creation_cost, InvalidOperation in Hc.
        repeat (destruct_match_in Hc; try discriminate Hc).
    + split; [|discriminate].
      split; [|reflexivity]. intros _ Hp.
      assert (existsb (fun p => p =? cr_marzban_panel_id req) granted = true);
        [|congruence].
      apply existsb_exists. eexists. split; [exact Hp | apply Z.eqb_refl].
Qed.

Lemma granted_panels_are_the_existing_requested_ones_witness :
  exists r' resellers',
    update_reseller_panel_access quiet_env catalogue
      [mkReseller 1 10 10000 false [1]] 1 [2; 5] = (Ok (Some r'), resellers')
    /\ panels r' = [2]
    /\ (forall p, In p (panels r') <-> In p [2; 5] /\ get_panel catalogue p <> None)
    /\ fst (update_reseller_panel_access quiet_env catalogue
              [mkReseller 1 10 10000 false [1]] 1 [2; 2])
       = Raise (PyError "sqlalchemy.exc.IntegrityError" "uq_reseller_panel_access").
Proof.
  eexists _, _. split; [vm_compute; reflexivity|]. split; [reflexivity|].
  split; [|reflexivity].
  exact (proj1 (granted_panels_are_the_existing_requested_ones quiet_env catalogue
                  [mkReseller 1 10 10000 false [1]] 1 [2; 5] _ _ eq_refl)).
Defined.

(** ** Panel credentials *)

Lemma get_panel_snoc d p :
  get_panel d (panel_id p) = None ->
  get_panel (set_panels d (marzban_panels d ++ [p])%list) (panel_id p) = Some p.
Proof.
  unfold get_panel. intros H. cbn [set_panels marzban_panels].
  rewrite find_app. unfold get_panel in H. rewrite H, Z.eqb_refl. reflexivity.
Qed.

Lemma get_panel_replaced d pid old row :
  get_panel d pid = Some old -> panel_id row = pid ->
  get_panel (set_panels d (map (fun p => if panel_id p =? pid then row else p)
                               (marzban_panels d))) pid = Some row.
Proof.
  unfold get_panel. cbn [set_panels marzban_panels]. intros H Hid.
  induction (marzban_panels d) as [|a l IH]; [discriminate|].
  cbn [find map] in *. destruct (panel_id a =? pid) eqn:E.
  - rewrite Hid, Z.eqb_refl. reflexivity.
  - rewrite E. apply IH. exact H.
Qed.

(** X21.  A panel's stored password decrypts to the password it was given.
    With a cipher that decrypts its own tokens, after [create_panel] stored
    a panel under a fresh id with a non-empty admin password, and after
    [update_panel] stored a non-empty new password for a panel,
    [get_panel_decrypted_password] answers with exactly that password; an
    update that does not carry a password leaves the stored token as it
    was. *)
Theorem panel_password_round_trip :
  forall f env nonce d,
    decrypts_its_own_tokens f ->
    (forall assigned_id panel_in p d',
        mpc_admin_password panel_in <> "" ->
        get_panel d assigned_id = None ->
        create_panel (Some f) env nonce assigned_id d panel_in = (Ok p, d') ->
        panel_id p = assigned_id
        /\ get_panel_decrypted_password (with_cipher (Some f) env) d' assigned_id
           = Some (mpc_admin_password panel_in))
    /\ (forall pid panel_in row d',
           update_panel (Some f) env nonce d pid panel_in = (Ok (Some row), d') ->
           match mpu_admin_password panel_in with
           | Some (Some admin_password) =>
               admin_password <> "" ->
               get_panel_decrypted_password (with_cipher (Some f) env) d' pid
               = Some admin_password
           | _ =>
               exists old,
                 get_panel d pid = Some old
                 /\ encrypted_admin_password row = encrypted_admin_password old
           end).
Proof.
  intros f env nonce d Hf. split.
  - intros assigned_id panel_in p d' Hpw Hfresh H.
    unfold create_panel, encryption.encrypt_data in H.
    destruct (mpc_admin_password panel_in) as [|c s] eqn:Hs; [contradiction|].
    destruct (commit_fault env); [discriminate|].
    injection H as <- <-. split; [reflexivity|].
    unfold get_panel_decrypted_password.
    rewrite (get_panel_snoc d (mkPanel assigned_id _ _ _ _) Hfresh).
    cbn [encrypted_admin_password].
    destruct (Hf nonce (String c s)) as [Hdec Hne].
    unfold truthy.
    destruct (encryption.encrypt f nonce (String c s)) as [|c' s'] eqn:Htok;
      [contradiction|].
    cbn [with_cipher decrypt_data encryption.decrypt_data].
    rewrite Hdec. reflexivity.
  - intros pid panel_in row d' H.
    unfold update_panel in H.
    destruct (get_panel d pid) as [old|] eqn:Hold; [|discriminate].
    pose proof (get_panel_id _ _ _ Hold) as Hid.
    destruct (mpu_admin_password panel_in) as [[admin_password|]|].
    + intros Hpw. unfold encryption.encrypt_data in H.
      destruct admin_password as [|c s]; [contradiction|].
      repeat (destruct_match_in H; try discriminate H).
      injection H as <- <-.
      unfold get_panel_decrypted_password.
      erewrite get_panel_replaced by (try eassumption; exact Hid).
      cbn [encrypted_admin_password].
      destruct (Hf nonce (String c s)) as [Hdec Hne].
      unfold truthy.
      destruct (encryption.encrypt f nonce (String c s)) as [|c' s'] eqn:Htok;
        [contradiction|].
      cbn [with_cipher decrypt_data encryption.decrypt_data].
      rewrite Hdec. reflexivity.
    + repeat (destruct_match_in H; try discriminate H).
      injection H as <- <-. exists old. auto.
    + repeat (destruct_match_in H; try discriminate H).
      injection H as <- <-. exists old. auto.
Qed.

Lemma toy_cipher_decrypts_its_own_tokens : decrypts_its_own_tokens toy_cipher.
Proof.
  intros nonce s. split; [|discriminate].
  cbn. replace (prefix "" s) with true by (destruct s; reflexivity).
  f_equal. rewrite Nat.sub_0_r.
  induction s as [|c s IH]; cbn; [reflexivity|]. now rewrite IH.
Qed.

Lemma panel_password_round_trip_witness :
  exists p d',
    create_panel (Some toy_cipher) quiet_env 0 3 catalogue new_panel = (Ok p, d')
    /\ encrypted_admin_password p = Some "gAAAAAhunter2"
    /\ get_panel_decrypted_password (with_cipher (Some toy_cipher) quiet_env) d' 3
       = Some "hunter2".
Proof.
  eexists _, _. split; [vm_compute; reflexivity|]. split; [reflexivity|].
  refine (proj2 (proj1 (panel_password_round_trip toy_cipher quiet_env 0 catalogue
                          toy_cipher_decrypts_its_own_tokens)
                       3 new_panel _ _ _ _ _)).
  - discriminate.
  - reflexivity.
  - vm_compute. reflexivity.
Defined.

(** X22.  A panel stored with an empty admin password cannot be used.
    [create_panel] accepts an empty password and stores an empty token
    without encrypting anything; from then on
    [get_panel_decrypted_password] answers [None] for that panel whatever
    the cipher is, so a synchronisation of the panel raises "Missing
    credentials" and a creation on it stops before any request is sent to
    the panel: it raises, and the log of remote calls is as before. *)
Theorem empty_password_disables_the_panel :
  forall cipher_suite env nonce assigned_id d panel_in p d',
    mpc_admin_password panel_in = "" ->
    get_panel d assigned_id = None ->
    create_panel cipher_suite env nonce assigned_id d panel_in = (Ok p, d') ->
    encrypted_admin_password p = Some ""
    /\ forall env' r log,
        get_panel_decrypted_password env' d' assigned_id = None
        /\ sync_marzban_users_for_reseller_panel env' p (mkWorld d' r log)
           = (Raise (MarzbanUserServiceError (MissingCredentials assigned_id)),
              mkWorld d' r log)
        /\ (forall callee req res w',
               cr_marzban_panel_id req = assigned_id ->
               create_marzban_user_for_reseller callee env' req (mkWorld d' r log)
               = (res, w') ->
               (exists e, res = Raise e) /\ w' = mkWorld d' r log).
Proof.
  intros cipher_suite env nonce assigned_id d panel_in p d' Hpw Hfresh H.
  unfold create_panel, encryption.encrypt_data in H. rewrite Hpw in H.
  destruct cipher_suite as [f|]; [|discriminate].
  destruct (commit_fault env); [discriminate|].
  injection H as <- <-. split; [reflexivity|].
  intros env' r log.
  assert (Hnone : get_panel_decrypted_password env'
                    (set_panels d (marzban_panels d
                                   ++ [mkPanel assigned_id (mpc_name panel_in)
                                         (mpc_api_url panel_in)
                                         (mpc_admin_username panel_in) (Some "")])%list)
                    assigned_id = None).
  { unfold get_panel_decrypted_password.
    rewrite (get_panel_snoc d (mkPanel assigned_id _ _ _ _) Hfresh). reflexivity. }
  split; [exact Hnone|]. split.
  - unfold sync_marzban_users_for_reseller_panel. cbn [panel_id db].
    rewrite Hnone. reflexivity.
  - intros callee req res w' Hreq Hrun.
    unfold create_marzban_user_for_reseller, bind in Hrun.
    destruct (create_remote_phase callee env' req _) as [[x|e] w1] eqn:Hp.
    + exfalso. destruct x as [[[[[tp rp] c] pl] resp] un].
      pose proof Hp as Hinv.
      apply create_remote_phase_ok_inv in Hinv as (Hq & _).
      apply creation_quote_inv in Hq as (Hpanel & _).
      apply get_panel_id in Hpanel.
      unfold create_remote_phase, uncaught, translated in Hp.
      unfold_monad. cbn beta iota zeta in Hp.
      destruct (creation_quote _ req) as [[[[tp0 rp0] c0] pl0]|] eqn:Hq0;
        [|discriminate Hp].
      cbn beta iota zeta in Hp.
      apply creation_quote_inv in Hq0 as (Hpanel0 & _).
      apply get_panel_id in Hpanel0. cbn [db] in Hp.
      rewrite Hpanel0, Hreq, Hnone in Hp.
      destruct (negb _); cbn in Hp; discriminate Hp.
    + injection Hrun as <- <-. split; [eauto|].
      unfold create_remote_phase, uncaught, translated in Hp.
      unfold_monad. cbn beta iota zeta in Hp.
      destruct (creation_quote _ req) as [[[[tp0 rp0] c0] pl0]|] eqn:Hq0;
        [|injection Hp as _ <-; reflexivity].
      cbn beta iota zeta in Hp.
      apply creation_quote_inv in Hq0 as (Hpanel0 & _).
      apply get_panel_id in Hpanel0. cbn [db] in Hp.
      rewrite Hpanel0, Hreq, Hnone in Hp.
      destruct (negb _); cbn in Hp; injection Hp as _ <-; reflexivity.
Qed.

Lemma empty_password_disables_the_panel_witness :
  exists p d',
    create_panel (Some toy_cipher) quiet_env 0 3 catalogue
      (mkPanelCreate "third" "https://third.example" "root" "") = (Ok p, d')
    /\ get_panel_decrypted_password (with_cipher (Some toy_cipher) quiet_env) d' 3
       = None
    /\ fst (sync_marzban_users_for_reseller_panel quiet_env p (mkWorld d' reseller1 []))
       = Raise (MarzbanUserServiceError (MissingCredentials 3)).
Proof.
  eexists _, _. split; [vm_compute; reflexivity|].
  edestruct (empty_password_disables_the_panel (Some toy_cipher) quiet_env 0 3
               catalogue (mkPanelCreate "third" "https://third.example" "root" ""))
    as [_ H].
  - reflexivity.
  - reflexivity.
  - vm_compute. reflexivity.
  - split.
    + exact (proj1 (H (with_cipher (Some toy_cipher) quiet_env) reseller1 [])).
    + reflexivity.
Defined.

(** ** Sales reports *)

Lemma add_to_group_sums key sale groups :
  sum_of_totals (add_to_group key sale groups) = sum_of_totals groups + sale
  /\ sum_of_counts (add_to_group key sale groups) = sum_of_counts groups + 1.
Proof.
  unfold sum_of_totals, sum_of_counts.
  induction groups as [|g rest [IH1 IH2]]; cbn [add_to_group fold_right].
  - cbn [fold_right total_sales group_count]. lia.
  - destruct (key <? group_key g);
      [cbn [fold_right total_sales group_count]; lia|].
    destruct (key =? group_key g); cbn [fold_right total_sales group_count]; lia.
Qed.

Lemma add_to_group_keys (P : Z -> Prop) key sale groups :
  P key -> Forall P (map group_key groups) ->
  Forall P (map group_key (add_to_group key sale groups)).
Proof.
  intros Hk. induction groups as [|g rest IH]; cbn; intros H.
  - constructor; [assumption | constructor].
  - inversion H; subst.
    destruct (key <? group_key g); [cbn; auto|].
    destruct (key =? group_key g); cbn; auto.
Qed.

Lemma add_to_group_increasing key sale groups :
  increasing (map group_key groups) ->
  increasing (map group_key (add_to_group key sale groups)).
Proof.
  induction groups as [|g rest IH]; cbn [add_to_group map increasing].
  - intros _. split; [constructor | exact I].
  - intros [Hhead Hrest].
    destruct (key <? group_key g) eqn:Elt.
    + apply Z.ltb_lt in Elt. cbn [map increasing group_key].
      split; [|split; assumption].
      constructor; [assumption|].
      eapply Forall_impl; [|exact Hhead]. cbv beta. intros; lia.
    + destruct (key =? group_key g) eqn:Eeq.
      * apply Z.eqb_eq in Eeq. cbn [map increasing group_key].
        rewrite Eeq. split; assumption.
      * apply Z.ltb_ge in Elt. apply Z.eqb_neq in Eeq.
        cbn [map increasing group_key]. split; [|auto].
        apply add_to_group_keys; [lia | assumption].
Qed.

Lemma add_to_group_counts key sale groups :
  Forall (fun g => 1 <= group_count g) groups ->
  Forall (fun g => 1 <= group_count g) (add_to_group key sale groups).
Proof.
  induction groups as [|g rest IH]; cbn; intros H.
  - constructor; [cbn; lia | constructor].
  - inversion H; subst.
    destruct (key <? group_key g); [constructor; [cbn; lia | assumption]|].
    destruct (key =? group_key g); constructor; cbn; auto; lia.
Qed.

(** Grouping loses nothing: the groups of a query add up to its rows, come
    in increasing order of their key, hold at least one row each, and carry
    only keys of rows that were grouped. *)
Lemma group_sales_sound (key : LedgerRow -> Z) (P : Z -> Prop) rows :
  Forall (fun r => P (key r)) rows ->
  sum_of_totals (group_sales key rows) = sum_sales rows
  /\ sum_of_counts (group_sales key rows) = Z.of_nat (List.length rows)
  /\ increasing (map group_key (group_sales key rows))
  /\ Forall (fun g => 1 <= group_count g) (group_sales key rows)
  /\ Forall P (map group_key (group_sales key rows)).
Proof.
  induction rows as [|r rows IH]; intros HP.
  - cbn. repeat split; constructor.
  - inversion HP as [|? ? Hr HP']; subst.
    destruct (IH HP') as (H1 & H2 & H3 & H4 & H5).
    unfold group_sales in *. cbn [fold_right sum_sales List.length].
    destruct (add_to_group_sums (key r) (amount (entry r) * -1)
                (fold_right (fun r0 groups =>
                               add_to_group (key r0) (amount (entry r0) * -1) groups)
                            [] rows)) as [S1 S2].
    rewrite S1, S2, H1, H2.
    split; [unfold sum_sales; cbn [fold_right]; lia|].
    split; [lia|].
    split; [now apply add_to_group_increasing|].
    split; [now apply add_to_group_counts|].
    now apply add_to_group_keys.
Qed.

Lemma date_of_in_period start query_end dt :
  midnight start <= dt < midnight query_end -> start <= date_of dt < query_end.
Proof.
  unfold midnight, date_of, microseconds_per_day. intros [H1 H2]. split.
  - apply Z.div_le_lower_bound; lia.
  - apply Z.div_lt_upper_bound; lia.
Qed.

Lemma reported_in_period start query_end rid r :
  reported start query_end rid r = true ->
  midnight start <= created_at r < midnight query_end.
Proof.
  unfold reported. intros H.
  apply andb_true_iff in H as [H _]. apply andb_true_iff in H as [_ H].
  apply andb_true_iff in H as [H1 H2].
  apply Z.leb_le in H1. apply Z.ltb_lt in H2. lia.
Qed.

(** X23.  The daily trend adds up to the summary.  For the same ledger,
    period and reseller filter, [get_daily_sales_trend] succeeds exactly
    when [get_sales_summary_by_period] does (both fail with the same
    [OverflowError] when the end date is 9999-12-31, the last day that a
    [date] can hold), and then the [total_sales] of the
    trend add up to the summary's [total_sales_amount] and the counts to its
    [transaction_count].  The trend lists days in strictly increasing order,
    all of them inside the period, and only days with at least one sale: a
    day without sales has no entry rather than an entry of zero. *)
Theorem daily_trend_adds_up_to_the_summary :
  forall rows start_date end_date reseller_id,
    match get_daily_sales_trend rows start_date end_date reseller_id with
    | Ok trend =>
        exists summary,
          get_sales_summary_by_period rows start_date end_date reseller_id
          = Ok summary
          /\ sum_of_totals trend = total_sales_amount summary
          /\ sum_of_counts trend = transaction_count summary
          /\ increasing (map group_key trend)
          /\ Forall (fun g => 1 <= group_count g) trend
          /\ Forall (fun day => start_date <= day <= end_date) (map group_key trend)
    | Raise e =>
        date_max <= end_date
        /\ e = PyError "OverflowError" "date value out of range"
        /\ get_sales_summary_by_period rows start_date end_date reseller_id
           = Raise e
    end.
Proof.
  intros rows start_date end_date reseller_id.
  unfold get_daily_sales_trend, get_sales_summary_by_period, next_day.
  destruct (end_date + 1 <=? date_max) eqn:E.
  - eexists. split; [reflexivity|]. cbn [total_sales_amount transaction_count].
    destruct (group_sales_sound (fun r => date_of (created_at r))
                (fun day => start_date <= day <= end_date)
                (filter (reported start_date (end_date + 1) reseller_id) rows))
      as (H1 & H2 & H3 & H4 & H5); [|auto 6].
    apply Forall_forall. intros r Hr. apply filter_In in Hr as [_ Hr].
    apply reported_in_period in Hr. apply date_of_in_period in Hr. lia.
  - apply Z.leb_gt in E. split; [lia|]. split; reflexivity.
Qed.

Lemma daily_trend_adds_up_to_the_summary_witness :
  get_daily_sales_trend sample_ledger 19660 19700 (Some 1)
  = Ok [mkSalesGroup 19675 4000 2]
  /\ get_sales_summary_by_period sample_ledger 19660 19700 (Some 1)
     = Ok (mkSalesSummary 4000 2)
  /\ get_daily_sales_trend sample_ledger 19660 19700 None
     = Ok [mkSalesGroup 19675 4000 2; mkSalesGroup 19693 117 1].
Proof.
  pose proof (daily_trend_adds_up_to_the_summary sample_ledger 19660 19700 (Some 1))
    as H.
  split; [reflexivity|]. split; [|reflexivity].
  vm_compute in H. destruct H as (summary & Hs & _). reflexivity.
Defined.

Lemma new_year_follows_december y :
  days_from_civil (y + 1) 1 1 = days_from_civil y 12 31 + 1.
Proof.
  unfold days_from_civil. cbn [Z.leb Z.ltb Z.compare Pos.compare Pos.compare_cont].
  replace (y + 1 - 1) with y by lia.
  change ((153 * (1 + 9) + 2) / 5) with 306.
  change ((153 * (12 - 3) + 2) / 5) with 275. lia.
Qed.

Lemma date_ymd_in_range y m d :
  1 <= y <= 9999 -> date_ymd y m d = Ok (days_from_civil y m d).
Proof.
  intros Hy. unfold date_ymd, c_int_error.
  replace ((y <? - 2 ^ 63) || (2 ^ 63 <=? y)) with false
    by (symmetry; apply orb_false_iff; lia).
  replace (2 ^ 31 <=? y) with false by (symmetry; lia).
  replace (y <? - 2 ^ 31) with false by (symmetry; lia).
  replace ((1 <=? y) && (y <=? 9999)) with true
    by (symmetry; apply andb_true_iff; lia).
  reflexivity.
Qed.

Lemma date_ymd_cases y m d :
  (1 <= y <= 9999 /\ date_ymd y m d = Ok (days_from_civil y m d))
  \/ ((y < 1 \/ 9999 < y) /\ fits_c_int y = true
      /\ exists msg, date_ymd y m d = Raise (PyError "ValueError" msg))
  \/ ((y < 1 \/ 9999 < y) /\ fits_c_int y = false
      /\ exists msg, date_ymd y m d = Raise (PyError "OverflowError" msg)).
Proof.
  assert (H63 : 2 ^ 31 < 2 ^ 63) by reflexivity.
  assert (H31 : 9999 < 2 ^ 31) by reflexivity.
  unfold date_ymd, c_int_error, fits_c_int.
  destruct ((y <? - 2 ^ 63) || (2 ^ 63 <=? y)) eqn:E63.
  { right. right. apply orb_true_iff in E63.
    split; [lia|]. split; [apply andb_false_iff; lia | eauto]. }
  apply orb_false_iff in E63.
  destruct (2 ^ 31 <=? y) eqn:Ehi.
  { right. right. split; [lia|]. split; [apply andb_false_iff; lia | eauto]. }
  destruct (y <? - 2 ^ 31) eqn:Elo.
  { right. right. split; [lia|]. split; [apply andb_false_iff; lia | eauto]. }
  destruct ((1 <=? y) && (y <=? 9999)) eqn:Er.
  - left. apply andb_true_iff in Er. split; [lia | reflexivity].
  - right. left. apply andb_false_iff in Er.
    split; [lia|]. split; [apply andb_true_iff; lia | eauto].
Qed.

(** X24.  The monthly trend adds up to the summary of the same years.  When
    [get_monthly_sales_trend] returns a trend for [start_year..end_year],
    its totals and counts add up to what [get_sales_summary_by_period]
    returns for 1 January of the first year to 31 December of the last, and
    its months come in strictly increasing order, each with at least one
    sale.  It returns a trend exactly for years with
    [1 <= start_year <= 9999] and [0 <= end_year <= 9998], and raises
    otherwise: also for the last representable year, 9999, because the
    filter's upper bound is built as 1 January of the following year.  The
    exception is that of the first date it cannot build, [start_year] or
    else [end_year + 1]: a [ValueError] when that year fits a C [int], an
    [OverflowError] when it does not. *)
Theorem monthly_trend_adds_up_to_the_summary :
  forall rows start_year end_year reseller_id,
    match get_monthly_sales_trend rows start_year end_year reseller_id with
    | Ok trend =>
        1 <= start_year <= 9999 /\ 0 <= end_year <= 9998
        /\ increasing (map group_key trend)
        /\ Forall (fun g => 1 <= group_count g) trend
        /\ (1 <= end_year ->
            exists first_day last_day summary,
              date_ymd start_year 1 1 = Ok first_day
              /\ date_ymd end_year 12 31 = Ok last_day
              /\ get_sales_summary_by_period rows first_day last_day reseller_id
                 = Ok summary
              /\ sum_of_totals trend = total_sales_amount summary
              /\ sum_of_counts trend = transaction_count summary)
    | Raise e =>
        (start_year < 1 \/ 9999 < start_year \/ end_year < 0 \/ 9998 < end_year)
        /\ let first_bad :=
             if (1 <=? start_year) && (start_year <=? 9999)
             then end_year + 1 else start_year in
           exists msg,
             e = PyError (if fits_c_int first_bad
                          then "ValueError" else "OverflowError") msg
    end.
Proof.
  intros rows start_year end_year reseller_id.
  unfold get_monthly_sales_trend.
  destruct (date_ymd_cases start_year 1 1)
    as [(Es & ->) | [(Es & Hfit & msg & ->) | (Es & Hfit & msg & ->)]].
  2,3: (split; [lia|]);
       replace ((1 <=? start_year) && (start_year <=? 9999)) with false
         by (symmetry; apply andb_false_iff; lia);
       cbv zeta; rewrite Hfit; eauto.
  destruct Es as [Es1 Es2].
  destruct (date_ymd_cases (end_year + 1) 1 1)
    as [(Ee & ->) | [(Ee & Hfit & msg & ->) | (Ee & Hfit & msg & ->)]].
  2,3: (split; [lia|]);
       replace ((1 <=? start_year) && (start_year <=? 9999)) with true
         by (symmetry; apply andb_true_iff; lia);
       cbv zeta; rewrite Hfit; eauto.
  destruct Ee as [Ee1 Ee2].
  split; [lia|]. split; [lia|].
  destruct (group_sales_sound (fun r => month_key (year_month_of (created_at r)))
              (fun _ => True)
              (filter (reported (days_from_civil start_year 1 1)
                                (days_from_civil (end_year + 1) 1 1) reseller_id) rows))
    as (H1 & H2 & H3 & H4 & _); [apply Forall_forall; auto|].
  split; [assumption|]. split; [assumption|].
  intros Hend. exists (days_from_civil start_year 1 1), (days_from_civil end_year 12 31).
  rewrite !date_ymd_in_range by lia.
  unfold get_sales_summary_by_period, next_day.
  rewrite <- new_year_follows_december.
  assert (Hmax : days_from_civil (end_year + 1) 1 1 <= date_max).
  { rewrite new_year_follows_december. unfold days_from_civil, date_max.
    cbn [Z.leb Z.ltb Z.compare Pos.compare Pos.compare_cont].
    change ((153 * (12 - 3) + 2) / 5) with 275.
    set (era := end_year / 400).
    set (yoe := end_year - era * 400).
    assert (Hera : 400 * era <= end_year < 400 * era + 400).
    { subst era. split; [apply Z.mul_div_le; lia|].
      pose proof (Z.mul_succ_div_gt end_year 400). lia. }
    assert (Hq4 : 4 * (yoe / 4) <= yoe < 4 * (yoe / 4) + 4).
    { split; [apply Z.mul_div_le; lia|].
      pose proof (Z.mul_succ_div_gt yoe 4). lia. }
    assert (Hq100 : 100 * (yoe / 100) <= yoe < 100 * (yoe / 100) + 100).
    { split; [apply Z.mul_div_le; lia|].
      pose proof (Z.mul_succ_div_gt yoe 100). lia. }
    subst yoe. lia. }
  replace (days_from_civil (end_year + 1) 1 1 <=? date_max) with true
    by (symmetry; apply Z.leb_le; exact Hmax).
  eexists. repeat split; assumption.
Qed.

Lemma monthly_trend_adds_up_to_the_summary_witness :
  get_monthly_sales_trend sample_ledger 2023 2023 None
  = Ok [mkSalesGroup (2023 * 12 + 10) 4000 2; mkSalesGroup (2023 * 12 + 11) 117 1]
  /\ (exists first_day last_day summary,
         date_ymd 2023 1 1 = Ok first_day
         /\ date_ymd 2023 12 31 = Ok last_day
         /\ get_sales_summary_by_period sample_ledger first_day last_day None
            = Ok summary
         /\ 4000 + (117 + 0) = total_sales_amount summary
         /\ 2 + (1 + 0) = transaction_count summary)
  /\ get_monthly_sales_trend sample_ledger 2023 9999 None
     = Raise (PyError "ValueError" "year 10000 is out of range")
  /\ get_monthly_sales_trend sample_ledger (2 ^ 31) 2023 None
     = Raise (PyError "OverflowError" "signed integer is greater than maximum").
Proof.
  assert (E : get_monthly_sales_trend sample_ledger 2023 2023 None
              = Ok [mkSalesGroup (2023 * 12 + 10) 4000 2;
                    mkSalesGroup (2023 * 12 + 11) 117 1]) by reflexivity.
  pose proof (monthly_trend_adds_up_to_the_summary sample_ledger 2023 2023 None)
    as H.
  rewrite E in H. destruct H as (_ & _ & _ & _ & H).
  split; [exact E|]. split; [|split; reflexivity].
  apply H. lia.
Defined.

Lemma not_reported start query_end rid tx stamp :
  is_sale tx = false -> reported start query_end rid (mkLedgerRow tx stamp) = false.
Proof. unfold reported. cbn [entry]. intros ->. reflexivity. Qed.

(** X25.  Data purchases are missing from the sales reports.  The reports
    count the types [user_creation_cost] and [user_renewal_cost] only, and a
    modification that sets a data limit writes its ledger entry as
    [user_data_topup_cost] or [user_data_renew_cost].  So the entry of any
    modification that bought data, also one that renewed the plan in the same
    request, is not a sale: whenever it was created, adding it to a ledger
    changes neither the summary nor the daily or the monthly trend, for any
    period and any reseller filter.  The entry of a creation is a sale. *)
Theorem data_purchases_are_missing_from_sales_reports :
  forall env id req w row w' tx,
    modify_marzban_user_for_reseller env id req w = (Ok row, w') ->
    transactions (db w') = tx :: transactions (db w) ->
    ur_data_limit_gb req <> None ->
    is_sale tx = false
    /\ (forall stamp rows start_date end_date reseller_id,
           get_sales_summary_by_period (mkLedgerRow tx stamp :: rows)
             start_date end_date reseller_id
           = get_sales_summary_by_period rows start_date end_date reseller_id
           /\ get_daily_sales_trend (mkLedgerRow tx stamp :: rows)
                start_date end_date reseller_id
              = get_daily_sales_trend rows start_date end_date reseller_id)
    /\ (forall stamp rows start_year end_year reseller_id,
           get_monthly_sales_trend (mkLedgerRow tx stamp :: rows)
             start_year end_year reseller_id
           = get_monthly_sales_trend rows start_year end_year reseller_id)
    /\ (forall callee env0 req0 w0 row0 w0' tx0,
           create_marzban_user_for_reseller callee env0 req0 w0 = (Ok row0, w0') ->
           transactions (db w0') = tx0 :: transactions (db w0) ->
           is_sale tx0 = true).
Proof.
  intros env id req w row w' tx H Htx Hdata.
  destruct (charged_modification_entry _ _ _ _ _ _ _ H Htx)
    as (u & p & b & Hq & _ & -> & _).
  apply modification_quote_inv in Hq as (_ & _ & Hb).
  apply billing_flags in Hb as (Hset & _ & _).
  assert (Hnot : is_sale (mkTx (reseller_id (reseller w))
                            (modification_transaction_type b) (- b_cost b)
                            (Some (mu_id u)) (b_pricing_plan_id_for_tx b)
                            (b_reseller_pricing_id_for_tx b)) = false).
  { unfold is_sale, modification_transaction_type. cbn [transaction_type].
    rewrite Hset. destruct (ur_data_limit_gb req); [|contradiction].
    cbn [is_none negb orb andb].
    destruct (negb (is_none (b_added b))); reflexivity. }
  split; [exact Hnot|]. split; [|split].
  - intros stamp rows start_date end_date reseller_id.
    unfold get_sales_summary_by_period, get_daily_sales_trend.
    destruct (next_day end_date); [|auto]. cbn [filter].
    rewrite (not_reported _ _ _ _ _ Hnot). auto.
  - intros stamp rows start_year end_year reseller_id.
    unfold get_monthly_sales_trend.
    destruct (date_ymd start_year 1 1); [|reflexivity].
    destruct (date_ymd (end_year + 1) 1 1); [|reflexivity].
    cbn [filter]. rewrite (not_reported _ _ _ _ _ Hnot). reflexivity.
  - intros callee env0 req0 w0 row0 w0' tx0 Hc Htx0.
    apply create_outcomes in Hc
      as [(_ & _ & e & He)
         | (p0 & rp0 & c0 & pl0 & resp0 & un0 & _ & _ & _ & _ & _ & Hd)];
      [discriminate He|].
    rewrite Hd in Htx0. cbn in Htx0. injection Htx0 as <-. reflexivity.
Qed.

Lemma data_purchases_are_missing_from_sales_reports_witness :
  let w := sample_world [both_pricing] None 10000 false in
  exists tx,
    transactions (db (snd (modify_marzban_user_for_reseller (sample_env None []) 5
                             data_and_days w))) = [tx]
    /\ amount tx = -3500
    /\ is_sale tx = false
    /\ get_sales_summary_by_period [mkLedgerRow tx sample_now] 19675 19675 None
       = Ok (mkSalesSummary 0 0).
Proof.
  cbv zeta. eexists. split; [vm_compute; reflexivity|]. split; [reflexivity|].
  split; [|reflexivity].
  refine (proj1 (data_purchases_are_missing_from_sales_reports
                   (sample_env None []) 5 data_and_days
                   (sample_world [both_pricing] None 10000 false) _ _ _ _ _ _)).
  - vm_compute. reflexivity.
  - vm_compute. reflexivity.
  - discriminate.
Defined.

(** * The usage query *)

Lemma endswith_slash_snoc (s : string) : endswith_slash (s ++ "/") = true.
Proof.
  induction s as [|c s IH]; [reflexivity|].
  cbn [append endswith_slash]. rewrite IH.
  destruct (s ++ "/") eqn:E; [destruct s; discriminate E | reflexivity].
Qed.

Lemma usage_lookup_cases
  (env : Env) (get_usage : string -> string -> string -> call_result (option Usage))
  (uid : Z) (w w' : World) (out : Outcome Usage) :
  get_marzban_user_usage_for_reseller env get_usage uid w = (out, w') ->
  db w' = db w /\ reseller w' = reseller w
  /\ (forall usage_data, out = Returns usage_data ->
        exists u panel password token,
          get_marzban_user_for_reseller (db w) uid (reseller_id (reseller w)) = Some u
          /\ get_panel (db w) (marzban_panel_id u) = Some panel
          /\ get_panel_decrypted_password env (db w) (panel_id panel) = Some password
          /\ get_marzban_access_token env (api_url panel) (admin_username panel) password
             = Returned (Some token)
          /\ get_usage (api_url panel) token (marzban_username u)
             = Returned (Some usage_data)).
Proof.
  unfold get_marzban_user_usage_for_reseller. intros H.
  repeat (destruct_match_in H; cbn beta iota zeta in H);
    injection H as <- <-; cbn [db reseller remote_log];
    (split; [reflexivity|]); (split; [reflexivity|]);
    intros usage_data [=]; subst.
  match goal with
  | Hp : truthy ?x = Some ?p, Ht : truthy ?t = Some ?tok |- _ =>
      assert (x = Some p) by (destruct x as [[|]|]; cbn in Hp; congruence);
      assert (t = Some tok) by (destruct t as [[|]|]; cbn in Ht; congruence)
  end.
  subst. eauto 10.
Qed.

(** X26. A usage answer handed to a reseller is what the panel answered, at
    the usage URL of a user whose local row belongs to that reseller and
    with a token obtained from that row's panel; and whatever the outcome,
    the query leaves the database and the reseller's row, wallet included,
    as they were. *)
Theorem usage_is_the_panels_answer_for_an_owned_user
  (env : Env) (http_get : string -> string -> UsageResponse)
  (uid : Z) (w w' : World) (out : Outcome Usage)
  (Hrun : get_marzban_user_usage_for_reseller env (get_marzban_user_usage http_get)
            uid w = (out, w')) :
  db w' = db w /\ reseller w' = reseller w
  /\ (forall usage_data, out = Returns usage_data ->
        exists u panel password token,
          owned_on (db w) (reseller_id (reseller w)) uid u panel
          /\ get_panel_decrypted_password env (db w) (panel_id panel) = Some password
          /\ get_marzban_access_token env (api_url panel) (admin_username panel) password
             = Returned (Some token)
          /\ http_get (usage_url (api_url panel) (marzban_username u)) token
             = UsageOK (Some usage_data)).
Proof.
  destruct (usage_lookup_cases _ _ _ _ _ _ Hrun) as (Hdb & Hres & Hret).
  repeat (split; [assumption|]).
  intros usage_data Hout.
  destruct (Hret usage_data Hout) as (u & panel & password & token
                                      & Hu & Hpanel & Hpw & Htok & Hget).
  exists u, panel, password, token.
  unfold get_marzban_user_for_reseller in Hu.
  pose proof (find_some _ _ Hu) as [Hin Hkeys].
  apply andb_prop in Hkeys as [Hid Hrid].
  apply Z.eqb_eq in Hid, Hrid.
  repeat split; try assumption.
  unfold get_marzban_user_usage in Hget.
  fold (usage_url (api_url panel) (marzban_username u)) in Hget.
  destruct (http_get _ token) as [body|code [d|m]|e|e]; try discriminate Hget.
  injection Hget as ->. reflexivity.
Qed.

Lemma usage_is_the_panels_answer_for_an_owned_user_witness :
  exists out w',
    get_marzban_user_usage_for_reseller (sample_env None [])
      (get_marzban_user_usage usage_panel) 5 plan_world = (out, w')
    /\ out = Returns "{}"
    /\ db w' = db plan_world /\ reseller w' = reseller plan_world.
Proof.
  eexists _, _. split; [vm_compute; reflexivity|].
  split; [reflexivity|].
  pose proof (usage_is_the_panels_answer_for_an_owned_user
                (sample_env None []) usage_panel 5 plan_world _ _
                (surjective_pairing _)) as (Hdb & Hres & _).
  split; [exact Hdb | exact Hres].
Defined.

(** X27. Once the token is obtained, every way the request for the usage can
    fail ends in a service error and never in another exception: an HTTP
    error answer, a failed request and any other exception of the client
    are worded as a Marzban API error, while a JSON null answer and an
    error body that is not a JSON object are worded as an unexpected
    error. *)
Theorem usage_failures_are_service_errors
  (env : Env) (http_get : string -> string -> UsageResponse)
  (uid : Z) (w : World) (u : MarzbanUser) (panel : MarzbanPanel)
  (password token : string)
  (Huser : get_marzban_user_for_reseller (db w) uid (reseller_id (reseller w)) = Some u)
  (Hpanel : get_panel (db w) (marzban_panel_id u) = Some panel)
  (Hpassword : get_panel_decrypted_password env (db w) (panel_id panel) = Some password)
  (Hfilled : password <> "")
  (Htoken : get_marzban_access_token env (api_url panel) (admin_username panel) password
            = Returned (Some token))
  (Hgranted : token <> "") :
  let answer := http_get (usage_url (api_url panel) (marzban_username u)) token in
  let out := fst (get_marzban_user_usage_for_reseller env
                    (get_marzban_user_usage http_get) uid w) in
  match answer with
  | UsageOK (Some usage_data) => out = Returns usage_data
  | _ =>
      exists error_detail,
        out = Raises (ServiceFailure error_detail)
        /\ prefix (if reported_by_client answer then panel_failure_prefix
                   else unexpected_prefix) error_detail = true
  end.
Proof.
  intros answer out. subst out.
  unfold get_marzban_user_usage_for_reseller.
  rewrite Huser, Hpanel, Hpassword.
  assert (Hp : truthy (Some password) = Some password)
    by (destruct password; [contradiction|reflexivity]).
  assert (Ht : truthy (Some token) = Some token)
    by (destruct token; [contradiction|reflexivity]).
  rewrite Hp, Htoken, Ht. cbn [fst].
  unfold get_marzban_user_usage.
  fold (usage_url (api_url panel) (marzban_username u)). fold answer.
  destruct answer as [[usage_data|]|code [d|m]|e|e]; cbn [reported_by_client].
  - reflexivity.
  - eexists. split; [reflexivity|]. apply prefix_append.
  - destruct (code =? 404); eexists; (split; [reflexivity|]); apply prefix_append.
  - eexists. split; [reflexivity|]. apply prefix_append.
  - eexists. split; [reflexivity|]. apply prefix_append.
  - eexists. split; [reflexivity|]. apply prefix_append.
Qed.

Lemma usage_failures_are_service_errors_witness :
  exists error_detail,
    fst (get_marzban_user_usage_for_reseller (sample_env None [])
           (get_marzban_user_usage null_panel) 5 plan_world)
    = Raises (ServiceFailure error_detail)
    /\ prefix unexpected_prefix error_detail = true.
Proof.
  exact (usage_failures_are_service_errors (sample_env None []) null_panel 5 plan_world
           (alice None) panel1 "secret" "token"
           eq_refl eq_refl eq_refl ltac:(discriminate) eq_refl ltac:(discriminate)).
Defined.

(** X28. The client asks the same URL whether the panel's address is stored
    with its closing slash or without it. *)
Theorem usage_url_ignores_a_missing_closing_slash
  (http_get : string -> string -> UsageResponse) (panel_url token username : string)
  (Hbare : endswith_slash panel_url = false) :
  get_marzban_user_usage http_get (panel_url ++ "/") token username
  = get_marzban_user_usage http_get panel_url token username.
Proof.
  unfold get_marzban_user_usage, with_slash.
  rewrite endswith_slash_snoc, Hbare. reflexivity.
Qed.

Lemma usage_url_ignores_a_missing_closing_slash_witness :
  get_marzban_user_usage usage_panel "https://panel.example/" "token" "alice"
  = get_marzban_user_usage usage_panel "https://panel.example" "token" "alice".
Proof.
  exact (usage_url_ignores_a_missing_closing_slash usage_panel "https://panel.example"
           "token" "alice" eq_refl).
Defined.

(** * The synchronisation endpoint *)

Lemma sync_raises_only_missing_credentials env panel w e w' :
  sync_marzban_users_for_reseller_panel env panel w = (Raise e, w') ->
  e = MarzbanUserServiceError (MissingCredentials (panel_id panel))
  /\ w' = w
  /\ truthy (get_panel_decrypted_password env (db w) (panel_id panel)) = None.
Proof.
  unfold sync_marzban_users_for_reseller_panel. cbv zeta. intros H.
  destruct (truthy (get_panel_decrypted_password env (db w) (panel_id panel)));
    [|injection H as <- <-; repeat split].
  destruct (get_marzban_access_token env _ _ _) as [tok| |]; try discriminate H.
  destruct (truthy tok); try discriminate H.
  destruct (get_marzban_users env _ _ _); try discriminate H.
  destruct (sync_loop _ _ _ _ _ _ _). discriminate H.
Qed.

Lemma sync_with_refused_login env panel w password :
  truthy (get_panel_decrypted_password env (db w) (panel_id panel)) = Some password ->
  login_refused env panel password ->
  exists s,
    sync_marzban_users_for_reseller_panel env panel w
    = (Ok s, mkWorld (db w) (reseller w)
               (TokenCall (api_url panel) (admin_username panel) password
                :: remote_log w))
    /\ In (UnexpectedErrorEntry
             ("An unexpected error during sync: "
              ++ message (SyncAuthenticationFailed (panel_id panel))))
          (errors s).
Proof.
  intros Hpw (tok & Htok & Hfalsy).
  unfold sync_marzban_users_for_reseller_panel. cbv zeta.
  rewrite Hpw, Htok, Hfalsy.
  eexists. split; [reflexivity|].
  unfold caught_exception, add_error. cbn [errors].
  apply in_or_app. right. left. reflexivity.
Qed.

Lemma existsb_false_Forall {A} (f : A -> bool) (l : list A) :
  existsb f l = false -> Forall (fun x => f x = false) l.
Proof.
  induction l as [|x l IH]; cbn [existsb]; intros H; constructor.
  - now apply orb_false_elim in H.
  - apply IH. now apply orb_false_elim in H.
Qed.

Lemma is_critical_false (texts : list string) :
  is_critical texts = false ->
  Forall (fun t => contains "Authentication failed" t = false
                   /\ contains "Could not retrieve/decrypt password" t = false) texts.
Proof.
  destruct texts as [|t texts]; [constructor|].
  unfold is_critical. intros H. apply orb_false_elim in H as [Ha Hb].
  apply existsb_false_Forall in Ha, Hb.
  apply Forall_forall. intros x Hx.
  rewrite Forall_forall in Ha, Hb. split; [apply Ha | apply Hb]; exact Hx.
Qed.

Lemma is_critical_true (texts : list string) (t : string) :
  In t texts -> contains "Authentication failed" t = true -> is_critical texts = true.
Proof.
  intros Hin Ht. destruct texts as [|t0 texts]; [contradiction|].
  unfold is_critical. apply orb_true_intro. left.
  apply existsb_exists. exists t. split; assumption.
Qed.

(** X29. The synchronisation endpoint answers a refused login at the panel
    with status 500: the [HTTPException] with status 400 that it builds for
    a critical error is raised inside its own [try] and caught by the
    handler for unexpected errors.  Status 400 is answered only when the
    panel's stored password is missing or cannot be decrypted, and then
    nothing was sent or written; and a summary answered with status 200
    lists no error that the endpoint takes for critical. *)
Theorem sync_endpoint_answers_a_refused_login_with_500 :
  forall str_http_exception repr_errors repr_user env resellers d log rid pid
         answer d' log',
    sync_marzban_users_for_panel_and_reseller str_http_exception repr_errors repr_user
      env resellers d log rid pid = (answer, (d', log')) ->
    (forall r panel password,
        get_reseller resellers rid = Some r ->
        get_panel d pid = Some panel ->
        truthy (get_panel_decrypted_password env d pid) = Some password ->
        login_refused env panel password ->
        (exists detail, answer = HTTPException 500 detail)
        /\ d' = d
        /\ log' = TokenCall (api_url panel) (admin_username panel) password :: log)
    /\ (forall detail,
           answer = HTTPException 400 detail ->
           truthy (get_panel_decrypted_password env d pid) = None
           /\ detail = message (MissingCredentials pid)
           /\ d' = d /\ log' = log)
    /\ (forall s,
           answer = Response 200 s ->
           Forall (fun e =>
                     contains "Authentication failed" (error_text repr_user e) = false
                     /\ contains "Could not retrieve/decrypt password"
                          (error_text repr_user e) = false)
                  (errors s)).
Proof.
  intros str_http_exception repr_errors repr_user env resellers d log rid pid
         answer d' log' H.
  unfold sync_marzban_users_for_panel_and_reseller in H.
  destruct (get_reseller resellers rid) as [db_reseller|] eqn:Hr;
    [|injection H as <- <- <-; repeat split; intros; congruence].
  destruct (get_panel d pid) as [db_panel|] eqn:Hp;
    [|injection H as <- <- <-; repeat split; intros; congruence].
  pose proof (get_panel_id _ _ _ Hp) as Hid.
  destruct (sync_marzban_users_for_reseller_panel env db_panel
              (mkWorld d db_reseller log)) as [[s|e] w'] eqn:Hsync.
  - cbv zeta in H.
    destruct (is_critical (map (error_text repr_user) (errors s))) eqn:Hcrit;
      injection H as <- <- <-.
    + split; [|split; intros; discriminate].
      intros r panel password _ [= <-] Hpw Hlogin.
      rewrite <- Hid in Hpw.
      destruct (sync_with_refused_login env db_panel (mkWorld d db_reseller log)
                  password Hpw Hlogin) as (s0 & Hrun & _).
      rewrite Hrun in Hsync. injection Hsync as <- <-.
      split; [eexists; reflexivity|]. split; reflexivity.
    + split; [|split; [intros; discriminate|]].
      * intros r panel password _ [= <-] Hpw Hlogin. exfalso.
        rewrite <- Hid in Hpw.
        destruct (sync_with_refused_login env db_panel (mkWorld d db_reseller log)
                    password Hpw Hlogin) as (s0 & Hrun & Hin).
        rewrite Hrun in Hsync. injection Hsync as -> _.
        apply (in_map (error_text repr_user)) in Hin.
        rewrite (is_critical_true _ _ Hin) in Hcrit; [discriminate|].
        exact (contains_append "An unexpected error during sync: "
                 "Authentication failed"
                 (" for panel ID " ++ str_int (panel_id db_panel) ++ ".")).
      * intros s0 [= <-].
        apply is_critical_false in Hcrit.
        rewrite Forall_map in Hcrit. exact Hcrit.
  - apply sync_raises_only_missing_credentials in Hsync as (-> & -> & Hnone).
    cbn [db remote_log] in *. injection H as <- <- <-.
    rewrite Hid in Hnone.
    split; [|split; [|intros; discriminate]].
    + intros r panel password _ _ Hpw _. congruence.
    + intros detail [= <-]. rewrite Hid. repeat split. exact Hnone.
Qed.

Lemma sync_endpoint_answers_a_refused_login_with_500_witness :
  exists detail,
    fst (sync_marzban_users_for_panel_and_reseller plain_str_http_exception
           plain_repr_errors plain_repr_user refusing_env [reseller1]
           (sample_db [] None) [] 1 1)
    = HTTPException 500 detail.
Proof.
  destruct (sync_endpoint_answers_a_refused_login_with_500
              plain_str_http_exception plain_repr_errors plain_repr_user
              refusing_env [reseller1] (sample_db [] None) [] 1 1 _ _ _
              (surjective_pairing _)) as [Hrefused _].
  pose proof (Hrefused reseller1 panel1 "secret" eq_refl eq_refl eq_refl
                (ex_intro _ None (conj eq_refl eq_refl))) as [Hdetail _].
  exact Hdetail.
Defined.
